(** * Sentinel: the transaction-classification-and-alert pipeline

    A shallow embedding of the TypeScript services of the repository
    (AIService, TransactionRepository, AlertRuleRepository,
    TransactionService, AlertService and the POST /api/transactions
    route handler) together with the properties claimed for them.

    Modelling conventions.
    - A JavaScript [number] is a finite number, held as an exact
      rational ([Q]); [Infinity] and [NaN] are outside the model.
      Comparisons ([>], [<], [<=]) are the boolean comparisons on [Q].
      The services are embedded over a database whose SUM is exact; what
      is stated about the arithmetic of sums is stated either for amounts
      that a double-precision SUM adds without rounding ([adds_exactly])
      or over the module [Double], where SUM rounds every partial sum.
    - An [async] function is a computation in the monad [M]: it reads and
      writes the [World] (database, job queue, log of classifier calls)
      and either returns a value or throws an [Error].  A thrown error
      does not undo writes that happened before it.
    - The database rejects an operation only when it violates a constraint
      of the schema, and the queue rejects a job only when the world says
      so ([queueAccepts]); time-outs and lost connections of the database
      are outside the model.
    - [console.log], [console.warn] and [console.error] are not modelled.
    - Builtins of the JavaScript runtime ([JSON.parse],
      [Number.prototype.toFixed]) and the remote classifier are taken as
      parameters, collected in the record [Host]. *)

From Stdlib Require Import Ascii String QArith Qround Qabs Lqa.
From stdpp Require Import gmap strings list sorting pretty.

Local Open Scope string_scope.

(** ** Numbers *)

Definition Qltb (x y : Q) : bool := negb (Qle_bool y x).

(** ** JavaScript values as produced by [JSON.parse]

    A number is finite: a JSON text whose number overflows to [Infinity]
    has no value here. *)

#[warnings="-register-all"]
Inductive JsValue : Type :=
  | JNull
  | JBool (b : bool)
  | JNum (q : Q)
  | JStr (s : string)
  | JArr (xs : list JsValue)
  | JObj (fields : list (string * JsValue)).

(** The result of reading a property: [None] is [undefined]. *)
Definition JsProp : Type := option JsValue.

Fixpoint own_property (k : string) (fields : list (string * JsValue)) : JsProp :=
  match fields with
  | [] => None
  | (k', v) :: rest => if String.eqb k k' then Some v else own_property k rest
  end.

(** ** Errors *)

Inductive Error : Type :=
  | TypeError (msg : string)
  | SyntaxError (msg : string)
  | PlainError (msg : string)
  | OpenAIError (msg : string)
  | PrismaNotFound (msg : string)
  | PrismaUniqueConstraint (msg : string)
  | PrismaForeignKey (msg : string)
  | PrismaValidation (msg : string)
  | QueueError (msg : string).

Definition error_message (e : Error) : string :=
  match e with
  | TypeError m | SyntaxError m | PlainError m | OpenAIError m
  | PrismaNotFound m | PrismaUniqueConstraint m | PrismaForeignKey m
  | PrismaValidation m | QueueError m => m
  end.

(** [v.k] for the property names the program reads ([category],
    [confidence], [userId], [description], [amount]): none of them is a
    property of a primitive wrapper or of an array, so only objects
    answer; reading a property of [null] throws. *)
Definition get_prop (v : JsValue) (k : string) : Error + JsProp :=
  match v with
  | JNull => inl (TypeError ("Cannot read properties of null (reading '" +:+ k +:+ "')"))
  | JObj fields => inr (own_property k fields)
  | _ => inr None
  end.

(** JavaScript truthiness, as used by [!x] and [x || y]. *)
Definition truthy (p : JsProp) : bool :=
  match p with
  | None => false
  | Some JNull => false
  | Some (JBool b) => b
  | Some (JNum q) => negb (Qeq_bool q 0)
  | Some (JStr s) => negb (String.eqb s "")
  | Some (JArr _) => true
  | Some (JObj _) => true
  end.

(** [x || 0] for a number [x] or a missing one ([null]) *)
Definition or_zero (x : option Q) : Q :=
  match x with
  | Some q => if Qeq_bool q 0 then 0%Q else q
  | None => 0%Q
  end.

(** ** Strings: [String.prototype.trim]

    A string is a sequence of code units below 256.  Among those, the
    white space and line terminators that [trim] removes are TAB, LF, VT,
    FF, CR, SPACE and NO-BREAK SPACE. *)

Definition is_white_space (c : ascii) : bool :=
  let n := nat_of_ascii c in
  (n =? 9)%nat || (n =? 10)%nat || (n =? 11)%nat || (n =? 12)%nat
  || (n =? 13)%nat || (n =? 32)%nat || (n =? 160)%nat.

Fixpoint trimStart (s : string) : string :=
  match s with
  | EmptyString => EmptyString
  | String c rest => if is_white_space c then trimStart rest else s
  end.

Fixpoint trimEnd (s : string) : string :=
  match s with
  | EmptyString => EmptyString
  | String c rest =>
      match trimEnd rest with
      | EmptyString => if is_white_space c then EmptyString else String c EmptyString
      | r => String c r
      end
  end.

Definition trim (s : string) : string := trimEnd (trimStart s).

Fixpoint white_space_only (s : string) : bool :=
  match s with
  | EmptyString => true
  | String c rest => is_white_space c && white_space_only rest
  end.

(** ** Data model (src/types/index.ts and the documented schema) *)

Record ClassificationResult : Type := mkClassification {
  cr_category : string;
  cr_confidence : Q;
}.

Record TransactionInput : Type := mkTransactionInput {
  in_userId : string;
  in_description : string;
  in_amount : Q;
}.

Record TransactionCreate : Type := mkTransactionCreate {
  tc_userId : string;
  tc_description : string;
  tc_amount : Q;
  tc_category : string;
  tc_confidence : Q;
}.

Record TransactionOutput : Type := mkTransaction {
  tx_id : string;
  tx_userId : string;
  tx_description : string;
  tx_amount : Q;
  tx_category : string;
  tx_confidence : Q;
  tx_createdAt : nat;
  tx_updatedAt : nat;
}.

Record AlertRuleInput : Type := mkAlertRuleInput {
  ri_userId : string;
  ri_category : string;
  ri_threshold : Q;
}.

Record AlertRuleOutput : Type := mkAlertRule {
  rule_id : string;
  rule_userId : string;
  rule_category : string;
  rule_threshold : Q;
  rule_isActive : bool;
  rule_createdAt : nat;
  rule_updatedAt : nat;
}.

Record AlertEvent : Type := mkAlertEvent {
  ev_userId : string;
  ev_category : string;
  ev_threshold : Q;
  ev_totalSpent : Q;
  ev_message : string;
  ev_triggeredAt : nat;
}.

Record User : Type := mkUser {
  user_id : string;
  user_email : string;
}.

(** the payload of a job of the alert queue *)
Record AlertQueueJob : Type := mkJob {
  job_userId : string;
  job_transactionId : string;
  job_category : string;
  job_amount : Q;
}.

Record JobsOptions : Type := mkJobsOptions {
  opt_attempts : nat;
  opt_backoff_type : string;
  opt_backoff_delay : nat;
}.

Record QueuedJob : Type := mkQueuedJob {
  qj_name : string;
  qj_data : AlertQueueJob;
  qj_opts : JobsOptions;
}.

(** ** The world the services run in *)

(** Modelled from the spec: the relational schema (prisma/schema.prisma is
    not among the sources).  Section 3 and section 6 of the specification
    give three tables: users with a unique id, transactions owned by a
    user, and alert rules owned by a user with a uniqueness constraint on
    the pair (userId, category).  The constraints are enforced by the
    operations of [prisma] below, not by the types. *)
Record Db : Type := mkDb {
  users : gmap string User;
  transactions : list TransactionOutput;
  alertRules : list AlertRuleOutput;
}.

Record World : Type := mkWorld {
  db : Db;
  (** jobs accepted by the durable queue, oldest first *)
  jobs : list QueuedJob;
  (** whether the durable queue accepts a submitted job; when it does not,
      [alertQueue.add] rejects.  A call of [add] that never settles (the
      broker cannot be reached and the client keeps reconnecting) is
      outside the model. *)
  queueAccepts : bool;
  (** the calls of [openai.chat.completions.create], oldest first, each
      with the description it was made for; what the client does inside
      one call (its own retries of a failed request) is not recorded *)
  aiCalls : list string;
  (** the wall clock read by [new Date()] and by the database defaults *)
  now : nat;
  (** source of the generated primary keys *)
  idSeed : nat;
}.

Definition set_db (d : Db) (w : World) : World :=
  mkWorld d (jobs w) (queueAccepts w) (aiCalls w) (now w) (idSeed w).

(** ** The monad of asynchronous computations *)

Definition M (A : Type) : Type := World -> (Error + A) * World.

Definition ret {A} (a : A) : M A := fun w => (inr a, w).

Definition throw {A} (e : Error) : M A := fun w => (inl e, w).

Definition bind {A B} (m : M A) (k : A -> M B) : M B :=
  fun w =>
    match m w with
    | (inr a, w') => k a w'
    | (inl e, w') => (inl e, w')
    end.

(** [try { m } catch (e) { h e }] *)
Definition try_catch {A} (m : M A) (h : Error -> M A) : M A :=
  fun w =>
    match m w with
    | (inr a, w') => (inr a, w')
    | (inl e, w') => h e w'
    end.

(** a synchronous step that may throw *)
Definition lift {A} (r : Error + A) : M A :=
  match r with
  | inl e => throw e
  | inr a => ret a
  end.

Definition get_world : M World := fun w => (inr w, w).

Notation "x <- m ;; k" := (bind m (fun x => k))
  (at level 100, m at next level, right associativity).

(** ** The host: runtime builtins and the remote classifier *)

(** The part of an OpenAI chat completion that the program reads through
    [response.choices[0]?.message?.content].  [None] stands for a missing
    (undefined or null) member. *)
Record ChatMessage : Type := mkChatMessage { content : option string }.
Record ChatChoice : Type := mkChatChoice { message : option ChatMessage }.
Record ChatCompletion : Type := mkChatCompletion { choices : option (list ChatChoice) }.

Record Host : Type := mkHost {
  (** [openai.chat.completions.create] for a given transaction
      description: it rejects or resolves with a completion *)
  openai_create : string -> Error + ChatCompletion;
  (** [JSON.parse]: throws a SyntaxError or returns a value *)
  JSON_parse : string -> Error + JsValue;
  (** [x.toFixed(digits)] *)
  toFixed : Q -> nat -> string;
}.

(** ** The Prisma client over the schema

    The client's operations follow Prisma's contract: [findUniqueOrThrow]
    throws when no row matches, [create] inserts a row with generated id
    and time stamps and throws when the insert violates a constraint,
    [findUnique] returns the row or null, [aggregate] computes over the
    matching rows. *)

Definition fresh_id (prefix : string) (seed : nat) : string :=
  prefix +:+ pretty seed.

Module prisma.

Module user.

Definition findUniqueOrThrow (id : string) : M User :=
  fun w =>
    match users (db w) !! id with
    | Some u => (inr u, w)
    | None => (inl (PrismaNotFound "No User found"), w)
    end.

Definition create (id email : string) : M User :=
  fun w =>
    match users (db w) !! id with
    | Some _ =>
        (inl (PrismaUniqueConstraint "Unique constraint failed on the fields: (`id`)"), w)
    | None =>
        let u := mkUser id email in
        let d := db w in
        (inr u, set_db (mkDb (<[id := u]> (users d)) (transactions d) (alertRules d)) w)
    end.

End user.

Module transaction.

Definition create (data : TransactionCreate) : M TransactionOutput :=
  fun w =>
    let d := db w in
    match users d !! tc_userId data with
    | None =>
        (inl (PrismaForeignKey "Foreign key constraint failed on the field: `userId`"), w)
    | Some _ =>
        let t := mkTransaction (fresh_id "tx" (idSeed w)) (tc_userId data)
                   (tc_description data) (tc_amount data) (tc_category data)
                   (tc_confidence data) (now w) (now w) in
        (inr t,
         mkWorld (mkDb (users d) (transactions d ++ [t]) (alertRules d))
                 (jobs w) (queueAccepts w) (aiCalls w) (now w) (S (idSeed w)))
    end.

Definition matches (userId category : string) (t : TransactionOutput) : bool :=
  String.eqb (tx_userId t) userId && String.eqb (tx_category t) category.

(** the exact sum of the amounts; the sum as the database rounds it is
    [Double.sum_amounts] *)
Definition sum_amounts (ts : list TransactionOutput) : Q :=
  foldr (fun t acc => (tx_amount t + acc)%Q) 0%Q ts.

(** [aggregate({ where: { userId, category }, _sum: { amount: true } })]
    projected on [_sum.amount]: SQL's SUM over no row is null. *)
Definition aggregate_sum_amount (userId category : string) : M (option Q) :=
  fun w =>
    match filter (fun t => matches userId category t = true) (transactions (db w)) with
    | [] => (inr None, w)
    | rows => (inr (Some (sum_amounts rows)), w)
    end.

Definition has_id (id : string) (t : TransactionOutput) : bool :=
  String.eqb (tx_id t) id.

(** [orderBy: { createdAt: "desc" }].  The database does not fix the order
    of rows with equal time stamps; the sort used here is one such order. *)
Definition newest_first (a b : TransactionOutput) : Prop :=
  (tx_createdAt b <= tx_createdAt a)%nat.

#[global] Instance newest_first_dec : RelDecision newest_first :=
  fun a b => decide (tx_createdAt b <= tx_createdAt a)%nat.

(** [findMany({ where, orderBy: { createdAt: "desc" } })] *)
Definition findMany (cond : TransactionOutput -> bool) : M (list TransactionOutput) :=
  fun w =>
    (inr (merge_sort newest_first
            (filter (fun t => cond t = true) (transactions (db w)))), w).

(** [findUnique({ where: { id } })] *)
Definition findUnique (id : string) : M (option TransactionOutput) :=
  fun w => (inr (List.find (has_id id) (transactions (db w))), w).

(** [delete({ where: { id } })]: throws when no row has the id; the id is
    the primary key, so the rows with the id are at most one. *)
Definition delete (id : string) : M TransactionOutput :=
  fun w =>
    let d := db w in
    match List.find (has_id id) (transactions d) with
    | None => (inl (PrismaNotFound "Record to delete does not exist."), w)
    | Some t =>
        (inr t,
         mkWorld (mkDb (users d)
                       (List.filter (fun o => negb (has_id id o)) (transactions d))
                       (alertRules d))
                 (jobs w) (queueAccepts w) (aiCalls w) (now w) (idSeed w))
    end.

End transaction.

Module alertRule.

Definition has_key (userId category : string) (r : AlertRuleOutput) : bool :=
  String.eqb (rule_userId r) userId && String.eqb (rule_category r) category.

Definition findUnique (userId category : string) : M (option AlertRuleOutput) :=
  fun w => (inr (List.find (has_key userId category) (alertRules (db w))), w).

(** Modelled from the spec: the constraints of the alert-rule table, which
    prisma/schema.prisma (not among the sources) declares.  A rule belongs
    to an existing user, and "at most one rule per (userId, category)
    pair" is "enforced as a uniqueness constraint": the insert of a second
    rule for a pair is rejected.  [isActive] is not given by the caller;
    a created rule is active. *)
Definition create (userId category : string) (threshold : Q) : M AlertRuleOutput :=
  fun w =>
    let d := db w in
    match users d !! userId with
    | None =>
        (inl (PrismaForeignKey "Foreign key constraint failed on the field: `userId`"), w)
    | Some _ =>
        if existsb (has_key userId category) (alertRules d) then
          (inl (PrismaUniqueConstraint
                  "Unique constraint failed on the fields: (`userId`,`category`)"), w)
        else
          let r := mkAlertRule (fresh_id "rule" (idSeed w)) userId category threshold
                     true (now w) (now w) in
          (inr r,
           mkWorld (mkDb (users d) (transactions d) (alertRules d ++ [r]))
                   (jobs w) (queueAccepts w) (aiCalls w) (now w) (S (idSeed w)))
    end.

Definition has_id (id : string) (r : AlertRuleOutput) : bool :=
  String.eqb (rule_id r) id.

Definition newest_first (a b : AlertRuleOutput) : Prop :=
  (rule_createdAt b <= rule_createdAt a)%nat.

#[global] Instance newest_first_dec : RelDecision newest_first :=
  fun a b => decide (rule_createdAt b <= rule_createdAt a)%nat.

(** [findMany({ where, orderBy: { createdAt: "desc" } })] *)
Definition findMany (cond : AlertRuleOutput -> bool) : M (list AlertRuleOutput) :=
  fun w =>
    (inr (merge_sort newest_first
            (filter (fun r => cond r = true) (alertRules (db w)))), w).

(** the [data] of an update: the members of [Partial<AlertRuleInput>], and
    [isActive], which [toggleAlertRule] and the PATCH handler pass through
    a cast; [None] is a member that is not given *)
Record UpdateData : Type := mkUpdateData {
  up_userId : option string;
  up_category : option string;
  up_threshold : option Q;
  up_isActive : option bool;
}.

Definition apply_update (data : UpdateData) (clock : nat) (r : AlertRuleOutput)
  : AlertRuleOutput :=
  mkAlertRule (rule_id r)
    (default (rule_userId r) (up_userId data))
    (default (rule_category r) (up_category data))
    (default (rule_threshold r) (up_threshold data))
    (default (rule_isActive r) (up_isActive data))
    (rule_createdAt r) clock.

(** [update({ where: { id }, data })]: throws when no row has the id, when
    a new user id names no user, and when another row already has the new
    pair (userId, category); [updatedAt] is set by the client. *)
Definition update (id : string) (data : UpdateData) : M AlertRuleOutput :=
  fun w =>
    let d := db w in
    match List.find (has_id id) (alertRules d) with
    | None => (inl (PrismaNotFound "Record to update not found."), w)
    | Some r =>
        let r' := apply_update data (now w) r in
        match up_userId data, users d !! rule_userId r' with
        | Some _, None =>
            (inl (PrismaForeignKey "Foreign key constraint failed on the field: `userId`"), w)
        | _, _ =>
            if existsb (fun o => negb (has_id id o)
                                 && has_key (rule_userId r') (rule_category r') o)
                       (alertRules d) then
              (inl (PrismaUniqueConstraint
                      "Unique constraint failed on the fields: (`userId`,`category`)"), w)
            else
              (inr r',
               mkWorld (mkDb (users d) (transactions d)
                             (map (fun o => if has_id id o then r' else o) (alertRules d)))
                       (jobs w) (queueAccepts w) (aiCalls w) (now w) (idSeed w))
        end
    end.

(** [delete({ where: { id } })] *)
Definition delete (id : string) : M AlertRuleOutput :=
  fun w =>
    let d := db w in
    match List.find (has_id id) (alertRules d) with
    | None => (inl (PrismaNotFound "Record to delete does not exist."), w)
    | Some r =>
        (inr r,
         mkWorld (mkDb (users d) (transactions d)
                       (List.filter (fun o => negb (has_id id o)) (alertRules d)))
                 (jobs w) (queueAccepts w) (aiCalls w) (now w) (idSeed w))
    end.

End alertRule.

End prisma.

(** ** The job queue (src/unnamed/part_003, first file: services/queue.service.ts) *)

Module alertQueue.

(** [alertQueue.add(name, data, opts)]: it resolves when the broker has
    taken the job and rejects when the broker refuses it. *)
Definition add (name : string) (data : AlertQueueJob) (opts : JobsOptions) : M unit :=
  fun w =>
    if queueAccepts w then
      (inr tt,
       mkWorld (db w) (jobs w ++ [mkQueuedJob name data opts]) (queueAccepts w)
               (aiCalls w) (now w) (idSeed w))
    else (inl (QueueError "queue unavailable"), w).

End alertQueue.

(** ** The classification gateway (src/src/services/ai.service.ts) *)

Module AIService.

Definition ALLOWED_CATEGORIES : list string :=
  ["Food"; "Transport"; "Utilities"; "Entertainment"; "Shopping"].

(** [xs.includes(p)] for an array of strings: only a string can be found. *)
Definition includes (xs : list string) (p : JsProp) : bool :=
  match p with
  | Some (JStr s) => existsb (String.eqb s) xs
  | _ => false
  end.

Definition default_classification : ClassificationResult :=
  mkClassification "Shopping" (1 # 2).

(** the call of [openai.chat.completions.create]; it is recorded in
    [aiCalls] whether it resolves or rejects *)
Definition chat_completions_create (host : Host) (description : string) : M ChatCompletion :=
  fun w =>
    (openai_create host description,
     mkWorld (db w) (jobs w) (queueAccepts w) (aiCalls w ++ [description]) (now w) (idSeed w)).

(** [response.choices[0]?.message?.content] *)
Definition first_content (response : ChatCompletion) : Error + option string :=
  match choices response with
  | None => inl (TypeError "Cannot read properties of undefined (reading '0')")
  | Some [] => inr None
  | Some (c :: _) =>
      match message c with
      | None => inr None
      | Some m => inr (content m)
      end
  end.

(** the body of the [try] block *)
Definition classify_body (host : Host) (description : string) : M ClassificationResult :=
  if String.eqb description "" || (String.length (trim description) =? 0)%nat then
    throw (PlainError "Description cannot be empty")
  else
    response <- chat_completions_create host description ;;
    content <- lift (first_content response) ;;
    match content with
    | None | Some EmptyString => throw (PlainError "No response from OpenAI API")
    | Some text =>
        result <- lift (JSON_parse host text) ;;
        category <- lift (get_prop result "category") ;;
        if negb (truthy category) || negb (includes ALLOWED_CATEGORIES category) then
          ret default_classification
        else
          confidence <- lift (get_prop result "confidence") ;;
          match category, confidence with
          | Some (JStr c), Some (JNum q) =>
              if Qltb q 0 || Qltb 1 q then ret default_classification
              else ret (mkClassification c q)
          | _, _ => ret default_classification
          end
    end.

Definition classifyTransaction (host : Host) (description : string) : M ClassificationResult :=
  try_catch (classify_body host description)
            (fun _ => ret default_classification).

Definition isValidCategory (category : string) : bool :=
  existsb (String.eqb category) ALLOWED_CATEGORIES.

Definition getAllowedCategories : list string := ALLOWED_CATEGORIES.

End AIService.

(** ** The transaction repository (src/src/repositories/transaction.repository.ts) *)

Module TransactionRepository.

(** the inner [try]/[catch]: make sure the user exists *)
Definition ensure_user (userId : string) : M unit :=
  try_catch
    (_ <- prisma.user.findUniqueOrThrow userId ;; ret tt)
    (fun _ =>
       _ <- prisma.user.create userId (userId +:+ "@sentinel.local") ;; ret tt).

Definition create (data : TransactionCreate) : M TransactionOutput :=
  try_catch
    (_ <- ensure_user (tc_userId data) ;;
     prisma.transaction.create data)
    (fun error => throw error).

(** [result._sum.amount || 0] *)
Definition getTotalByCategory (userId category : string) : M Q :=
  try_catch
    (result <- prisma.transaction.aggregate_sum_amount userId category ;;
     ret (or_zero result))
    (fun error => throw error).

Definition findByUserId (userId : string) : M (list TransactionOutput) :=
  try_catch
    (prisma.transaction.findMany (fun t => String.eqb (tx_userId t) userId))
    (fun error => throw error).

Definition findByCategory (userId category : string) : M (list TransactionOutput) :=
  try_catch
    (prisma.transaction.findMany (prisma.transaction.matches userId category))
    (fun error => throw error).

Definition findById (id : string) : M (option TransactionOutput) :=
  try_catch (prisma.transaction.findUnique id) (fun error => throw error).

Definition delete (id : string) : M TransactionOutput :=
  try_catch (prisma.transaction.delete id) (fun error => throw error).

End TransactionRepository.

(** ** The alert-rule repository (src/unnamed/part_005) *)

Module AlertRuleRepository.

Definition create (data : AlertRuleInput) : M AlertRuleOutput :=
  try_catch
    (prisma.alertRule.create (ri_userId data) (ri_category data) (ri_threshold data))
    (fun error => throw error).

Definition findByUserAndCategory (userId category : string) : M (option AlertRuleOutput) :=
  try_catch
    (prisma.alertRule.findUnique userId category)
    (fun error => throw error).

Definition findByUserId (userId : string) : M (list AlertRuleOutput) :=
  try_catch
    (prisma.alertRule.findMany (fun r => String.eqb (rule_userId r) userId))
    (fun error => throw error).

Definition update (id : string) (data : prisma.alertRule.UpdateData) : M AlertRuleOutput :=
  try_catch (prisma.alertRule.update id data) (fun error => throw error).

Definition delete (id : string) : M AlertRuleOutput :=
  try_catch (prisma.alertRule.delete id) (fun error => throw error).

Definition findActiveByUserId (userId : string) : M (list AlertRuleOutput) :=
  try_catch
    (prisma.alertRule.findMany
       (fun r => String.eqb (rule_userId r) userId && rule_isActive r))
    (fun error => throw error).

End AlertRuleRepository.

(** ** The alert service (src/unnamed/part_003, second file) *)

Module AlertService.

Definition alert_message (host : Host) (category : string) (totalSpent threshold : Q) : string :=
  "Alert: You've exceeded your " +:+ category +:+ " budget! Spent: $"
    +:+ toFixed host totalSpent 2 +:+ ", Limit: $" +:+ toFixed host threshold 2.

Definition checkAndTriggerAlert (host : Host) (userId category : string)
  : M (option AlertEvent) :=
  try_catch
    (alertRule <- AlertRuleRepository.findByUserAndCategory userId category ;;
     match alertRule with
     | None => ret None
     | Some rule =>
         if negb (rule_isActive rule) then ret None
         else
           totalSpent <- TransactionRepository.getTotalByCategory userId category ;;
           if Qltb (rule_threshold rule) totalSpent then
             w <- get_world ;;
             ret (Some (mkAlertEvent userId category (rule_threshold rule) totalSpent
                          (alert_message host category totalSpent (rule_threshold rule))
                          (now w)))
           else ret None
     end)
    (fun error => throw error).

Definition createAlertRule (data : AlertRuleInput) : M AlertRuleOutput :=
  try_catch (AlertRuleRepository.create data) (fun error => throw error).

Definition getUserAlertRules (userId : string) : M (list AlertRuleOutput) :=
  try_catch (AlertRuleRepository.findByUserId userId) (fun error => throw error).

Definition updateAlertRule (id : string) (data : prisma.alertRule.UpdateData)
  : M AlertRuleOutput :=
  try_catch (AlertRuleRepository.update id data) (fun error => throw error).

Definition deleteAlertRule (id : string) : M AlertRuleOutput :=
  try_catch (AlertRuleRepository.delete id) (fun error => throw error).

Definition toggleAlertRule (id : string) (isActive : bool) : M AlertRuleOutput :=
  try_catch
    (AlertRuleRepository.update id
       (prisma.alertRule.mkUpdateData None None None (Some isActive)))
    (fun error => throw error).

End AlertService.

(** ** The evaluation over a database that adds in double precision

    The column [amount] is a double-precision float: SUM adds the matching
    rows one after the other and rounds every partial sum to a double.
    [rnd] is that rounding.  The three functions are
    [prisma.transaction.aggregate_sum_amount],
    [TransactionRepository.getTotalByCategory] (src/src/repositories/transaction.repository.ts)
    and [AlertService.checkAndTriggerAlert] (src/unnamed/part_003) again,
    with the rounding made explicit; without rounding they are the
    functions above.  Sums that overflow are outside the model. *)

Module Double.

Definition sum_amounts (rnd : Q -> Q) (ts : list TransactionOutput) : Q :=
  fold_left (fun acc t => rnd (acc + tx_amount t)%Q) ts 0%Q.

Definition aggregate_sum_amount (rnd : Q -> Q) (userId category : string) : M (option Q) :=
  fun w =>
    match filter (fun t => prisma.transaction.matches userId category t = true)
                 (transactions (db w)) with
    | [] => (inr None, w)
    | rows => (inr (Some (sum_amounts rnd rows)), w)
    end.

(** [result._sum.amount || 0] *)
Definition getTotalByCategory (rnd : Q -> Q) (userId category : string) : M Q :=
  try_catch
    (result <- aggregate_sum_amount rnd userId category ;;
     ret (or_zero result))
    (fun error => throw error).

Definition checkAndTriggerAlert (rnd : Q -> Q) (host : Host) (userId category : string)
  : M (option AlertEvent) :=
  try_catch
    (alertRule <- AlertRuleRepository.findByUserAndCategory userId category ;;
     match alertRule with
     | None => ret None
     | Some rule =>
         if negb (rule_isActive rule) then ret None
         else
           totalSpent <- getTotalByCategory rnd userId category ;;
           if Qltb (rule_threshold rule) totalSpent then
             w <- get_world ;;
             ret (Some (mkAlertEvent userId category (rule_threshold rule) totalSpent
                          (AlertService.alert_message host category totalSpent
                             (rule_threshold rule))
                          (now w)))
           else ret None
     end)
    (fun error => throw error).

End Double.

(** ** The transaction service (src/unnamed/part_004) *)

Module TransactionService.

Definition job_options : JobsOptions := mkJobsOptions 3 "exponential" 2000.

Definition createTransaction (host : Host) (data : TransactionInput) : M TransactionOutput :=
  try_catch
    (classification <- AIService.classifyTransaction host (in_description data) ;;
     transaction <- TransactionRepository.create
                      (mkTransactionCreate (in_userId data) (in_description data)
                         (in_amount data) (cr_category classification)
                         (cr_confidence classification)) ;;
     _ <- alertQueue.add "new-transaction"
            (mkJob (in_userId data) (tx_id transaction) (tx_category transaction)
                   (tx_amount transaction))
            job_options ;;
     ret transaction)
    (fun error => throw error).

Definition getUserTransactions (userId : string) : M (list TransactionOutput) :=
  try_catch (TransactionRepository.findByUserId userId) (fun error => throw error).

Definition getTransactionsByCategory (userId category : string)
  : M (list TransactionOutput) :=
  try_catch
    (if negb (AIService.isValidCategory category) then
       throw (PlainError ("Invalid category: " +:+ category))
     else TransactionRepository.findByCategory userId category)
    (fun error => throw error).

(** the loop [for (const category of ...) summary[category] = await ...] *)
Fixpoint summarise (userId : string) (categories : list string) (summary : gmap string Q)
  : M (gmap string Q) :=
  match categories with
  | [] => ret summary
  | category :: rest =>
      total <- TransactionRepository.getTotalByCategory userId category ;;
      summarise userId rest (<[category := total]> summary)
  end.

Definition getSpendingSummary (userId : string) : M (gmap string Q) :=
  try_catch
    (summarise userId AIService.getAllowedCategories ∅)
    (fun error => throw error).

Definition deleteTransaction (transactionId userId : string) : M TransactionOutput :=
  try_catch
    (transaction <- TransactionRepository.findById transactionId ;;
     match transaction with
     | None => throw (PlainError "Transaction not found or unauthorized")
     | Some t =>
         if negb (String.eqb (tx_userId t) userId) then
           throw (PlainError "Transaction not found or unauthorized")
         else TransactionRepository.delete transactionId
     end)
    (fun error => throw error).

End TransactionService.

(** ** The alert worker (src/src/workers/alert.worker.ts) *)

Module alertWorker.

(** what the processor returns for a job *)
Record JobResult : Type := mkJobResult {
  res_success : bool;
  res_alertTriggered : bool;
  res_message : option string;
}.

Definition processor (host : Host) (job : AlertQueueJob) : M JobResult :=
  try_catch
    (alertEvent <- AlertService.checkAndTriggerAlert host (job_userId job) (job_category job) ;;
     match alertEvent with
     | Some ev => ret (mkJobResult true true (Some (ev_message ev)))
     | None => ret (mkJobResult true false None)
     end)
    (fun error => throw error).

End alertWorker.

(** ** The response wrapper (src/src/lib/api-response.ts) *)

Module Api.

Record Response (T : Type) : Type := mkResponse {
  success : bool;
  data : option T;
  error : option string;
  message : option string;
  statusCode : nat;
}.

Arguments mkResponse {T} _ _ _ _ _.
Arguments success {T} _.
Arguments data {T} _.
Arguments error {T} _.
Arguments message {T} _.
Arguments statusCode {T} _.

Definition successResponse {T} (data : T) (statusCode : nat) (msg : string) : Response T :=
  mkResponse true (Some data) None (Some msg) statusCode.

Definition errorResponse {T} (error : string) (statusCode : nat) : Response T :=
  mkResponse false None (Some error) None statusCode.

(** the query parameters a GET handler reads; [None] is an absent one *)
Record Query : Type := mkQuery {
  q_userId : option string;
  q_category : option string;
}.

(** [!p] for a query parameter *)
Definition absent (p : option string) : bool :=
  match p with
  | None => true
  | Some s => String.eqb s ""
  end.

End Api.

(** ** POST /api/transactions (src/src/app/api/spending/route.ts, second file) *)

Module Route.

Record NextRequest : Type := mkRequest { req_body : string }.

Record ApiResponse : Type := mkApiResponse {
  resp_success : bool;
  resp_data : option TransactionOutput;
  resp_error : option string;
  resp_message : option string;
  resp_statusCode : nat;
}.

(** src/src/lib/api-response.ts *)
Definition successResponse (data : TransactionOutput) (statusCode : nat) (msg : string)
  : ApiResponse :=
  mkApiResponse true (Some data) None (Some msg) statusCode.

Definition errorResponse (error : string) (statusCode : nat) : ApiResponse :=
  mkApiResponse false None (Some error) None statusCode.

(** Types are erased at run time: the handler passes whatever values
    passed its checks.  With two strings and a number this is the
    service call.  Otherwise [description.trim] is not a function
    (caught inside [classifyTransaction], which then answers the default
    without any request to the classifier), and the Prisma client
    refuses an argument of the wrong type before it queries the
    database: at [findUniqueOrThrow] and [user.create] for the user id,
    at [transaction.create] for the other fields. *)
Definition createTransaction_erased (host : Host) (userId description amount : JsProp)
  : M TransactionOutput :=
  match userId, description, amount with
  | Some (JStr u), Some (JStr d), Some (JNum a) =>
      TransactionService.createTransaction host (mkTransactionInput u d a)
  | _, _, _ =>
      _ <- match description with
           | Some (JStr d) => _ <- AIService.classifyTransaction host d ;; ret tt
           | _ => ret tt
           end ;;
      _ <- match userId with
           | Some (JStr u) => TransactionRepository.ensure_user u
           | _ => ret tt
           end ;;
      throw (PrismaValidation "Invalid invocation: argument of the wrong type")
  end.

(** one member of the pattern [const { userId, description, amount } = body] *)
Definition destructure (body : JsValue) (k : string) : Error + JsProp :=
  match body with
  | JNull =>
      inl (TypeError ("Cannot destructure property '" +:+ k +:+ "' of 'body' as it is null."))
  | _ => get_prop body k
  end.

Definition is_undefined (p : JsProp) : bool :=
  match p with None => true | Some _ => false end.

(** [typeof p === "number"] *)
Definition is_number (p : JsProp) : bool :=
  match p with Some (JNum _) => true | _ => false end.

(** [p <= 0] for a number [p] *)
Definition le_zero (p : JsProp) : bool :=
  match p with Some (JNum q) => Qle_bool q 0 | _ => false end.

Definition POST (host : Host) (request : NextRequest) : M ApiResponse :=
  try_catch
    (body <- lift (JSON_parse host (req_body request)) ;;
     userId <- lift (destructure body "userId") ;;
     description <- lift (destructure body "description") ;;
     amount <- lift (destructure body "amount") ;;
     if negb (truthy userId) || negb (truthy description) || is_undefined amount then
       ret (errorResponse "Missing required fields: userId, description, amount" 400)
     else if negb (is_number amount) || le_zero amount then
       ret (errorResponse "Amount must be a positive number" 400)
     else
       transaction <- createTransaction_erased host userId description amount ;;
       ret (successResponse transaction 201 "Transaction created successfully"))
    (fun error => ret (errorResponse (error_message error) 500)).

(** GET /api/transactions *)
Definition GET (query : Api.Query) : M (Api.Response (list TransactionOutput)) :=
  try_catch
    (if Api.absent (Api.q_userId query) then
       ret (Api.errorResponse "Missing required query parameter: userId" 400)
     else
       let userId := default "" (Api.q_userId query) in
       transactions <-
         (if negb (Api.absent (Api.q_category query)) then
            TransactionService.getTransactionsByCategory userId
              (default "" (Api.q_category query))
          else TransactionService.getUserTransactions userId) ;;
       ret (Api.successResponse transactions 200
              ("Retrieved " +:+ pretty (length transactions) +:+ " transaction(s)")))
    (fun error => ret (Api.errorResponse (error_message error) 500)).

End Route.

(** ** GET /api/spending (src/src/app/api/spending/route.ts, first file) *)

Module SpendingRoute.

Definition GET (query : Api.Query) : M (Api.Response (gmap string Q)) :=
  try_catch
    (if Api.absent (Api.q_userId query) then
       ret (Api.errorResponse "Missing required query parameter: userId" 400)
     else
       summary <- TransactionService.getSpendingSummary (default "" (Api.q_userId query)) ;;
       ret (Api.successResponse summary 200 "Spending summary retrieved successfully"))
    (fun error => ret (Api.errorResponse (error_message error) 500)).

End SpendingRoute.

(** ** /api/alert-rules (src/unnamed/part_006) *)

Module AlertRulesRoute.

(** Types are erased at run time: a truthy user id that is not a string
    reaches the Prisma client, which refuses it before any query. *)
Definition createAlertRule_erased (userId category threshold : JsProp) : M AlertRuleOutput :=
  match userId, category, threshold with
  | Some (JStr u), Some (JStr c), Some (JNum q) =>
      AlertService.createAlertRule (mkAlertRuleInput u c q)
  | _, _, _ => throw (PrismaValidation "Invalid invocation: argument of the wrong type")
  end.

Definition POST (host : Host) (request : Route.NextRequest) : M (Api.Response AlertRuleOutput) :=
  try_catch
    (body <- lift (JSON_parse host (Route.req_body request)) ;;
     userId <- lift (Route.destructure body "userId") ;;
     category <- lift (Route.destructure body "category") ;;
     threshold <- lift (Route.destructure body "threshold") ;;
     if negb (truthy userId) || negb (truthy category) || Route.is_undefined threshold then
       ret (Api.errorResponse "Missing required fields: userId, category, threshold" 400)
     else if negb (AIService.includes AIService.ALLOWED_CATEGORIES category) then
       ret (Api.errorResponse
              ("Invalid category. Allowed categories: "
                 +:+ String.concat ", " AIService.getAllowedCategories) 400)
     else if negb (Route.is_number threshold) || Route.le_zero threshold then
       ret (Api.errorResponse "Threshold must be a positive number" 400)
     else
       alertRule <- createAlertRule_erased userId category threshold ;;
       ret (Api.successResponse alertRule 201 "Alert rule created successfully"))
    (fun error => ret (Api.errorResponse (error_message error) 500)).

Definition GET (query : Api.Query) : M (Api.Response (list AlertRuleOutput)) :=
  try_catch
    (if Api.absent (Api.q_userId query) then
       ret (Api.errorResponse "Missing required query parameter: userId" 400)
     else
       alertRules <- AlertService.getUserAlertRules (default "" (Api.q_userId query)) ;;
       ret (Api.successResponse alertRules 200
              ("Retrieved " +:+ pretty (length alertRules) +:+ " alert rule(s)")))
    (fun error => ret (Api.errorResponse (error_message error) 500)).

End AlertRulesRoute.

(** ** /api/alert-rules/[id] (src/src/app/api/alert-rules/[id]/route.ts) *)

Module AlertRuleRoute.

(** [updateData] as the handler builds it: the threshold passed the check
    when it is given; [isActive] is passed as it came, and the Prisma
    client refuses a value that is not a boolean before any query. *)
Definition updateAlertRule_erased (id : string) (threshold isActive : JsProp)
  : M AlertRuleOutput :=
  match threshold, isActive with
  | None, None =>
      AlertService.updateAlertRule id (prisma.alertRule.mkUpdateData None None None None)
  | None, Some (JBool b) =>
      AlertService.updateAlertRule id (prisma.alertRule.mkUpdateData None None None (Some b))
  | Some (JNum q), None =>
      AlertService.updateAlertRule id (prisma.alertRule.mkUpdateData None None (Some q) None)
  | Some (JNum q), Some (JBool b) =>
      AlertService.updateAlertRule id
        (prisma.alertRule.mkUpdateData None None (Some q) (Some b))
  | _, _ => throw (PrismaValidation "Invalid invocation: argument of the wrong type")
  end.

Definition PATCH (host : Host) (request : Route.NextRequest) (id : string)
  : M (Api.Response AlertRuleOutput) :=
  try_catch
    (body <- lift (JSON_parse host (Route.req_body request)) ;;
     threshold <- lift (Route.destructure body "threshold") ;;
     isActive <- lift (Route.destructure body "isActive") ;;
     if Route.is_undefined threshold && Route.is_undefined isActive then
       ret (Api.errorResponse
              "At least one field must be provided: threshold or isActive" 400)
     else if negb (Route.is_undefined threshold)
             && (negb (Route.is_number threshold) || Route.le_zero threshold) then
       ret (Api.errorResponse "Threshold must be a positive number" 400)
     else
       updatedAlertRule <- updateAlertRule_erased id threshold isActive ;;
       ret (Api.successResponse updatedAlertRule 200 "Alert rule updated successfully"))
    (fun error => ret (Api.errorResponse (error_message error) 500)).

Definition DELETE (id : string) : M (Api.Response AlertRuleOutput) :=
  try_catch
    (deletedAlertRule <- AlertService.deleteAlertRule id ;;
     ret (Api.successResponse deletedAlertRule 200 "Alert rule deleted successfully"))
    (fun error => ret (Api.errorResponse (error_message error) 500)).

End AlertRuleRoute.

(** ** A concrete host for the scenarios *)

Module Demo.

Definition dq : string := String (ascii_of_nat 34) EmptyString.

Definition quoted (s : string) : string := dq +:+ s +:+ dq.

(** the text [{"category": "<c>", "confidence": <q>}] *)
Definition answer_text (c q : string) : string :=
  "{" +:+ quoted "category" +:+ ": " +:+ quoted c +:+ ", "
      +:+ quoted "confidence" +:+ ": " +:+ q +:+ "}".

Definition answer_value (c : string) (q : Q) : JsValue :=
  JObj [("category", JStr c); ("confidence", JNum q)].

Definition completion (text : string) : ChatCompletion :=
  mkChatCompletion (Some [mkChatChoice (Some (mkChatMessage (Some text)))]).

(** a classifier with a fixed answer for each description *)
Definition openai (description : string) : Error + ChatCompletion :=
  if String.eqb description "Coffee at Starbucks" then
    inr (completion (answer_text "Food" "0.95"))
  else if String.eqb description "Uber ride" then
    inr (completion (answer_text "Travel" "0.9"))
  else if String.eqb description "Netflix" then
    inr (completion (answer_text "Entertainment" "1.5"))
  else if String.eqb description "Lottery" then
    inr (completion "I cannot classify this.")
  else if String.eqb description "Nothing" then
    inr (completion "null")
  else inl (OpenAIError "Connection error.").

(** [JSON.parse] on the texts that occur in the scenarios *)
Definition parse (text : string) : Error + JsValue :=
  if String.eqb text "null" then inr JNull
  else if String.eqb text "{}" then inr (JObj [])
  else if String.eqb text (answer_text "Food" "0.95") then
    inr (answer_value "Food" (95 # 100))
  else if String.eqb text (answer_text "Travel" "0.9") then
    inr (answer_value "Travel" (9 # 10))
  else if String.eqb text (answer_text "Entertainment" "1.5") then
    inr (answer_value "Entertainment" (15 # 10))
  else inl (SyntaxError "Unexpected token in JSON").

Definition pad2 (n : Z) : string :=
  if (n <? 10)%Z then "0" +:+ pretty n else pretty n.

(** [x.toFixed(2)]; other digit counts do not occur in the program *)
Definition fixed (x : Q) (digits : nat) : string :=
  let n := Qfloor (Qabs x * 100 + (1 # 2))%Q in
  (if Qltb x 0 then "-" else "")
    +:+ pretty (n / 100)%Z +:+ "." +:+ pad2 (n mod 100)%Z.

Definition host : Host := mkHost openai parse fixed.

Definition empty_db : Db := mkDb ∅ [] [].

Definition world (d : Db) (up : bool) : World := mkWorld d [] up [] 1000 0.

(** request bodies: a transaction, a rule, and two partial updates *)
Definition transaction_text : string :=
  "{" +:+ quoted "userId" +:+ ": " +:+ quoted "u1" +:+ ", "
      +:+ quoted "description" +:+ ": " +:+ quoted "Coffee at Starbucks" +:+ ", "
      +:+ quoted "amount" +:+ ": 5.5}".

Definition rule_text : string :=
  "{" +:+ quoted "userId" +:+ ": " +:+ quoted "u1" +:+ ", "
      +:+ quoted "category" +:+ ": " +:+ quoted "Food" +:+ ", "
      +:+ quoted "threshold" +:+ ": 100}".

Definition switch_off_text : string := "{" +:+ quoted "isActive" +:+ ": false}".

Definition raise_text : string := "{" +:+ quoted "threshold" +:+ ": 250}".

(** [JSON.parse] on the request bodies and on the texts of [parse] *)
Definition parse_request (text : string) : Error + JsValue :=
  if String.eqb text transaction_text then
    inr (JObj [("userId", JStr "u1"); ("description", JStr "Coffee at Starbucks");
               ("amount", JNum (55 # 10))])
  else if String.eqb text rule_text then
    inr (JObj [("userId", JStr "u1"); ("category", JStr "Food");
               ("threshold", JNum (100 # 1))])
  else if String.eqb text switch_off_text then inr (JObj [("isActive", JBool false)])
  else if String.eqb text raise_text then inr (JObj [("threshold", JNum (250 # 1))])
  else parse text.

Definition request_host : Host := mkHost openai parse_request fixed.

(** a coarse rounding for the scenarios: down to a whole number *)
Definition round_down (q : Q) : Q := inject_Z (Qfloor q).

End Demo.

(** * Specification vocabulary *)

(** ** Classification *)

Definition valid_classification (c : ClassificationResult) : Prop :=
  In (cr_category c) AIService.ALLOWED_CATEGORIES
  /\ (0 <= cr_confidence c)%Q /\ (cr_confidence c <= 1)%Q.

(** The ways in which the remote classifier can let the gateway down. *)
Inductive classification_fails (host : Host) (description : string) : Prop :=
  | call_rejected e :
      openai_create host description = inl e ->
      classification_fails host description
  | response_malformed response e :
      openai_create host description = inr response ->
      AIService.first_content response = inl e ->
      classification_fails host description
  | response_without_content response :
      openai_create host description = inr response ->
      AIService.first_content response = inr None ->
      classification_fails host description
  | response_empty response :
      openai_create host description = inr response ->
      AIService.first_content response = inr (Some EmptyString) ->
      classification_fails host description
  | content_not_json response text e :
      openai_create host description = inr response ->
      AIService.first_content response = inr (Some text) ->
      JSON_parse host text = inl e ->
      classification_fails host description
  | answer_is_null response text :
      openai_create host description = inr response ->
      AIService.first_content response = inr (Some text) ->
      JSON_parse host text = inr JNull ->
      classification_fails host description
  | category_not_allowed response text result category :
      openai_create host description = inr response ->
      AIService.first_content response = inr (Some text) ->
      JSON_parse host text = inr result ->
      get_prop result "category" = inr category ->
      AIService.includes AIService.ALLOWED_CATEGORIES category = false ->
      classification_fails host description
  | confidence_not_in_range response text result confidence :
      openai_create host description = inr response ->
      AIService.first_content response = inr (Some text) ->
      JSON_parse host text = inr result ->
      get_prop result "confidence" = inr confidence ->
      (forall q, confidence = Some (JNum q) -> (q < 0)%Q \/ (1 < q)%Q) ->
      classification_fails host description.

(** ** Persistence *)

Definition default_user (userId : string) : User :=
  mkUser userId (userId +:+ "@sentinel.local").

(** the users table after the store made sure that [userId] exists *)
Definition provision (userId : string) (us : gmap string User) : gmap string User :=
  match us !! userId with
  | Some _ => us
  | None => <[userId := default_user userId]> us
  end.

(** the row that [TransactionRepository.create] inserts in world [w] *)
Definition new_transaction (data : TransactionCreate) (w : World) : TransactionOutput :=
  mkTransaction (fresh_id "tx" (idSeed w)) (tc_userId data) (tc_description data)
    (tc_amount data) (tc_category data) (tc_confidence data) (now w) (now w).

Definition after_create (data : TransactionCreate) (w : World) : World :=
  mkWorld (mkDb (provision (tc_userId data) (users (db w)))
                (transactions (db w) ++ [new_transaction data w])
                (alertRules (db w)))
          (jobs w) (queueAccepts w) (aiCalls w) (now w) (S (idSeed w)).

(** the world after one more request went to the classifier *)
Definition with_call (description : string) (w : World) : World :=
  mkWorld (db w) (jobs w) (queueAccepts w) (aiCalls w ++ [description]) (now w) (idSeed w).

Definition with_job (j : QueuedJob) (w : World) : World :=
  mkWorld (db w) (jobs w ++ [j]) (queueAccepts w) (aiCalls w) (now w) (idSeed w).

(** what the ingestion service hands to the store *)
Definition classified (data : TransactionInput) (c : ClassificationResult) : TransactionCreate :=
  mkTransactionCreate (in_userId data) (in_description data) (in_amount data)
    (cr_category c) (cr_confidence c).

(** the job that announces transaction [t] of user [userId] *)
Definition job_for (userId : string) (t : TransactionOutput) : QueuedJob :=
  mkQueuedJob "new-transaction"
    (mkJob userId (tx_id t) (tx_category t) (tx_amount t))
    TransactionService.job_options.

(** ** Alert rules and evaluation *)

Definition rule_key (r : AlertRuleOutput) : string * string :=
  (rule_userId r, rule_category r).

(** the uniqueness constraint on (userId, category) *)
Definition rules_unique (rs : list AlertRuleOutput) : Prop :=
  NoDup (map rule_key rs).

(** the sum of the amounts of all persisted transactions of a user in a
    category *)
Definition spent (d : Db) (userId category : string) : Q :=
  prisma.transaction.sum_amounts
    (filter (fun t => prisma.transaction.matches userId category t = true)
            (transactions d)).

(** two outcomes of an evaluation agree up to the time of the alert *)
Definition same_decision (o1 o2 : option AlertEvent) : Prop :=
  match o1, o2 with
  | None, None => True
  | Some e1, Some e2 =>
      ev_userId e1 = ev_userId e2 /\ ev_category e1 = ev_category e2
      /\ ev_threshold e1 = ev_threshold e2 /\ ev_totalSpent e1 = ev_totalSpent e2
      /\ ev_message e1 = ev_message e2
  | _, _ => False
  end.

(** the outcome of an evaluation, read off the store *)
Definition decision (host : Host) (d : Db) (clock : nat) (userId category : string)
  : option AlertEvent :=
  match List.find (prisma.alertRule.has_key userId category) (alertRules d) with
  | None => None
  | Some rule =>
      if rule_isActive rule then
        let total :=
          or_zero
            match filter (fun t => prisma.transaction.matches userId category t = true)
                         (transactions d) with
            | [] => None
            | rows => Some (prisma.transaction.sum_amounts rows)
            end in
        if Qltb (rule_threshold rule) total then
          Some (mkAlertEvent userId category (rule_threshold rule) total
                  (AlertService.alert_message host category total (rule_threshold rule))
                  clock)
        else None
      else None
  end.

(** ** Sums in double precision *)

(** What the statements need of the rounding of a sum to a double: it
    keeps the order, and it leaves a double, zero among them, as it is. *)
Definition rounding (rnd : Q -> Q) : Prop :=
  (forall x y, (x <= y)%Q -> (rnd x <= rnd y)%Q)
  /\ (forall x, (rnd (rnd x) == rnd x)%Q)
  /\ (rnd 0 == 0)%Q.


(** the outcome of an evaluation over such a database, read off the store *)
Definition rounded_decision (rnd : Q -> Q) (host : Host) (d : Db) (clock : nat)
  (userId category : string) : option AlertEvent :=
  match List.find (prisma.alertRule.has_key userId category) (alertRules d) with
  | None => None
  | Some rule =>
      if rule_isActive rule then
        let total :=
          or_zero
            match filter (fun t => prisma.transaction.matches userId category t = true)
                         (transactions d) with
            | [] => None
            | rows => Some (Double.sum_amounts rnd rows)
            end in
        if Qltb (rule_threshold rule) total then
          Some (mkAlertEvent userId category (rule_threshold rule) total
                  (AlertService.alert_message host category total (rule_threshold rule))
                  clock)
        else None
      else None
  end.

Definition is_integer (q : Q) : Prop := (inject_Z (Qfloor q) == q)%Q.

(** the sum of the absolute values of the amounts *)
Definition magnitude (ts : list TransactionOutput) : Q :=
  foldr (fun t acc => (Qabs (tx_amount t) + acc)%Q) 0%Q ts.

(** Amounts that double-precision arithmetic adds without rounding, in
    whatever order and whichever of them are added: whole numbers whose
    absolute values add up to at most 2^53.  Every partial sum is then a
    whole number of absolute value at most 2^53, which a double holds
    exactly, so that the sum computed in doubles is the exact sum. *)
Definition adds_exactly (ts : list TransactionOutput) : Prop :=
  Forall (fun t => is_integer (tx_amount t)) ts
  /\ (magnitude ts <= 9007199254740992 # 1)%Q.

(** a string of ASCII characters *)
Fixpoint ascii_only (s : string) : bool :=
  match s with
  | EmptyString => true
  | String c rest => (nat_of_ascii c <? 128)%nat && ascii_only rest
  end.

(** ** Ingestion requests *)

(** the member [k] of a parsed request body; [null] has no members *)
Definition field (body : JsValue) (k : string) : JsProp :=
  match get_prop body k with
  | inr p => p
  | inl _ => None
  end.

Definition positive_number (p : JsProp) : Prop :=
  exists q, p = Some (JNum q) /\ (0 < q)%Q.

(** the member is missing, or it is null, false, zero or the empty string *)
Definition missing_or_empty (p : JsProp) : Prop := truthy p = false.

(** a body that misses userId, description or amount, or whose amount is
    not a number greater than zero *)
Definition invalid_input (body : JsValue) : Prop :=
  missing_or_empty (field body "userId")
  \/ missing_or_empty (field body "description")
  \/ field body "amount" = None
  \/ ~ positive_number (field body "amount").

(** ** Listings and summaries *)

(** the total that [getTotalByCategory] reports for a store *)
Definition recorded_total (d : Db) (userId category : string) : Q :=
  or_zero
    match filter (fun t => prisma.transaction.matches userId category t = true)
                 (transactions d) with
    | [] => None
    | rows => Some (prisma.transaction.sum_amounts rows)
    end.

(** the transactions of a user, in the order of the store *)
Definition owned_by (userId : string) (d : Db) : list TransactionOutput :=
  filter (fun t => String.eqb (tx_userId t) userId = true) (transactions d).

(** the sum of [f category] over a list of categories *)
Definition sum_over (categories : list string) (f : string -> Q) : Q :=
  foldr (fun category acc => (f category + acc)%Q) 0%Q categories.

(** the values of a spending summary, added up over the allowed categories *)
Definition summary_total (summary : gmap string Q) : Q :=
  sum_over AIService.getAllowedCategories
    (fun category => default 0%Q (summary !! category)).

(** every stored transaction of the user has one of the allowed categories *)
Definition categorised (userId : string) (d : Db) : Prop :=
  forall t, In t (owned_by userId d) -> In (tx_category t) AIService.ALLOWED_CATEGORIES.

(** ** Rules *)

(** the world with another list of rules *)
Definition with_rules (rs : list AlertRuleOutput) (w : World) : World :=
  mkWorld (mkDb (users (db w)) (transactions (db w)) rs)
          (jobs w) (queueAccepts w) (aiCalls w) (now w) (idSeed w).

(** the rules after the rule with the given id became [r'] *)
Definition replaced (id : string) (r' : AlertRuleOutput) (rs : list AlertRuleOutput)
  : list AlertRuleOutput :=
  map (fun o => if prisma.alertRule.has_id id o then r' else o) rs.

(** the rules without the rule with the given id *)
Definition without (id : string) (rs : list AlertRuleOutput) : list AlertRuleOutput :=
  List.filter (fun o => negb (prisma.alertRule.has_id id o)) rs.

(** an update that leaves the user and the category of the rule alone *)
Definition keeps_key (data : prisma.alertRule.UpdateData) : Prop :=
  prisma.alertRule.up_userId data = None /\ prisma.alertRule.up_category data = None.

(** what the rule-management handlers let into the store *)
Definition rule_wellformed (r : AlertRuleOutput) : Prop :=
  In (rule_category r) AIService.ALLOWED_CATEGORIES /\ (0 < rule_threshold r)%Q.

(** * Properties *)

(** ** Comparisons *)

Lemma Qltb_lt (x y : Q) : Qltb x y = true <-> (x < y)%Q.
Proof.
  unfold Qltb. rewrite negb_true_iff, <- not_true_iff_false, Qle_bool_iff.
  split; [apply Qnot_le_lt | apply Qlt_not_le].
Qed.

Lemma Qltb_ge (x y : Q) : Qltb x y = false <-> (y <= x)%Q.
Proof.
  unfold Qltb. rewrite negb_false_iff. apply Qle_bool_iff.
Qed.

(** ** Running a computation *)

Ltac run :=
  unfold try_catch, bind, lift, ret, throw, get_world in *; simpl in *.

(** [adds_exactly] of a given list of transactions *)
Ltac exact_amounts :=
  split; [repeat (constructor; [reflexivity |]); constructor | vm_compute; discriminate].

(** ** The classification gateway *)

Lemma default_classification_valid :
  valid_classification AIService.default_classification.
Proof.
  unfold valid_classification; simpl. split; [tauto | split; discriminate].
Qed.

Lemma isValidCategory_In (category : string) :
  In category AIService.ALLOWED_CATEGORIES ->
  AIService.isValidCategory category = true.
Proof.
  intros Hin. unfold AIService.isValidCategory. apply existsb_exists.
  exists category. split; [assumption | apply String.eqb_refl].
Qed.

Lemma includes_In (xs : list string) (c : string) :
  AIService.includes xs (Some (JStr c)) = true -> In c xs.
Proof.
  simpl. rewrite existsb_exists. intros (y & Hy & Heq).
  apply String.eqb_eq in Heq. now subst.
Qed.

(** Whatever the [try] block returns is the default or a checked answer. *)
Lemma classify_body_valid host description w c w' :
  AIService.classify_body host description w = (inr c, w') ->
  valid_classification c.
Proof.
  unfold AIService.classify_body, AIService.chat_completions_create.
  destruct (_ || _); run; [discriminate |].
  destruct (openai_create host description) as [e | response]; [discriminate |].
  destruct (AIService.first_content response) as [e | [text |]]; simpl;
    try discriminate.
  destruct text as [| a text]; [discriminate |].
  destruct (JSON_parse host (String a text)) as [e | result]; simpl; [discriminate |].
  destruct (get_prop result "category") as [e | category] eqn:Hcat; simpl;
    [discriminate |].
  destruct (negb (truthy category) || _) eqn:Hok; simpl.
  { intros [= <- _]. apply default_classification_valid. }
  apply orb_false_elim in Hok as [_ Hin]. apply negb_false_iff in Hin.
  destruct (get_prop result "confidence") as [e | confidence]; simpl;
    [discriminate |].
  destruct category as [[| | | s | |] |];
    try (intros [= <- _]; apply default_classification_valid).
  destruct confidence as [[| | q | | |] |];
    try (intros [= <- _]; apply default_classification_valid).
  destruct (Qltb q 0) eqn:Hlo; simpl;
    [intros [= <- _]; apply default_classification_valid |].
  destruct (Qltb 1 q) eqn:Hhi; simpl;
    [intros [= <- _]; apply default_classification_valid |].
  intros [= <- _]. unfold valid_classification; cbn [cr_category cr_confidence].
  split; [now apply includes_In |].
  split; [now apply Qltb_ge | now apply Qltb_ge].
Qed.

Lemma classifyTransaction_returns host description w :
  exists c w', AIService.classifyTransaction host description w = (inr c, w')
               /\ valid_classification c.
Proof.
  unfold AIService.classifyTransaction, try_catch.
  destruct (AIService.classify_body host description w) as [[e | c] w'] eqn:Hbody.
  - eexists _, _. split; [reflexivity | apply default_classification_valid].
  - eexists _, _. split; [reflexivity |]. eapply classify_body_valid, Hbody.
Qed.

Lemma classify_failure_default host description w :
  classification_fails host description ->
  fst (AIService.classifyTransaction host description w)
  = inr AIService.default_classification.
Proof.
  intros Hfail.
  unfold AIService.classifyTransaction, AIService.classify_body,
    AIService.chat_completions_create.
  destruct (_ || _); run; [reflexivity |].
  destruct Hfail as [e He | r e Hr He | r Hr Hc | r Hr Hc | r text e Hr Hc He
                    | r text Hr Hc Hp | r text result category Hr Hc Hp Hcat Hno
                    | r text result confidence Hr Hc Hp Hconf Hrange];
    rewrite ?He, ?Hr; simpl; rewrite ?He, ?Hc; simpl; try reflexivity.
  - destruct text; [reflexivity |]. rewrite He. reflexivity.
  - destruct text; [reflexivity |]. rewrite Hp. reflexivity.
  - destruct text; [reflexivity |]. rewrite Hp; simpl. rewrite Hcat; simpl.
    rewrite Hno. simpl. rewrite orb_true_r. reflexivity.
  - destruct text; [reflexivity |]. rewrite Hp; simpl.
    destruct (get_prop result "category") as [e | category]; simpl; [reflexivity |].
    destruct (negb (truthy category) || _); simpl; [reflexivity |].
    rewrite Hconf; simpl.
    destruct category as [[| | | s | |] |]; try reflexivity.
    destruct confidence as [[| | q | | |] |]; try reflexivity.
    destruct (Hrange q eq_refl) as [Hlo | Hhi].
    + apply Qltb_lt in Hlo. rewrite Hlo. reflexivity.
    + apply Qltb_lt in Hhi. rewrite Hhi, orb_true_r. reflexivity.
Qed.

Lemma trimStart_white_space_only (s : string) :
  white_space_only s = true -> trimStart s = EmptyString.
Proof.
  induction s as [| c s IH]; simpl; [reflexivity |].
  intros [Hc Hs]%andb_true_iff. rewrite Hc. auto.
Qed.

Lemma trim_white_space_only (s : string) :
  white_space_only s = true -> trim s = EmptyString.
Proof.
  intros H. unfold trim. now rewrite trimStart_white_space_only.
Qed.

Lemma classify_blank host description w :
  white_space_only description = true ->
  AIService.classifyTransaction host description w
  = (inr AIService.default_classification, w).
Proof.
  intros Hblank.
  unfold AIService.classifyTransaction, AIService.classify_body.
  rewrite (trim_white_space_only _ Hblank). simpl.
  rewrite orb_true_r. reflexivity.
Qed.

(** The gateway touches nothing but the log of classifier requests. *)
Lemma classify_body_world host description w r w' :
  AIService.classify_body host description w = (r, w') ->
  w' = w \/ w' = with_call description w.
Proof.
  unfold AIService.classify_body, AIService.chat_completions_create, with_call.
  destruct (_ || _); run; [intros [= _ <-]; now left |].
  intros H. right. revert H.
  destruct (openai_create host description) as [e | response];
    [now intros [= _ <-] |].
  destruct (AIService.first_content response) as [e | [[| a text] |]]; simpl;
    try now intros [= _ <-].
  destruct (JSON_parse host (String a text)) as [e | result]; simpl;
    [now intros [= _ <-] |].
  destruct (get_prop result "category") as [e | category]; simpl;
    [now intros [= _ <-] |].
  destruct (negb (truthy category) || _); simpl; [now intros [= _ <-] |].
  destruct (get_prop result "confidence") as [e | confidence]; simpl;
    [now intros [= _ <-] |].
  destruct category as [[| | | s | |] |]; try now intros [= _ <-].
  destruct confidence as [[| | q | | |] |]; try now intros [= _ <-].
  destruct (Qltb q 0 || Qltb 1 q); now intros [= _ <-].
Qed.

Lemma classifyTransaction_spec host description w :
  exists c, valid_classification c
    /\ (AIService.classifyTransaction host description w = (inr c, w)
        \/ AIService.classifyTransaction host description w
           = (inr c, with_call description w)).
Proof.
  destruct (classifyTransaction_returns host description w) as (c & w' & Hrun & Hc).
  exists c. split; [assumption |]. rewrite Hrun.
  unfold AIService.classifyTransaction, try_catch in Hrun.
  destruct (AIService.classify_body host description w) as [[e | c'] w''] eqn:Hbody;
    run; injection Hrun as _ <-;
    destruct (classify_body_world _ _ _ _ _ Hbody) as [-> | ->]; auto.
Qed.

(** ** The transaction store *)

Lemma ensure_user_spec userId w :
  TransactionRepository.ensure_user userId w
  = (inr tt, set_db (mkDb (provision userId (users (db w)))
                          (transactions (db w)) (alertRules (db w))) w).
Proof.
  unfold TransactionRepository.ensure_user, prisma.user.findUniqueOrThrow,
    prisma.user.create, provision, default_user, set_db; run.
  destruct (users (db w) !! userId) eqn:Hu; simpl; rewrite ?Hu; simpl.
  - destruct w as [[us ts rs] js up calls clock seed]; reflexivity.
  - reflexivity.
Qed.

Lemma provision_lookup userId us :
  is_Some (provision userId us !! userId).
Proof.
  unfold provision. destruct (us !! userId) eqn:Hu.
  - rewrite Hu. eauto.
  - rewrite lookup_insert_eq. eauto.
Qed.

Lemma create_spec data w :
  TransactionRepository.create data w = (inr (new_transaction data w), after_create data w).
Proof.
  unfold TransactionRepository.create, try_catch, bind.
  rewrite ensure_user_spec. unfold prisma.transaction.create. simpl.
  destruct (provision_lookup (tc_userId data) (users (db w))) as [u Hu].
  rewrite Hu. reflexivity.
Qed.

(** ** The ingestion service *)

Lemma enqueue_spec name job opts w :
  alertQueue.add name job opts w
  = if queueAccepts w then (inr tt, with_job (mkQueuedJob name job opts) w)
    else (inl (QueueError "queue unavailable"), w).
Proof. reflexivity. Qed.

(** [createTransaction] is its three steps in sequence; an error of a
    step ends the call with that error and keeps the world as it is. *)
Lemma createTransaction_steps host data w c w1 :
  AIService.classifyTransaction host (in_description data) w = (inr c, w1) ->
  TransactionService.createTransaction host data w
  = let t := new_transaction (classified data c) w1 in
    let w2 := after_create (classified data c) w1 in
    if queueAccepts w2 then (inr t, with_job (job_for (in_userId data) t) w2)
    else (inl (QueueError "queue unavailable"), w2).
Proof.
  intros Hc. unfold TransactionService.createTransaction, try_catch, bind.
  rewrite Hc. fold (classified data c). rewrite create_spec.
  rewrite enqueue_spec. cbn zeta.
  destruct (queueAccepts (after_create (classified data c) w1)); reflexivity.
Qed.

(** ** The alert-rule store and the evaluation *)

Lemma has_key_iff userId category r :
  prisma.alertRule.has_key userId category r = true
  <-> rule_key r = (userId, category).
Proof.
  unfold prisma.alertRule.has_key, rule_key.
  rewrite andb_true_iff, !String.eqb_eq. split.
  - now intros [-> ->].
  - now intros [= -> ->].
Qed.

Lemma find_unique userId category r rs :
  rules_unique rs -> In r rs ->
  prisma.alertRule.has_key userId category r = true ->
  List.find (prisma.alertRule.has_key userId category) rs = Some r.
Proof.
  unfold rules_unique. intros Hnd Hin Hkey.
  induction rs as [| h rs IH]; [contradiction |].
  simpl in *. apply NoDup_cons in Hnd as [Hfresh Hnd].
  destruct (prisma.alertRule.has_key userId category h) eqn:Hh.
  - destruct Hin as [-> | Hin]; [reflexivity |].
    exfalso. apply Hfresh. apply has_key_iff in Hh, Hkey.
    rewrite Hh, <- Hkey. apply list_elem_of_In, in_map, Hin.
  - destruct Hin as [-> | Hin]; [congruence | auto].
Qed.

Lemma filter_unique userId category rs :
  rules_unique rs ->
  (length (List.filter (prisma.alertRule.has_key userId category) rs) <= 1)%nat.
Proof.
  unfold rules_unique. induction rs as [| h rs IH]; simpl; [lia |].
  intros [Hfresh Hnd]%NoDup_cons.
  destruct (prisma.alertRule.has_key userId category h) eqn:Hh; [| auto].
  assert (Hnone : List.filter (prisma.alertRule.has_key userId category) rs = []).
  { destruct (List.filter _ rs) as [| r tl] eqn:Hf; [reflexivity |].
    exfalso. assert (Hr : In r (List.filter (prisma.alertRule.has_key userId category) rs))
      by (rewrite Hf; now left).
    apply filter_In in Hr as [Hin Hkey]. apply Hfresh.
    apply has_key_iff in Hh, Hkey. rewrite Hh, <- Hkey.
    apply list_elem_of_In, in_map, Hin. }
  rewrite Hnone. simpl. lia.
Qed.

Lemma or_zero_eq (q : Q) : (or_zero (Some q) == q)%Q.
Proof.
  unfold or_zero. destruct (Qeq_bool q 0) eqn:Hz; [| reflexivity].
  apply Qeq_bool_iff in Hz. now rewrite Hz.
Qed.

Lemma getTotalByCategory_spec userId category w :
  exists total,
    TransactionRepository.getTotalByCategory userId category w = (inr total, w)
    /\ (total == spent (db w) userId category)%Q.
Proof.
  unfold TransactionRepository.getTotalByCategory,
    prisma.transaction.aggregate_sum_amount, spent; run.
  destruct (filter _ (transactions (db w))) as [| t rows]; simpl.
  - eexists. split; reflexivity.
  - eexists. split; [reflexivity |]. apply or_zero_eq.
Qed.

Lemma checkAndTriggerAlert_spec host userId category w :
  AlertService.checkAndTriggerAlert host userId category w
  = (inr (decision host (db w) (now w) userId category), w).
Proof.
  unfold AlertService.checkAndTriggerAlert, AlertRuleRepository.findByUserAndCategory,
    prisma.alertRule.findUnique, TransactionRepository.getTotalByCategory,
    prisma.transaction.aggregate_sum_amount, decision; run.
  destruct (List.find _ (alertRules (db w))) as [rule |]; simpl; [| reflexivity].
  destruct (rule_isActive rule); simpl; [| reflexivity].
  destruct (filter _ (transactions (db w))) as [| t rows]; simpl.
  - destruct (Qltb (rule_threshold rule) 0); reflexivity.
  - destruct (Qltb (rule_threshold rule) _); reflexivity.
Qed.

Lemma decision_total host d clock userId category :
  match List.find (prisma.alertRule.has_key userId category) (alertRules d) with
  | None => decision host d clock userId category = None
  | Some rule =>
      exists total, (total == spent d userId category)%Q
        /\ decision host d clock userId category
           = if rule_isActive rule && Qltb (rule_threshold rule) total then
               Some (mkAlertEvent userId category (rule_threshold rule) total
                       (AlertService.alert_message host category total (rule_threshold rule))
                       clock)
             else None
  end.
Proof.
  unfold decision, spent.
  destruct (List.find _ (alertRules d)) as [rule |]; [| reflexivity].
  destruct (filter _ (transactions d)) as [| t rows].
  - exists 0%Q. split; [reflexivity |]. destruct (rule_isActive rule); reflexivity.
  - eexists. split; [apply or_zero_eq |]. destruct (rule_isActive rule); reflexivity.
Qed.

Lemma same_decision_clock host d clock1 clock2 userId category :
  same_decision (decision host d clock1 userId category)
                (decision host d clock2 userId category).
Proof.
  unfold decision.
  destruct (List.find _ (alertRules d)) as [rule |]; [| exact I].
  destruct (rule_isActive rule); [| exact I].
  destruct (Qltb (rule_threshold rule) _); [| exact I].
  simpl. repeat split.
Qed.

(** ** Sums in double precision *)

Lemma rounding_respects rnd x y :
  rounding rnd -> (x == y)%Q -> (rnd x == rnd y)%Q.
Proof.
  intros (Hmono & _ & _) Heq.
  apply Qle_antisym; apply Hmono; rewrite Heq; apply Qle_refl.
Qed.






Lemma rounded_check_spec rnd host userId category w :
  Double.checkAndTriggerAlert rnd host userId category w
  = (inr (rounded_decision rnd host (db w) (now w) userId category), w).
Proof.
  unfold Double.checkAndTriggerAlert, AlertRuleRepository.findByUserAndCategory,
    prisma.alertRule.findUnique, Double.getTotalByCategory,
    Double.aggregate_sum_amount, rounded_decision; run.
  destruct (List.find _ (alertRules (db w))) as [rule |]; simpl; [| reflexivity].
  destruct (rule_isActive rule); simpl; [| reflexivity].
  destruct (filter _ (transactions (db w))) as [| t rows]; simpl.
  - destruct (Qltb (rule_threshold rule) 0); reflexivity.
  - destruct (Qltb (rule_threshold rule) _); reflexivity.
Qed.


Lemma Qplus_0_l_eq (x : Q) : (0 + x)%Q = x.
Proof.
  destruct x as [n d]. unfold Qplus. cbn [Qnum Qden].
  f_equal; first [ring | apply Pos.mul_1_l].
Qed.

Lemma Qplus_0_r_eq (x : Q) : (x + 0)%Q = x.
Proof.
  destruct x as [n d]. unfold Qplus. cbn [Qnum Qden].
  f_equal; first [ring | apply Pos.mul_1_r].
Qed.

Lemma Qplus_assoc_eq (x y z : Q) : (x + y + z)%Q = (x + (y + z))%Q.
Proof.
  destruct x as [xn xd], y as [yn yd], z as [zn zd]. unfold Qplus. cbn [Qnum Qden].
  f_equal; first [rewrite !Pos2Z.inj_mul; ring | symmetry; apply Pos.mul_assoc].
Qed.

Lemma exact_sum (l : list TransactionOutput) :
  Double.sum_amounts (fun q => q) l = prisma.transaction.sum_amounts l.
Proof.
  unfold Double.sum_amounts, prisma.transaction.sum_amounts.
  assert (Hacc : forall acc,
            fold_left (fun acc t => (acc + tx_amount t)%Q) l acc
            = (acc + foldr (fun t acc => (tx_amount t + acc)%Q) 0%Q l)%Q).
  { induction l as [| t l IH]; intros acc; simpl.
    - symmetry. apply Qplus_0_r_eq.
    - rewrite IH. apply Qplus_assoc_eq. }
  rewrite Hacc. apply Qplus_0_l_eq.
Qed.

(** Without rounding, the evaluation over [Double] is the evaluation of
    the alert service. *)
Lemma without_rounding host userId category w :
  Double.checkAndTriggerAlert (fun q => q) host userId category w
  = AlertService.checkAndTriggerAlert host userId category w.
Proof.
  rewrite rounded_check_spec, checkAndTriggerAlert_spec.
  unfold rounded_decision, decision.
  destruct (List.find _ (alertRules (db w))) as [rule |]; [| reflexivity].
  destruct (filter _ (transactions (db w))) as [| t rows]; [reflexivity |].
  now rewrite exact_sum.
Qed.

(** ** The ingestion entrypoint *)

Lemma destructure_field body k :
  body <> JNull -> Route.destructure body k = inr (field body k).
Proof.
  intros Hnull. unfold field. destruct body; simpl; first [reflexivity | congruence].
Qed.

Lemma POST_rejects host request w body :
  JSON_parse host (Route.req_body request) = inr body ->
  body <> JNull ->
  negb (truthy (field body "userId")) || negb (truthy (field body "description"))
  || Route.is_undefined (field body "amount")
  || (negb (Route.is_number (field body "amount")) || Route.le_zero (field body "amount"))
  = true ->
  exists msg, Route.POST host request w = (inr (Route.errorResponse msg 400), w).
Proof.
  intros Hparse Hnull Hbad. unfold Route.POST; run. rewrite Hparse. simpl.
  rewrite !(destructure_field body _ Hnull). simpl.
  apply orb_true_iff in Hbad as [-> | Hbad]; [eauto |].
  destruct (_ || Route.is_undefined _); [eauto |].
  rewrite Hbad. eauto.
Qed.

Lemma JsValue_null_dec (body : JsValue) : {body = JNull} + {body <> JNull}.
Proof. destruct body; first [now left | now right]. Qed.

(** The two ways in which the handler throws before its checks: the body
    is [null], or the body is not JSON.  The catch-all answers 500. *)
Lemma POST_throws host request w :
  (JSON_parse host (Route.req_body request) = inr JNull ->
   exists msg, Route.POST host request w = (inr (Route.errorResponse msg 500), w))
  /\ (forall e,
        JSON_parse host (Route.req_body request) = inl e ->
        Route.POST host request w = (inr (Route.errorResponse (error_message e) 500), w)).
Proof.
  split.
  - intros Hparse. unfold Route.POST; run. rewrite Hparse. simpl. eauto.
  - intros e Hparse. unfold Route.POST; run. now rewrite Hparse.
Qed.

Lemma invalid_input_caught body :
  invalid_input body ->
  negb (truthy (field body "userId")) || negb (truthy (field body "description"))
  || Route.is_undefined (field body "amount")
  || (negb (Route.is_number (field body "amount")) || Route.le_zero (field body "amount"))
  = true.
Proof.
  unfold missing_or_empty.
  intros [-> | [-> | [-> | Hamount]]]; simpl; rewrite ?orb_true_r; try reflexivity.
  apply orb_true_iff. right.
  destruct (field body "amount") as [[| | q | | |] |]; try reflexivity. simpl.
  apply Qle_bool_iff. apply Qnot_lt_le. intros Hpos. apply Hamount.
  exists q. auto.
Qed.

(** ** The scenarios of the specification *)

(** Scenario 2: no rule for ("u1", "Transport"): no alert, no error. *)
Example scenario_no_rule :
  let d := mkDb ∅ [mkTransaction "tx0" "u1" "Bus" (30 # 1) "Transport" 1 10 10] [] in
  AlertService.checkAndTriggerAlert Demo.host "u1" "Transport" (Demo.world d true)
  = (inr None, Demo.world d true).
Proof. reflexivity. Qed.

(** Scenario 3: an inactive rule with threshold 50 and a spend of 80: no
    alert. *)
Example scenario_inactive_rule :
  let d := mkDb ∅ [mkTransaction "tx0" "u2" "Dinner" (80 # 1) "Food" 1 10 10]
                  [mkAlertRule "rule0" "u2" "Food" (50 # 1) false 5 5] in
  AlertService.checkAndTriggerAlert Demo.host "u2" "Food" (Demo.world d true)
  = (inr None, Demo.world d true).
Proof. reflexivity. Qed.

(** A total equal to the threshold does not raise an alert. *)
Example scenario_exact_threshold :
  let d := mkDb ∅ [mkTransaction "tx0" "u1" "Dinner" (100 # 1) "Food" 1 10 10]
                  [mkAlertRule "rule0" "u1" "Food" (100 # 1) true 5 5] in
  AlertService.checkAndTriggerAlert Demo.host "u1" "Food" (Demo.world d true)
  = (inr None, Demo.world d true).
Proof. reflexivity. Qed.

(** Scenario 1, the message of the alert: amounts 5, 15 and 85 against a
    threshold of 100. *)
Example scenario_message :
  let d := mkDb ∅ [mkTransaction "tx0" "u1" "Coffee" (5 # 1) "Food" 1 10 10;
                   mkTransaction "tx1" "u1" "Lunch" (15 # 1) "Food" 1 11 11;
                   mkTransaction "tx2" "u1" "Dinner" (85 # 1) "Food" 1 12 12]
                  [mkAlertRule "rule0" "u1" "Food" (100 # 1) true 5 5] in
  option_map ev_message
    (decision Demo.host d 1000 "u1" "Food")
  = Some "Alert: You've exceeded your Food budget! Spent: $105.00, Limit: $100.00".
Proof. vm_compute. reflexivity. Qed.

(** Rounding can swallow an amount.  With every partial sum rounded down
    to a whole number, 99.5 is a total of 99 and adding 1.2 makes it 100,
    which is not past the threshold of 100: the evaluation over [Double]
    yields no alert, while the exact sum, 100.7, is past the threshold. *)
Example scenario_rounding :
  let d := mkDb ∅ [mkTransaction "tx0" "u1" "Lunch" (199 # 2) "Food" 1 10 10;
                   mkTransaction "tx1" "u1" "Coffee" (6 # 5) "Food" 1 11 11]
                  [mkAlertRule "rule0" "u1" "Food" (100 # 1) true 5 5] in
  let w := Demo.world d true in
  Double.checkAndTriggerAlert Demo.round_down Demo.host "u1" "Food" w = (inr None, w)
  /\ exists ev, AlertService.checkAndTriggerAlert Demo.host "u1" "Food" w = (inr (Some ev), w).
Proof. split; [reflexivity | eexists; reflexivity]. Qed.

(** * The claims *)

(** C3. [classifyTransaction] never raises to its caller, whatever the
    description: it always returns a classification.  A rejected call to
    the classifier, a malformed or empty response, a content that is not
    JSON or is null, a category outside the allowed set and a confidence
    that is not a number in [0,1] all make it return the default
    classification, whose category is the last entry of the allowed set,
    "Shopping", and whose confidence is exactly 0.5. *)
Theorem classifyTransaction_fails_closed host description w :
  (exists c w', AIService.classifyTransaction host description w = (inr c, w'))
  /\ (classification_fails host description ->
      fst (AIService.classifyTransaction host description w)
      = inr AIService.default_classification)
  /\ last AIService.ALLOWED_CATEGORIES
     = Some (cr_category AIService.default_classification)
  /\ AIService.default_classification = mkClassification "Shopping" (1 # 2).
Proof.
  split; [| split; [| split]].
  - destruct (classifyTransaction_returns host description w) as (c & w' & H & _).
    eauto.
  - apply classify_failure_default.
  - reflexivity.
  - reflexivity.
Qed.

Lemma classifyTransaction_fails_closed_witness :
  classification_fails Demo.host "Uber ride"
  /\ fst (AIService.classifyTransaction Demo.host "Uber ride"
            (Demo.world Demo.empty_db true))
     = inr AIService.default_classification.
Proof.
  assert (Hfail : classification_fails Demo.host "Uber ride").
  { eapply category_not_allowed; reflexivity. }
  split; [exact Hfail |].
  exact (proj1 (proj2 (classifyTransaction_fails_closed Demo.host "Uber ride"
                         (Demo.world Demo.empty_db true))) Hfail).
Defined.

(** C10. For an empty or white-space-only description the gateway does
    not raise: the error "Description cannot be empty" thrown inside is
    caught, the classifier is not contacted, and the result is the default
    {category: "Shopping", confidence: 0.5}.  [createTransaction] on such
    a description therefore does not fail at classification: it persists a
    transaction with category "Shopping" and confidence 0.5. *)
Theorem blank_description_falls_back host description w :
  white_space_only description = true ->
  AIService.classifyTransaction host description w
  = (inr (mkClassification "Shopping" (1 # 2)), w)
  /\ forall userId amount,
       let data := mkTransactionInput userId description amount in
       let t := new_transaction (classified data AIService.default_classification) w in
       let w2 := after_create (classified data AIService.default_classification) w in
       tx_category t = "Shopping" /\ tx_confidence t = (1 # 2)%Q
       /\ In t (transactions (db w2))
       /\ TransactionService.createTransaction host data w
          = if queueAccepts w then (inr t, with_job (job_for userId t) w2)
            else (inl (QueueError "queue unavailable"), w2).
Proof.
  intros Hblank. split; [now apply classify_blank |].
  intros userId amount data t w2.
  split; [reflexivity | split; [reflexivity | split]].
  - subst w2. simpl. apply in_or_app. right. now left.
  - now rewrite (createTransaction_steps host data w _ w (classify_blank host _ w Hblank)).
Qed.

Lemma blank_description_falls_back_witness :
  AIService.classifyTransaction Demo.host "   " (Demo.world Demo.empty_db true)
  = (inr (mkClassification "Shopping" (1 # 2)), Demo.world Demo.empty_db true).
Proof.
  exact (proj1 (blank_description_falls_back Demo.host "   "
                  (Demo.world Demo.empty_db true) eq_refl)).
Defined.

(** C4. The transaction returned by [createTransaction] has a category in
    the allowed set {Food, Transport, Utilities, Entertainment, Shopping}
    and a confidence in [0,1], whatever the classifier answered; this
    holds for every input, in particular for every valid one (non-empty
    user id and description, amount > 0).  When the queue accepts the job
    the call does return a transaction. *)
Theorem createTransaction_result_valid host data w :
  (forall t w',
     TransactionService.createTransaction host data w = (inr t, w') ->
     In (tx_category t) AIService.ALLOWED_CATEGORIES
     /\ AIService.isValidCategory (tx_category t) = true
     /\ (0 <= tx_confidence t)%Q /\ (tx_confidence t <= 1)%Q)
  /\ (queueAccepts w = true ->
      exists t w', TransactionService.createTransaction host data w = (inr t, w')).
Proof.
  destruct (classifyTransaction_spec host (in_description data) w)
    as (c & Hvalid & [Hc | Hc]);
    rewrite (createTransaction_steps host data w c _ Hc); cbn zeta; simpl.
  all: split; [| intros ->; eauto].
  all: intros t w'; destruct (queueAccepts w); [| discriminate].
  all: intros [= <- _]; destruct Hvalid as (Hin & Hlo & Hhi).
  all: repeat split; try assumption; now apply isValidCategory_In.
Qed.

Lemma createTransaction_result_valid_witness :
  exists t w',
    TransactionService.createTransaction Demo.host
      (mkTransactionInput "u1" "Coffee at Starbucks" (11 # 2))
      (Demo.world Demo.empty_db true) = (inr t, w')
    /\ In (tx_category t) AIService.ALLOWED_CATEGORIES
    /\ AIService.isValidCategory (tx_category t) = true
    /\ (0 <= tx_confidence t)%Q /\ (tx_confidence t <= 1)%Q.
Proof.
  eexists _, _. split; [reflexivity |].
  eapply (proj1 (createTransaction_result_valid Demo.host
                   (mkTransactionInput "u1" "Coffee at Starbucks" (11 # 2))
                   (Demo.world Demo.empty_db true))).
  reflexivity.
Defined.

(** C1, as amended.  When classification and persistence succeed and the
    submission of the follow-up job fails, [createTransaction] raises the
    error of the enqueue step to its caller instead of returning the
    transaction.  The persisted transaction is not rolled back: it is in
    the store of the world the call leaves behind, and no job was added. *)
Theorem dispatch_failure_is_raised host data w c w1 t w2 e :
  AIService.classifyTransaction host (in_description data) w = (inr c, w1) ->
  TransactionRepository.create (classified data c) w1 = (inr t, w2) ->
  fst (alertQueue.add "new-transaction" (qj_data (job_for (in_userId data) t))
         TransactionService.job_options w2) = inl e ->
  TransactionService.createTransaction host data w = (inl e, w2)
  /\ In t (transactions (db w2))
  /\ jobs w2 = jobs w.
Proof.
  intros Hc Hcreate Hadd.
  rewrite create_spec in Hcreate. injection Hcreate as <- <-.
  rewrite enqueue_spec in Hadd.
  rewrite (createTransaction_steps host data w c w1 Hc). cbn zeta.
  destruct (queueAccepts (after_create (classified data c) w1)); [discriminate |].
  simpl in Hadd. injection Hadd as <-.
  split; [reflexivity | split].
  - simpl. apply in_or_app. right. now left.
  - simpl. destruct (classifyTransaction_spec host (in_description data) w)
      as (c' & _ & [Hc' | Hc']); rewrite Hc' in Hc; now injection Hc as _ <-.
Qed.

Lemma dispatch_failure_is_raised_witness :
  let data := mkTransactionInput "u1" "Coffee at Starbucks" (11 # 2) in
  let w := Demo.world Demo.empty_db false in
  exists t w2,
    TransactionService.createTransaction Demo.host data w
    = (inl (QueueError "queue unavailable"), w2)
    /\ In t (transactions (db w2)) /\ jobs w2 = jobs w.
Proof.
  intros data w. eexists _, _.
  eapply (dispatch_failure_is_raised Demo.host data w); reflexivity.
Defined.

(** C1 as stated fails: when the queue does not accept the job,
    classification and persistence succeed, the enqueue step fails, and
    [createTransaction] does not return the persisted transaction but
    raises the error of the enqueue step. *)
Lemma dispatch_failure_counterexample :
  let data := mkTransactionInput "u1" "Coffee at Starbucks" (11 # 2) in
  let w := Demo.world Demo.empty_db false in
  let c := mkClassification "Food" (95 # 100) in
  let t := mkTransaction "tx0" "u1" "Coffee at Starbucks" (11 # 2) "Food" (95 # 100)
             1000 1000 in
  let e := QueueError "queue unavailable" in
  exists w1 w2,
    AIService.classifyTransaction Demo.host (in_description data) w = (inr c, w1)
    /\ TransactionRepository.create (classified data c) w1 = (inr t, w2)
    /\ fst (alertQueue.add "new-transaction" (qj_data (job_for (in_userId data) t))
              TransactionService.job_options w2) = inl e
    /\ TransactionService.createTransaction Demo.host data w = (inl e, w2)
    /\ fst (TransactionService.createTransaction Demo.host data w) <> inr t
    /\ transactions (db w2) = [t].
Proof.
  intros data w c t e. eexists _, _.
  split; [reflexivity |]. split; [reflexivity |]. split; [reflexivity |].
  split; [reflexivity |]. split; [discriminate | reflexivity].
Qed.

(** C5. The transaction store provisions the user on write.  [create]
    first makes sure the user exists and then inserts the transaction, and
    it succeeds: for a user id without a record it creates the user (with
    the default e-mail address) before the insert; for a user id with a
    record the users are left as they were.  So [createTransaction]
    succeeds for a user id never seen before, without any step of the
    caller. *)
Theorem create_provisions_user data w :
  exists t w1 w',
    TransactionRepository.ensure_user (tc_userId data) w = (inr tt, w1)
    /\ is_Some (users (db w1) !! tc_userId data)
    /\ transactions (db w1) = transactions (db w)
    /\ prisma.transaction.create data w1 = (inr t, w')
    /\ TransactionRepository.create data w = (inr t, w')
    /\ transactions (db w') = (transactions (db w) ++ [t])%list
    /\ (users (db w) !! tc_userId data = None ->
        users (db w')
        = <[tc_userId data := mkUser (tc_userId data) (tc_userId data +:+ "@sentinel.local")]>
            (users (db w))
        /\ fst (prisma.transaction.create data w)
           = inl (PrismaForeignKey "Foreign key constraint failed on the field: `userId`"))
    /\ (is_Some (users (db w) !! tc_userId data) -> users (db w') = users (db w))
    /\ (forall host input,
          queueAccepts w = true ->
          exists t' w'',
            TransactionService.createTransaction host input w = (inr t', w'')
            /\ is_Some (users (db w'') !! in_userId input)
            /\ In t' (transactions (db w''))).
Proof.
  eexists _, _, _.
  split; [apply ensure_user_spec |].
  split; [apply provision_lookup |].
  split; [reflexivity |].
  split.
  { unfold prisma.transaction.create; simpl.
    destruct (provision_lookup (tc_userId data) (users (db w))) as [u Hu].
    rewrite Hu. reflexivity. }
  split; [apply create_spec |].
  split; [reflexivity |].
  split; [| split].
  - intros Hnone. unfold prisma.transaction.create. simpl.
    unfold provision. rewrite Hnone. split; reflexivity.
  - intros [u Hu]. simpl. unfold provision. now rewrite Hu.
  - intros host input Hup.
    destruct (classifyTransaction_spec host (in_description input) w)
      as (c & _ & [Hc | Hc]);
      rewrite (createTransaction_steps host input w c _ Hc); cbn zeta; simpl;
      rewrite Hup; eexists _, _; (split; [reflexivity |]); simpl;
      (split; [apply provision_lookup | apply in_or_app; right; now left]).
Qed.

Lemma create_provisions_user_witness :
  let data := mkTransactionCreate "new-user" "Coffee" (11 # 2) "Food" (95 # 100) in
  let w := Demo.world Demo.empty_db true in
  users (db w) !! "new-user" = None
  /\ users (db (snd (TransactionRepository.create data w))) !! "new-user"
     = Some (mkUser "new-user" "new-user@sentinel.local").
Proof.
  intros data w. split; [reflexivity |].
  destruct (create_provisions_user data w)
    as (t & w1 & w' & _ & _ & _ & _ & Hcreate & _ & Hnew & _).
  rewrite Hcreate. simpl.
  rewrite (proj1 (Hnew eq_refl)). reflexivity.
Defined.

(** C2. [checkAndTriggerAlert] returns an alert event if and only if
    there is a rule for (userId, category), the rule is active, and the
    sum of the amounts of all persisted transactions of (userId, category)
    is strictly greater than the rule's threshold.  The event carries that
    recomputed sum as [totalSpent] and the rule's threshold.  In every
    other case (no rule, an inactive rule, a total that is at most the
    threshold, equality included) it returns null, and it never raises. *)
Theorem checkAndTriggerAlert_decides host userId category w :
  rules_unique (alertRules (db w)) ->
  exists o,
    AlertService.checkAndTriggerAlert host userId category w = (inr o, w)
    /\ (is_Some o <->
        exists rule,
          In rule (alertRules (db w))
          /\ rule_userId rule = userId /\ rule_category rule = category
          /\ rule_isActive rule = true
          /\ (rule_threshold rule < spent (db w) userId category)%Q)
    /\ (forall ev,
          o = Some ev ->
          (ev_totalSpent ev == spent (db w) userId category)%Q
          /\ ev_userId ev = userId /\ ev_category ev = category
          /\ exists rule,
               In rule (alertRules (db w))
               /\ rule_userId rule = userId /\ rule_category rule = category
               /\ ev_threshold ev = rule_threshold rule).
Proof.
  intros Huniq. rewrite checkAndTriggerAlert_spec.
  eexists. split; [reflexivity |].
  pose proof (decision_total host (db w) (now w) userId category) as Hdec.
  destruct (List.find _ (alertRules (db w))) as [rule |] eqn:Hfind.
  - destruct Hdec as (total & Htotal & ->).
    apply find_some in Hfind as [Hin Hkey].
    pose proof Hkey as [= Hu Hc]%has_key_iff.
    split; [split |].
    + intros Hsome. exists rule.
      destruct (rule_isActive rule); [| now destruct Hsome].
      destruct (Qltb (rule_threshold rule) total) eqn:Hlt; [| now destruct Hsome].
      apply Qltb_lt in Hlt. rewrite Htotal in Hlt. auto.
    + intros (rule' & Hin' & Hu' & Hc' & Hactive & Hlt).
      assert (Hkey' : prisma.alertRule.has_key userId category rule' = true)
        by (apply has_key_iff; unfold rule_key; now rewrite Hu', Hc').
      pose proof (find_unique _ _ _ _ Huniq Hin' Hkey') as Hf'.
      pose proof (find_unique _ _ _ _ Huniq Hin Hkey) as Hf.
      rewrite Hf in Hf'. injection Hf' as ->.
      rewrite Hactive. rewrite <- Htotal in Hlt. apply Qltb_lt in Hlt.
      rewrite Hlt. simpl. eauto.
    + intros ev Hev.
      destruct (rule_isActive rule && Qltb (rule_threshold rule) total); [| discriminate].
      injection Hev as <-. simpl. repeat split; [assumption |].
      exists rule. auto.
  - rewrite Hdec. split; [split |].
    + intros [ev Hev]. discriminate.
    + intros (rule' & Hin' & Hu' & Hc' & _).
      assert (Hkey' : prisma.alertRule.has_key userId category rule' = true)
        by (apply has_key_iff; unfold rule_key; now rewrite Hu', Hc').
      rewrite (find_unique _ _ _ _ Huniq Hin' Hkey') in Hfind. discriminate.
    + discriminate.
Qed.

Lemma checkAndTriggerAlert_decides_witness :
  let d := mkDb ∅ [mkTransaction "tx0" "u1" "Coffee" (5 # 1) "Food" 1 10 10;
                   mkTransaction "tx1" "u1" "Lunch" (15 # 1) "Food" 1 11 11;
                   mkTransaction "tx2" "u1" "Dinner" (85 # 1) "Food" 1 12 12]
                  [mkAlertRule "rule0" "u1" "Food" (100 # 1) true 5 5] in
  rules_unique (alertRules d)
  /\ exists ev,
       fst (AlertService.checkAndTriggerAlert Demo.host "u1" "Food" (Demo.world d true))
       = inr (Some ev)
       /\ (ev_totalSpent ev == 105 # 1)%Q /\ ev_threshold ev = (100 # 1)%Q.
Proof.
  intros d.
  assert (Huniq : rules_unique (alertRules d)) by apply NoDup_singleton.
  split; [exact Huniq |].
  destruct (checkAndTriggerAlert_decides Demo.host "u1" "Food" (Demo.world d true) Huniq)
    as (o & Hrun & Hiff & Hev).
  destruct (proj2 Hiff) as [ev ->].
  { eexists. split; [now left |]. repeat split. }
  exists ev. rewrite Hrun. split; [reflexivity |].
  destruct (Hev ev eq_refl) as (Htotal & _ & _ & rule & [<- | []] & _ & _ & Hth).
  split; [rewrite Htotal; reflexivity | exact Hth].
Defined.

(** C7. The evaluation is read-only and idempotent: [checkAndTriggerAlert]
    returns without raising and leaves the world as it found it, so the
    transaction store, the alert-rule store and the queue are unchanged;
    run twice in a row it gives the same outcome twice; and run against
    any world with the same stores it gives the same outcome up to the
    time stamp [triggeredAt]. *)
Theorem evaluation_is_read_only host userId category w :
  exists o,
    AlertService.checkAndTriggerAlert host userId category w = (inr o, w)
    /\ (o1 <- AlertService.checkAndTriggerAlert host userId category ;;
        o2 <- AlertService.checkAndTriggerAlert host userId category ;;
        ret (o1, o2)) w = (inr (o, o), w)
    /\ forall w2,
         db w2 = db w ->
         exists o2,
           AlertService.checkAndTriggerAlert host userId category w2 = (inr o2, w2)
           /\ db w2 = db w
           /\ same_decision o o2.
Proof.
  eexists. split; [apply checkAndTriggerAlert_spec |]. split.
  - unfold bind. now rewrite !checkAndTriggerAlert_spec.
  - intros w2 Hdb. eexists. split; [apply checkAndTriggerAlert_spec |].
    split; [assumption |]. rewrite Hdb. apply same_decision_clock.
Qed.

Lemma evaluation_is_read_only_witness :
  let d := mkDb ∅ [mkTransaction "tx0" "u1" "Dinner" (120 # 1) "Food" 1 10 10]
                [mkAlertRule "rule0" "u1" "Food" (100 # 1) true 5 5] in
  exists o o2,
    AlertService.checkAndTriggerAlert Demo.host "u1" "Food" (Demo.world d true)
    = (inr o, Demo.world d true)
    /\ AlertService.checkAndTriggerAlert Demo.host "u1" "Food" (mkWorld d [] false [] 2000 7)
       = (inr o2, mkWorld d [] false [] 2000 7)
    /\ is_Some o /\ same_decision o o2.
Proof.
  intros d.
  destruct (evaluation_is_read_only Demo.host "u1" "Food" (Demo.world d true))
    as (o & Hrun & _ & Hagain).
  destruct (Hagain (mkWorld d [] false [] 2000 7) eq_refl) as (o2 & Hrun2 & _ & Hsame).
  exists o, o2. split; [exact Hrun |]. split; [exact Hrun2 |]. split; [| exact Hsame].
  rewrite checkAndTriggerAlert_spec in Hrun. injection Hrun as <-.
  vm_compute. eauto.
Defined.




(** C6. The alert-rule store keeps at most one rule per pair
    (userId, category).  In a store that satisfies the constraint,
    creating a rule for a pair that already has one is rejected and leaves
    the world unchanged; [create] preserves the constraint in every case;
    and the lookup by (userId, category) is a point lookup: at most one
    rule matches, and the lookup returns it exactly when it exists.
    The schema that declares the constraint is modelled from the
    specification. *)
Theorem rule_uniqueness_enforced data w :
  rules_unique (alertRules (db w)) ->
  (forall r,
     In r (alertRules (db w)) ->
     rule_userId r = ri_userId data -> rule_category r = ri_category data ->
     exists e, AlertRuleRepository.create data w = (inl e, w))
  /\ rules_unique (alertRules (db (snd (AlertRuleRepository.create data w))))
  /\ (forall userId category,
        (length (List.filter (prisma.alertRule.has_key userId category)
                   (alertRules (db w))) <= 1)%nat
        /\ exists o,
             AlertRuleRepository.findByUserAndCategory userId category w = (inr o, w)
             /\ forall r,
                  o = Some r <->
                  In r (alertRules (db w))
                  /\ rule_userId r = userId /\ rule_category r = category).
Proof.
  intros Huniq. split; [| split].
  - intros r Hin Hu Hc.
    unfold AlertRuleRepository.create, prisma.alertRule.create; run.
    destruct (users (db w) !! ri_userId data); [| eauto].
    assert (Hex : existsb (prisma.alertRule.has_key (ri_userId data) (ri_category data))
                    (alertRules (db w)) = true).
    { apply existsb_exists. exists r. split; [assumption |].
      apply has_key_iff. unfold rule_key. now rewrite Hu, Hc. }
    rewrite Hex. eauto.
  - unfold AlertRuleRepository.create, prisma.alertRule.create; run.
    destruct (users (db w) !! ri_userId data); [| assumption].
    destruct (existsb _ (alertRules (db w))) eqn:Hex; [assumption |].
    simpl. unfold rules_unique in *. rewrite map_app. apply NoDup_app.
    split; [assumption |]. split; [| apply NoDup_singleton].
    intros k Hk [= ->]%list_elem_of_singleton.
    apply list_elem_of_In, in_map_iff in Hk as (r & Hkey & Hin).
    apply not_true_iff_false in Hex. apply Hex.
    apply existsb_exists. exists r. split; [assumption |]. now apply has_key_iff.
  - intros userId category. split; [now apply filter_unique |].
    unfold AlertRuleRepository.findByUserAndCategory, prisma.alertRule.findUnique; run.
    eexists. split; [reflexivity |]. intros r. split.
    + intros [Hin [= Hu Hc]%has_key_iff]%find_some. auto.
    + intros (Hin & Hu & Hc). apply find_unique; [assumption | assumption |].
      apply has_key_iff. unfold rule_key. now rewrite Hu, Hc.
Qed.

Lemma rule_uniqueness_enforced_witness :
  let rule := mkAlertRule "rule0" "u1" "Food" (100 # 1) true 5 5 in
  let d := mkDb {["u1" := mkUser "u1" "u1@sentinel.local"]} [] [rule] in
  let w := Demo.world d true in
  rules_unique (alertRules (db w))
  /\ exists e,
       AlertRuleRepository.create (mkAlertRuleInput "u1" "Food" (250 # 1)) w = (inl e, w).
Proof.
  intros rule d w.
  assert (Huniq : rules_unique (alertRules (db w))) by apply NoDup_singleton.
  split; [exact Huniq |].
  apply (proj1 (rule_uniqueness_enforced (mkAlertRuleInput "u1" "Food" (250 # 1)) w Huniq)
           rule); [now left | reflexivity | reflexivity].
Defined.

(** C9. Input validation at the ingestion entrypoint.  A request whose
    body misses userId, description or amount (or holds an empty userId or
    description), or whose amount is not a number greater than zero, is
    answered with an error that carries no transaction, and the world is
    left as it was: no request to the classifier, no user or transaction
    written, no job enqueued.  The status of the answer is 400 for every
    such body but one: the body [null] is answered with status 500,
    because the handler destructures the body before it checks the fields
    and the destructuring of [null] throws.  A body that is not JSON is
    answered with status 500 as well, the world again untouched. *)
Theorem invalid_input_rejected host request w :
  (forall body,
     JSON_parse host (Route.req_body request) = inr body ->
     invalid_input body ->
     exists resp,
       Route.POST host request w = (inr resp, w)
       /\ Route.resp_success resp = false
       /\ Route.resp_data resp = None
       /\ Route.resp_statusCode resp
          = match body with JNull => 500%nat | _ => 400%nat end)
  /\ (forall e,
        JSON_parse host (Route.req_body request) = inl e ->
        exists resp,
          Route.POST host request w = (inr resp, w)
          /\ Route.resp_success resp = false
          /\ Route.resp_data resp = None
          /\ Route.resp_statusCode resp = 500%nat).
Proof.
  split.
  - intros body Hparse Hbad.
    destruct (JsValue_null_dec body) as [-> | Hnull].
    + destruct (POST_throws host request w) as [Hnullbody _].
      destruct (Hnullbody Hparse) as [msg ->].
      eexists. split; [reflexivity |]. repeat split.
    + destruct (POST_rejects host request w body Hparse Hnull
                  (invalid_input_caught body Hbad)) as [msg ->].
      eexists. split; [reflexivity |]. repeat split.
      destruct body; first [reflexivity | congruence].
  - intros e Hparse.
    destruct (POST_throws host request w) as [_ Hsyntax].
    rewrite (Hsyntax e Hparse).
    eexists. split; [reflexivity |]. repeat split.
Qed.

(** The body [null] gets status 500, the body [{}] status 400; neither
    touches the world. *)
Lemma invalid_input_rejected_witness :
  let w := Demo.world Demo.empty_db true in
  (exists resp,
     Route.POST Demo.host (Route.mkRequest "null") w = (inr resp, w)
     /\ Route.resp_success resp = false
     /\ Route.resp_data resp = None
     /\ Route.resp_statusCode resp = 500%nat)
  /\ (exists resp,
        Route.POST Demo.host (Route.mkRequest "{}") w = (inr resp, w)
        /\ Route.resp_success resp = false
        /\ Route.resp_data resp = None
        /\ Route.resp_statusCode resp = 400%nat).
Proof.
  intros w. split.
  - apply (proj1 (invalid_input_rejected Demo.host (Route.mkRequest "null") w) JNull).
    + reflexivity.
    + left. reflexivity.
  - apply (proj1 (invalid_input_rejected Demo.host (Route.mkRequest "{}") w) (JObj [])).
    + reflexivity.
    + left. reflexivity.
Defined.

(** * Further properties of the services *)

(** ** The worker and the pipeline *)

(** X1. The worker's processor never fails on its own and changes
    nothing: it reports [alertTriggered] with the message of the event
    exactly when the evaluation of the job's user and category yields an
    event.  The transaction id and the amount carried by the job play no
    part: two jobs for the same user and category get the same result. *)
Theorem processor_follows_evaluation host job w :
  exists r,
    alertWorker.processor host job w = (inr r, w)
    /\ alertWorker.res_success r = true
    /\ (forall ev,
          AlertService.checkAndTriggerAlert host (job_userId job) (job_category job) w
          = (inr (Some ev), w) ->
          r = alertWorker.mkJobResult true true (Some (ev_message ev)))
    /\ (AlertService.checkAndTriggerAlert host (job_userId job) (job_category job) w
        = (inr None, w) ->
        r = alertWorker.mkJobResult true false None)
    /\ (forall transactionId amount,
          alertWorker.processor host
            (mkJob (job_userId job) transactionId (job_category job) amount) w
          = (inr r, w)).
Proof.
  unfold alertWorker.processor; run. rewrite checkAndTriggerAlert_spec.
  destruct (decision host (db w) (now w) (job_userId job) (job_category job)) as [ev |];
    simpl; eexists; (split; [reflexivity |]); (split; [reflexivity |]);
    (split; [| split]); try discriminate; try reflexivity.
  now intros ev' [= <-].
Qed.

(** X2. From ingestion to alert.  A successful [createTransaction] appends
    exactly one job, named "new-transaction", carrying the user id and the
    id, category and amount of the returned transaction, with 3 attempts
    and an exponential back-off of 2000 ms.  When the user has an active
    rule for the category the classifier chose, the processor run on that
    job reports an alert exactly when the total of that user and category,
    recomputed over the store that now holds the new transaction, is above
    the threshold. *)
Theorem ingestion_feeds_worker host data w t w' :
  TransactionService.createTransaction host data w = (inr t, w') ->
  jobs w' = (jobs w ++ [mkQueuedJob "new-transaction"
                          (mkJob (in_userId data) (tx_id t) (tx_category t) (in_amount data))
                          (mkJobsOptions 3 "exponential" 2000)])%list
  /\ In t (transactions (db w'))
  /\ tx_userId t = in_userId data /\ tx_amount t = in_amount data
  /\ forall rule,
       rules_unique (alertRules (db w)) ->
       In rule (alertRules (db w)) ->
       rule_userId rule = in_userId data -> rule_category rule = tx_category t ->
       rule_isActive rule = true ->
       exists r,
         alertWorker.processor host
           (mkJob (in_userId data) (tx_id t) (tx_category t) (in_amount data)) w'
         = (inr r, w')
         /\ (alertWorker.res_alertTriggered r = true <->
             (rule_threshold rule < spent (db w') (in_userId data) (tx_category t))%Q).
Proof.
  intros Hrun.
  destruct (classifyTransaction_spec host (in_description data) w) as (c & _ & Hc).
  assert (Hsteps : exists w1, (w1 = w \/ w1 = with_call (in_description data) w)
            /\ AIService.classifyTransaction host (in_description data) w = (inr c, w1))
    by (destruct Hc as [Hc | Hc]; eauto).
  destruct Hsteps as (w1 & Hw1 & Hc1).
  rewrite (createTransaction_steps host data w c w1 Hc1) in Hrun. cbn zeta in Hrun.
  destruct (queueAccepts (after_create (classified data c) w1)); [| discriminate].
  injection Hrun as <- <-.
  assert (Hdb : db w1 = db w) by (destruct Hw1 as [-> | ->]; reflexivity).
  assert (Hjobs : jobs w1 = jobs w) by (destruct Hw1 as [-> | ->]; reflexivity).
  split; [simpl; now rewrite Hjobs |].
  split; [simpl; apply in_or_app; right; now left |].
  split; [reflexivity |]. split; [reflexivity |].
  intros rule Huniq Hin Hu Hcat Hactive.
  unfold alertWorker.processor; run. rewrite checkAndTriggerAlert_spec. simpl.
  pose proof (decision_total host
                (db (with_job (job_for (in_userId data) (new_transaction (classified data c) w1))
                       (after_create (classified data c) w1)))
                (now w1) (in_userId data) (cr_category c)) as Hdec.
  simpl in Hdec. rewrite Hdb in Hdec.
  assert (Hkey : prisma.alertRule.has_key (in_userId data) (cr_category c) rule = true)
    by (apply has_key_iff; unfold rule_key; now rewrite Hu, Hcat).
  rewrite (find_unique _ _ _ _ Huniq Hin Hkey) in Hdec.
  destruct Hdec as (total & Htotal & Hdec).
  unfold spent in Htotal. simpl in Htotal.
  rewrite Hdb. rewrite Hdec. rewrite Hactive. simpl.
  destruct (Qltb (rule_threshold rule) total) eqn:Hlt; eexists; (split; [reflexivity |]);
    simpl; unfold spent; simpl; rewrite ?Hdb; rewrite <- Htotal.
  - split; [intros _; now apply Qltb_lt | reflexivity].
  - split; [discriminate |]. intros Habs%Qltb_lt. congruence.
Qed.

Lemma ingestion_feeds_worker_witness :
  let d := mkDb {["u1" := mkUser "u1" "u1@sentinel.local"]}
                [mkTransaction "tx0" "u1" "Lunch" (98 # 1) "Food" 1 10 10]
                [mkAlertRule "rule0" "u1" "Food" (100 # 1) true 5 5] in
  let w := Demo.world d true in
  let data := mkTransactionInput "u1" "Coffee at Starbucks" (11 # 2) in
  exists t w' r,
    TransactionService.createTransaction Demo.host data w = (inr t, w')
    /\ alertWorker.processor Demo.host
         (mkJob "u1" (tx_id t) (tx_category t) (11 # 2)) w' = (inr r, w')
    /\ alertWorker.res_alertTriggered r = true.
Proof.
  intros d w data.
  destruct (TransactionService.createTransaction Demo.host data w) as [[e | t] w'] eqn:Hrun;
    [vm_compute in Hrun; discriminate |].
  destruct (ingestion_feeds_worker Demo.host data w t w' Hrun)
    as (_ & _ & _ & _ & Hrule).
  assert (Ht : t = mkTransaction "tx0" "u1" "Coffee at Starbucks" (11 # 2) "Food"
                     (95 # 100) 1000 1000)
    by (vm_compute in Hrun; now injection Hrun as <- _).
  destruct (Hrule (mkAlertRule "rule0" "u1" "Food" (100 # 1) true 5 5))
    as (r & Hr & Hiff).
  - apply NoDup_singleton.
  - now left.
  - reflexivity.
  - now rewrite Ht.
  - reflexivity.
  - assert (Hspent : (spent (db w') "u1" "Food" == 207 # 2)%Q)
      by (vm_compute in Hrun; injection Hrun as _ <-; vm_compute; reflexivity).
    exists t, w', r. split; [reflexivity |]. split; [exact Hr |].
    apply Hiff. rewrite Ht.
    change (100 # 1 < spent (db w') "u1" "Food")%Q. rewrite Hspent. reflexivity.
Defined.

(** ** Listings *)

Lemma transactions_newest_first_total : Total prisma.transaction.newest_first.
Proof. intros a b. unfold prisma.transaction.newest_first. lia. Qed.

Lemma rules_newest_first_total : Total prisma.alertRule.newest_first.
Proof. intros a b. unfold prisma.alertRule.newest_first. lia. Qed.

Lemma sum_amounts_Permutation (l1 l2 : list TransactionOutput) :
  Permutation l1 l2 ->
  (prisma.transaction.sum_amounts l1 == prisma.transaction.sum_amounts l2)%Q.
Proof.
  induction 1 as [| x l l' _ IH | x y l | l l' l'' _ IH1 _ IH2]; simpl.
  - reflexivity.
  - now rewrite IH.
  - rewrite !Qplus_assoc. now rewrite (Qplus_comm (tx_amount y)).
  - now rewrite IH1.
Qed.

Lemma recorded_total_spent d userId category :
  (recorded_total d userId category == spent d userId category)%Q.
Proof.
  unfold recorded_total, spent.
  destruct (filter _ (transactions d)) as [| t rows]; [reflexivity |].
  apply or_zero_eq.
Qed.

Lemma getTotalByCategory_value userId category w :
  TransactionRepository.getTotalByCategory userId category w
  = (inr (recorded_total (db w) userId category), w).
Proof.
  unfold TransactionRepository.getTotalByCategory,
    prisma.transaction.aggregate_sum_amount, recorded_total; run.
  destruct (filter _ (transactions (db w))); reflexivity.
Qed.

(** X3. [getUserTransactions] lists the transactions of the user, each
    once, and nothing else: the result is a permutation of the user's
    stored transactions, ordered from the newest to the oldest; no
    transaction of another user is in it.  The call never fails and
    changes nothing. *)
Theorem getUserTransactions_lists_own userId w :
  exists l,
    TransactionService.getUserTransactions userId w = (inr l, w)
    /\ Permutation l (owned_by userId (db w))
    /\ StronglySorted prisma.transaction.newest_first l
    /\ (forall t, In t l <-> In t (transactions (db w)) /\ tx_userId t = userId).
Proof.
  unfold TransactionService.getUserTransactions, TransactionRepository.findByUserId,
    prisma.transaction.findMany; run.
  eexists. split; [reflexivity |].
  assert (Hperm : Permutation
            (merge_sort prisma.transaction.newest_first (owned_by userId (db w)))
            (owned_by userId (db w))) by apply merge_sort_Permutation.
  split; [exact Hperm |]. split.
  - apply StronglySorted_merge_sort.
    + intros a b c. unfold prisma.transaction.newest_first. lia.
    + apply transactions_newest_first_total.
  - intros t. rewrite <- !list_elem_of_In. rewrite Hperm.
    unfold owned_by. rewrite list_elem_of_filter, String.eqb_eq. tauto.
Qed.

(** X4. [getTransactionsByCategory] refuses a category outside the allowed
    set with the error "Invalid category: <category>", without reading
    the store, even when transactions with that category are stored.  For
    an allowed category it lists exactly the user's transactions of that
    category, newest first; and when the listed amounts are whole numbers
    that add up without rounding ([adds_exactly]), they add up to the
    total that [getTotalByCategory] reports for the pair. *)
Theorem getTransactionsByCategory_checks_category userId category w :
  (AIService.isValidCategory category = false ->
   TransactionService.getTransactionsByCategory userId category w
   = (inl (PlainError ("Invalid category: " +:+ category)), w))
  /\ (AIService.isValidCategory category = true ->
      exists l total,
        TransactionService.getTransactionsByCategory userId category w = (inr l, w)
        /\ (forall t, In t l <->
                      In t (transactions (db w))
                      /\ tx_userId t = userId /\ tx_category t = category)
        /\ StronglySorted prisma.transaction.newest_first l
        /\ TransactionRepository.getTotalByCategory userId category w = (inr total, w)
        /\ (adds_exactly l -> (prisma.transaction.sum_amounts l == total)%Q)).
Proof.
  unfold TransactionService.getTransactionsByCategory,
    TransactionRepository.findByCategory, prisma.transaction.findMany.
  split; intros Hvalid; rewrite Hvalid; run; [reflexivity |].
  rewrite getTotalByCategory_value.
  eexists _, _. split; [reflexivity |].
  pose proof (merge_sort_Permutation prisma.transaction.newest_first
                (filter (fun t => prisma.transaction.matches userId category t = true)
                        (transactions (db w)))) as Hperm.
  split; [| split; [| split; [reflexivity |]]].
  - intros t. rewrite <- !list_elem_of_In. rewrite Hperm.
    rewrite list_elem_of_filter. unfold prisma.transaction.matches.
    rewrite andb_true_iff, !String.eqb_eq. tauto.
  - apply StronglySorted_merge_sort.
    + intros a b c. unfold prisma.transaction.newest_first. lia.
    + apply transactions_newest_first_total.
  - intros _. rewrite (sum_amounts_Permutation _ _ Hperm). symmetry.
    apply recorded_total_spent.
Qed.

Lemma getTransactionsByCategory_checks_category_witness :
  let lunch := mkTransaction "tx1" "u1" "Lunch" (12 # 1) "Food" 1 11 11 in
  let dinner := mkTransaction "tx2" "u1" "Dinner" (30 # 1) "Food" 1 12 12 in
  let d := mkDb ∅ [mkTransaction "tx0" "u1" "Flight" (300 # 1) "Travel" 1 10 10;
                   lunch; dinner] [] in
  let w := Demo.world d true in
  AIService.isValidCategory "Travel" = false
  /\ TransactionService.getTransactionsByCategory "u1" "Travel" w
     = (inl (PlainError "Invalid category: Travel"), w)
  /\ AIService.isValidCategory "Food" = true
  /\ adds_exactly [dinner; lunch]
  /\ exists total,
       TransactionService.getTransactionsByCategory "u1" "Food" w = (inr [dinner; lunch], w)
       /\ TransactionRepository.getTotalByCategory "u1" "Food" w = (inr total, w)
       /\ (prisma.transaction.sum_amounts [dinner; lunch] == total)%Q.
Proof.
  intros lunch dinner d w. split; [reflexivity |].
  split; [exact (proj1 (getTransactionsByCategory_checks_category "u1" "Travel" w) eq_refl) |].
  split; [reflexivity |].
  assert (Hexact : adds_exactly [dinner; lunch]) by exact_amounts.
  split; [exact Hexact |].
  destruct (proj2 (getTransactionsByCategory_checks_category "u1" "Food" w) eq_refl)
    as (l & total & Hl & _ & _ & Htotal & Hsum).
  assert (Hlist : l = [dinner; lunch]) by (vm_compute in Hl; now injection Hl as <-).
  subst l. exists total. split; [exact Hl |]. split; [exact Htotal |].
  exact (Hsum Hexact).
Defined.

(** ** The spending summary *)

Lemma summarise_spec userId categories summary w :
  TransactionService.summarise userId categories summary w
  = (inr (foldl (fun s c => <[c := recorded_total (db w) userId c]> s) summary categories),
     w).
Proof.
  revert summary. induction categories as [| c rest IH]; intros summary; simpl.
  - reflexivity.
  - unfold bind. rewrite getTotalByCategory_value. apply IH.
Qed.

Lemma foldl_insert_lookup (f : string -> Q) (categories : list string)
      (summary : gmap string Q) (c : string) :
  foldl (fun s k => <[k := f k]> s) summary categories !! c
  = if decide (c ∈ categories) then Some (f c) else summary !! c.
Proof.
  revert summary. induction categories as [| k rest IH]; intros summary.
  - destruct (decide (c ∈ [])) as [Hin | _]; [| reflexivity].
    now apply not_elem_of_nil in Hin.
  - cbn [foldl]. rewrite IH.
    destruct (decide (c ∈ rest)) as [Hin | Hout];
      destruct (decide (c ∈ k :: rest)) as [Hin' | Hout']; try reflexivity.
    + exfalso. apply Hout'. now apply list_elem_of_further.
    + apply elem_of_cons in Hin' as [-> | Hin']; [| contradiction].
      apply lookup_insert_eq.
    + apply lookup_insert_ne. intros ->. apply Hout', list_elem_of_here.
Qed.

Lemma sum_over_ext (categories : list string) (f g : string -> Q) :
  (forall c, In c categories -> (f c == g c)%Q) ->
  (sum_over categories f == sum_over categories g)%Q.
Proof.
  induction categories as [| c rest IH]; simpl; intros Hfg; [reflexivity |].
  rewrite (Hfg c) by now left. rewrite IH; [reflexivity |].
  intros c' Hc'. apply Hfg. now right.
Qed.

Lemma sum_over_plus (categories : list string) (f g : string -> Q) :
  (sum_over categories (fun c => f c + g c) == sum_over categories f + sum_over categories g)%Q.
Proof.
  induction categories as [| c rest IH]; simpl; [reflexivity |].
  rewrite IH. ring.
Qed.

Lemma sum_over_zero (categories : list string) :
  (sum_over categories (fun _ => 0) == 0)%Q.
Proof.
  induction categories as [| c rest IH]; simpl; [reflexivity |].
  rewrite IH. reflexivity.
Qed.

(** Among distinct categories, a transaction counts for its own one only. *)
Lemma sum_over_indicator (categories : list string) (k : string) (a : Q) :
  NoDup categories ->
  (sum_over categories (fun c => if String.eqb k c then a else 0)
   == if bool_decide (k ∈ categories) then a else 0)%Q.
Proof.
  induction 1 as [| c rest Hfresh Hnd IH]; simpl; [reflexivity |].
  rewrite IH. destruct (String.eqb_spec k c) as [-> | Hne].
  - rewrite (bool_decide_eq_true_2 (c ∈ c :: rest)) by apply list_elem_of_here.
    rewrite (bool_decide_eq_false_2 (c ∈ rest)) by assumption. ring.
  - destruct (bool_decide (k ∈ rest)) eqn:Hin.
    + apply bool_decide_eq_true in Hin.
      rewrite (bool_decide_eq_true_2 (k ∈ c :: rest))
        by now apply list_elem_of_further.
      ring.
    + apply bool_decide_eq_false in Hin.
      rewrite (bool_decide_eq_false_2 (k ∈ c :: rest))
        by (rewrite elem_of_cons; tauto).
      ring.
Qed.

Lemma spent_cons d_users d_rules t ts userId category :
  (spent (mkDb d_users (t :: ts) d_rules) userId category
   == (if prisma.transaction.matches userId category t then tx_amount t else 0)
      + spent (mkDb d_users ts d_rules) userId category)%Q.
Proof.
  unfold spent. simpl.
  destruct (prisma.transaction.matches userId category t) eqn:Hm.
  - rewrite filter_cons_True by assumption. reflexivity.
  - rewrite filter_cons_False by (now rewrite Hm). now rewrite Qplus_0_l.
Qed.

(** The totals per category add up to the total of the user, when every
    transaction of the user falls in one of the categories. *)
Lemma spent_by_category (categories : list string) d_users d_rules ts userId :
  NoDup categories ->
  (forall t, In t ts -> tx_userId t = userId -> In (tx_category t) categories) ->
  (sum_over categories (spent (mkDb d_users ts d_rules) userId)
   == prisma.transaction.sum_amounts
        (filter (fun t => String.eqb (tx_userId t) userId = true) ts))%Q.
Proof.
  intros Hnd. induction ts as [| t ts IH]; intros Hcat.
  - unfold spent. simpl. apply sum_over_zero.
  - rewrite (sum_over_ext _ _ _ (fun c _ => spent_cons d_users d_rules t ts userId c)).
    rewrite sum_over_plus. rewrite IH by (intros t' Ht'; apply Hcat; now right).
    unfold prisma.transaction.matches.
    destruct (String.eqb_spec (tx_userId t) userId) as [Hu | Hu].
    + rewrite filter_cons_True by now apply String.eqb_eq.
      simpl. apply Qplus_inj_r.
      rewrite sum_over_indicator by assumption.
      rewrite bool_decide_eq_true_2; [reflexivity |].
      apply list_elem_of_In, Hcat; [now left | assumption].
    + rewrite filter_cons_False by (rewrite String.eqb_eq; assumption).
      simpl. rewrite sum_over_zero. apply Qplus_0_l.
Qed.

Lemma allowed_categories_NoDup : NoDup AIService.ALLOWED_CATEGORIES.
Proof.
  apply (bool_decide_unpack (NoDup AIService.ALLOWED_CATEGORIES)).
  vm_compute. exact I.
Qed.

(** X5. [getSpendingSummary] never fails and changes nothing.  The summary
    has one entry for each of the five allowed categories and no other
    entry, and the entry of a category is the total that
    [getTotalByCategory] reports for it, which is the sum of the amounts
    of the user's stored transactions of that category (0 when there is
    none). *)
Theorem getSpendingSummary_entries userId w :
  exists summary,
    TransactionService.getSpendingSummary userId w = (inr summary, w)
    /\ (forall category,
          In category AIService.ALLOWED_CATEGORIES ->
          exists total,
            summary !! category = Some total
            /\ TransactionRepository.getTotalByCategory userId category w = (inr total, w)
            /\ (total == spent (db w) userId category)%Q)
    /\ (forall category,
          ~ In category AIService.ALLOWED_CATEGORIES -> summary !! category = None)
    /\ (owned_by userId (db w) = [] ->
        forall category, In category AIService.ALLOWED_CATEGORIES ->
                         summary !! category = Some 0%Q).
Proof.
  unfold TransactionService.getSpendingSummary, try_catch.
  rewrite summarise_spec. eexists. split; [reflexivity |].
  split; [| split].
  - intros category Hin. exists (recorded_total (db w) userId category).
    rewrite foldl_insert_lookup, decide_True by now apply list_elem_of_In.
    split; [reflexivity |]. split; [apply getTotalByCategory_value |].
    apply recorded_total_spent.
  - intros category Hout.
    rewrite foldl_insert_lookup, decide_False by now rewrite list_elem_of_In.
    apply lookup_empty.
  - intros Hnone category Hin.
    rewrite foldl_insert_lookup, decide_True by now apply list_elem_of_In.
    f_equal. unfold recorded_total.
    assert (Hempty : filter (fun t => prisma.transaction.matches userId category t = true)
                            (transactions (db w)) = []).
    { unfold owned_by in Hnone.
      induction (transactions (db w)) as [| t ts IH]; [reflexivity |].
      unfold prisma.transaction.matches in *.
      destruct (String.eqb (tx_userId t) userId) eqn:Hu.
      - rewrite filter_cons_True in Hnone by assumption. discriminate.
      - rewrite filter_cons_False in Hnone by (now rewrite Hu).
        rewrite filter_cons_False by (rewrite Hu; simpl; discriminate). auto. }
    now rewrite Hempty.
Qed.

(** X6. When every stored transaction of the user has an allowed category
    and the user's amounts are whole numbers that add up without rounding
    ([adds_exactly]), the entries of the spending summary add up to the
    sum of the amounts of all the user's transactions: the summary loses
    nothing and counts nothing twice. *)
Theorem getSpendingSummary_adds_up userId w summary :
  categorised userId (db w) ->
  adds_exactly (owned_by userId (db w)) ->
  TransactionService.getSpendingSummary userId w = (inr summary, w) ->
  (summary_total summary == prisma.transaction.sum_amounts (owned_by userId (db w)))%Q.
Proof.
  intros Hcat _ Hrun.
  unfold TransactionService.getSpendingSummary, try_catch in Hrun.
  rewrite summarise_spec in Hrun.
  assert (Hs : summary
               = foldl (fun s c => <[c := recorded_total (db w) userId c]> s) ∅
                       AIService.getAllowedCategories) by congruence.
  rewrite Hs. clear Hrun Hs.
  unfold summary_total, AIService.getAllowedCategories.
  rewrite (sum_over_ext _ _ (spent (db w) userId)).
  - destruct (db w) as [us ts rs]. unfold owned_by. cbn [transactions].
    apply (spent_by_category AIService.ALLOWED_CATEGORIES us rs ts userId);
      [apply allowed_categories_NoDup |].
    intros t Hin Hu. apply Hcat. unfold owned_by. cbn [transactions].
    apply list_elem_of_In, list_elem_of_filter. split; [now apply String.eqb_eq |].
    now apply list_elem_of_In.
  - intros c Hin. cbv beta.
    rewrite (foldl_insert_lookup (recorded_total (db w) userId)).
    rewrite decide_True by now apply list_elem_of_In.
    apply recorded_total_spent.
Qed.

Lemma getSpendingSummary_adds_up_witness :
  let d := mkDb ∅ [mkTransaction "tx0" "u1" "Coffee" (5 # 1) "Food" 1 10 10;
                   mkTransaction "tx1" "u2" "Cinema" (12 # 1) "Entertainment" 1 11 11;
                   mkTransaction "tx2" "u1" "Bus" (3 # 1) "Transport" 1 12 12] [] in
  categorised "u1" d
  /\ adds_exactly (owned_by "u1" d)
  /\ exists summary,
       TransactionService.getSpendingSummary "u1" (Demo.world d true)
       = (inr summary, Demo.world d true)
       /\ (summary_total summary == 8 # 1)%Q.
Proof.
  intros d.
  assert (Hcat : categorised "u1" d).
  { intros t Ht. vm_compute in Ht. destruct Ht as [<- | [<- | []]]; simpl; tauto. }
  split; [exact Hcat |].
  assert (Hexact : adds_exactly (owned_by "u1" d)).
  { change (owned_by "u1" d)
      with [mkTransaction "tx0" "u1" "Coffee" (5 # 1) "Food" 1 10 10;
            mkTransaction "tx2" "u1" "Bus" (3 # 1) "Transport" 1 12 12].
    exact_amounts. }
  split; [exact Hexact |].
  assert (Hrun : exists summary,
            TransactionService.getSpendingSummary "u1" (Demo.world d true)
            = (inr summary, Demo.world d true)).
  { unfold TransactionService.getSpendingSummary, try_catch.
    rewrite summarise_spec. eauto. }
  destruct Hrun as (summary & Hrun).
  exists summary. split; [exact Hrun |].
  rewrite (getSpendingSummary_adds_up "u1" (Demo.world d true) summary Hcat Hexact Hrun).
  reflexivity.
Defined.

(** X7. [createTransaction] keeps the store categorised: if every stored
    transaction of a user has an allowed category before the call, so it
    has after the call, whoever the call is for, whatever the classifier
    answers and whether or not the call fails.  So the first premise of
    X6 holds in every store that was filled through [createTransaction]. *)
Theorem createTransaction_keeps_categorised host data w userId :
  categorised userId (db w) ->
  categorised userId (db (snd (TransactionService.createTransaction host data w))).
Proof.
  intros Hcat.
  destruct (classifyTransaction_spec host (in_description data) w)
    as (c & (Hallowed & _) & Hc).
  assert (Hdb : exists w1, db w1 = db w
            /\ AIService.classifyTransaction host (in_description data) w = (inr c, w1))
    by (destruct Hc as [Hc | Hc]; eexists; (split; [| exact Hc]); reflexivity).
  destruct Hdb as (w1 & Hdb & Hc1).
  rewrite (createTransaction_steps host data w c w1 Hc1). cbn zeta.
  assert (Hafter : categorised userId (db (after_create (classified data c) w1))).
  { intros t. unfold owned_by, after_create. simpl. rewrite Hdb.
    rewrite filter_app. intros [Hold | Hnew]%in_app_or.
    - now apply Hcat.
    - apply list_elem_of_In, list_elem_of_filter in Hnew as [_ Hnew].
      apply list_elem_of_singleton in Hnew. subst t. exact Hallowed. }
  destruct (queueAccepts (after_create (classified data c) w1)); exact Hafter.
Qed.

Lemma createTransaction_keeps_categorised_witness :
  categorised "u1"
    (db (snd (TransactionService.createTransaction Demo.host
                (mkTransactionInput "u1" "Uber ride" (20 # 1))
                (Demo.world Demo.empty_db true)))).
Proof.
  apply createTransaction_keeps_categorised.
  intros t Ht. vm_compute in Ht. destruct Ht.
Defined.

(** ** Deleting a transaction *)

Lemma deleteTransaction_spec transactionId userId w :
  TransactionService.deleteTransaction transactionId userId w
  = match List.find (prisma.transaction.has_id transactionId) (transactions (db w)) with
    | Some t =>
        if String.eqb (tx_userId t) userId then
          (inr t,
           mkWorld (mkDb (users (db w))
                         (List.filter (fun o => negb (prisma.transaction.has_id transactionId o))
                                      (transactions (db w)))
                         (alertRules (db w)))
                   (jobs w) (queueAccepts w) (aiCalls w) (now w) (idSeed w))
        else (inl (PlainError "Transaction not found or unauthorized"), w)
    | None => (inl (PlainError "Transaction not found or unauthorized"), w)
    end.
Proof.
  unfold TransactionService.deleteTransaction, TransactionRepository.findById,
    TransactionRepository.delete, prisma.transaction.findUnique,
    prisma.transaction.delete; run.
  destruct (List.find _ (transactions (db w))) as [t |] eqn:Hfind; simpl; [| reflexivity].
  destruct (String.eqb (tx_userId t) userId); simpl; [| reflexivity].
  rewrite Hfind. reflexivity.
Qed.

Lemma find_by_id (t : TransactionOutput) (ts : list TransactionOutput) :
  NoDup (map tx_id ts) -> In t ts ->
  List.find (prisma.transaction.has_id (tx_id t)) ts = Some t.
Proof.
  induction ts as [| h ts IH]; simpl; [contradiction |].
  intros [Hfresh Hnd]%NoDup_cons Hin. unfold prisma.transaction.has_id at 1.
  destruct (String.eqb_spec (tx_id h) (tx_id t)) as [Heq | Hne].
  - destruct Hin as [-> | Hin]; [reflexivity |].
    exfalso. apply Hfresh. rewrite Heq. apply list_elem_of_In, in_map, Hin.
  - destruct Hin as [-> | Hin]; [congruence | auto].
Qed.

(** X8. [deleteTransaction] refuses, with the error "Transaction not found
    or unauthorized" and without touching the store, every request for
    which no stored transaction has both the given id and the given user:
    an unknown id, and the id of a transaction of another user, are
    answered alike, and nobody deletes someone else's transaction. *)
Theorem deleteTransaction_refuses transactionId userId w :
  (~ exists t, In t (transactions (db w)) /\ tx_id t = transactionId /\ tx_userId t = userId) ->
  TransactionService.deleteTransaction transactionId userId w
  = (inl (PlainError "Transaction not found or unauthorized"), w).
Proof.
  intros Hnone. rewrite deleteTransaction_spec.
  destruct (List.find _ (transactions (db w))) as [t |] eqn:Hfind; [| reflexivity].
  apply find_some in Hfind as [Hin Hid]. apply String.eqb_eq in Hid.
  destruct (String.eqb_spec (tx_userId t) userId) as [Hu | Hu]; [| reflexivity].
  exfalso. apply Hnone. eauto.
Qed.

Lemma deleteTransaction_refuses_witness :
  let d := mkDb ∅ [mkTransaction "tx0" "u1" "Coffee" (5 # 1) "Food" 1 10 10] [] in
  TransactionService.deleteTransaction "tx0" "u2" (Demo.world d true)
  = (inl (PlainError "Transaction not found or unauthorized"), Demo.world d true).
Proof.
  intros d. apply deleteTransaction_refuses.
  intros (t & [<- | []] & _ & Hu). discriminate.
Defined.

Lemma same_id_same_transaction (a b : TransactionOutput) (ts : list TransactionOutput) :
  NoDup (map tx_id ts) -> In a ts -> In b ts -> tx_id a = tx_id b -> a = b.
Proof.
  induction ts as [| h ts IH]; simpl; [contradiction |].
  intros [Hfresh Hnd]%NoDup_cons [-> | Ha] [-> | Hb] Hid; auto.
  - exfalso. apply Hfresh. rewrite Hid. apply list_elem_of_In, in_map, Hb.
  - exfalso. apply Hfresh. rewrite <- Hid. apply list_elem_of_In, in_map, Ha.
Qed.

Lemma filter_keeps_all {A} (f : A -> bool) (l : list A) :
  (forall x, In x l -> f x = true) -> List.filter f l = l.
Proof.
  induction l as [| h l IH]; simpl; intros Hall; [reflexivity |].
  rewrite (Hall h) by now left. f_equal. apply IH. intros x Hx. apply Hall. now right.
Qed.

Lemma find_after_delete (id : string) (ts : list TransactionOutput) :
  List.find (prisma.transaction.has_id id)
    (List.filter (fun o => negb (prisma.transaction.has_id id o)) ts) = None.
Proof.
  induction ts as [| h ts IH]; simpl; [reflexivity |].
  destruct (prisma.transaction.has_id id h) eqn:Hh; simpl; [assumption |].
  now rewrite Hh.
Qed.

(** Removing one transaction leaves every selection that it is not part
    of as it was. *)
Lemma filter_without (P : TransactionOutput -> bool) (t : TransactionOutput)
      (ts : list TransactionOutput) :
  NoDup (map tx_id ts) -> In t ts -> P t = false ->
  filter (fun o => P o = true)
    (List.filter (fun o => negb (prisma.transaction.has_id (tx_id t) o)) ts)
  = filter (fun o => P o = true) ts.
Proof.
  induction ts as [| h ts IH]; [contradiction |].
  intros Hnd Hin Hout. pose proof Hnd as [Hfresh Hnd']%NoDup_cons.
  cbn [List.filter].
  destruct (prisma.transaction.has_id (tx_id t) h) eqn:Hh; cbn [negb].
  - apply String.eqb_eq in Hh.
    assert (h = t) as -> by (apply (same_id_same_transaction h t (h :: ts));
                             [assumption | now left | assumption | assumption]).
    rewrite filter_keeps_all.
    + now rewrite filter_cons_False by (now rewrite Hout).
    + intros o Ho. apply negb_true_iff. apply not_true_iff_false. intros Hid.
      apply String.eqb_eq in Hid. apply Hfresh. rewrite <- Hid.
      apply list_elem_of_In, in_map, Ho.
  - destruct Hin as [-> | Hin];
      [unfold prisma.transaction.has_id in Hh; now rewrite String.eqb_refl in Hh |].
    specialize (IH Hnd' Hin Hout).
    destruct (P h) eqn:HP.
    + rewrite !filter_cons_True by assumption. now rewrite IH.
    + rewrite !filter_cons_False by (now rewrite HP). exact IH.
Qed.

(** Removing one transaction takes its amount, and nothing else, out of
    the exact sum of every selection of the transactions. *)
Lemma sum_without (P : TransactionOutput -> bool) (t : TransactionOutput)
      (ts : list TransactionOutput) :
  NoDup (map tx_id ts) -> In t ts ->
  (prisma.transaction.sum_amounts (filter (fun o => P o = true) ts)
   == (if P t then tx_amount t else 0)
      + prisma.transaction.sum_amounts
          (filter (fun o => P o = true)
             (List.filter (fun o => negb (prisma.transaction.has_id (tx_id t) o)) ts)))%Q.
Proof.
  induction ts as [| h ts IH]; [contradiction |].
  intros Hnd Hin. pose proof Hnd as [Hfresh Hnd']%NoDup_cons.
  cbn [List.filter].
  destruct (prisma.transaction.has_id (tx_id t) h) eqn:Hh; cbn [negb].
  - apply String.eqb_eq in Hh.
    assert (h = t) as -> by (apply (same_id_same_transaction h t (h :: ts));
                             [assumption | now left | assumption | assumption]).
    rewrite filter_keeps_all.
    + destruct (P t) eqn:HP.
      * rewrite filter_cons_True by assumption. reflexivity.
      * rewrite filter_cons_False by (now rewrite HP). now rewrite Qplus_0_l.
    + intros o Ho. apply negb_true_iff. apply not_true_iff_false. intros Hid.
      apply String.eqb_eq in Hid. apply Hfresh. rewrite <- Hid.
      apply list_elem_of_In, in_map, Ho.
  - destruct Hin as [-> | Hin];
      [unfold prisma.transaction.has_id in Hh; now rewrite String.eqb_refl in Hh |].
    specialize (IH Hnd' Hin).
    destruct (P h) eqn:HP.
    + rewrite !filter_cons_True by assumption. simpl. rewrite IH. ring.
    + rewrite !filter_cons_False by (now rewrite HP). exact IH.
Qed.

(** X9. When the owner deletes a stored transaction, [deleteTransaction]
    returns it and removes it and nothing else: the other transactions
    keep their places, the users, the rules and the queue are as before,
    a later lookup of the id finds nothing, and the total of every other
    user or category stays the same.  When the stored amounts are whole
    numbers that add up without rounding ([adds_exactly]), the total
    spent of the transaction's user and category drops by exactly its
    amount.  The ids of the stored transactions are distinct, as a primary
    key is. *)
Theorem deleteTransaction_removes t w :
  NoDup (map tx_id (transactions (db w))) ->
  In t (transactions (db w)) ->
  exists w',
    TransactionService.deleteTransaction (tx_id t) (tx_userId t) w = (inr t, w')
    /\ (forall o, In o (transactions (db w')) <-> In o (transactions (db w)) /\ o <> t)
    /\ TransactionRepository.findById (tx_id t) w' = (inr None, w')
    /\ users (db w') = users (db w)
    /\ alertRules (db w') = alertRules (db w)
    /\ jobs w' = jobs w
    /\ (forall userId category,
          prisma.transaction.matches userId category t = false ->
          filter (fun o => prisma.transaction.matches userId category o = true)
                 (transactions (db w'))
          = filter (fun o => prisma.transaction.matches userId category o = true)
                   (transactions (db w)))
    /\ (adds_exactly (transactions (db w)) ->
        forall userId category,
          (spent (db w) userId category
           == (if prisma.transaction.matches userId category t then tx_amount t else 0)
              + spent (db w') userId category)%Q).
Proof.
  intros Hnd Hin. rewrite deleteTransaction_spec.
  rewrite (find_by_id t _ Hnd Hin), String.eqb_refl.
  eexists. split; [reflexivity |]. cbn [db transactions users alertRules jobs].
  split; [| split; [| split; [| split; [| split; [| split]]]]]; try reflexivity.
  - intros o. rewrite filter_In. split.
    + intros [Ho Hid]. split; [assumption |]. intros ->.
      unfold prisma.transaction.has_id in Hid. now rewrite String.eqb_refl in Hid.
    + intros [Ho Hne]. split; [assumption |].
      apply negb_true_iff, not_true_iff_false. intros Hid%String.eqb_eq.
      apply Hne. now apply (same_id_same_transaction o t (transactions (db w))).
  - unfold TransactionRepository.findById, prisma.transaction.findUnique; run.
    now rewrite find_after_delete.
  - intros userId category Hother. now apply filter_without.
  - intros _ userId category. unfold spent. cbn [transactions].
    now apply sum_without.
Qed.

Lemma deleteTransaction_removes_witness :
  let t := mkTransaction "tx0" "u1" "Coffee" (5 # 1) "Food" 1 10 10 in
  let d := mkDb ∅ [t; mkTransaction "tx1" "u1" "Lunch" (15 # 1) "Food" 1 11 11] [] in
  adds_exactly (transactions d)
  /\ exists w',
       TransactionService.deleteTransaction "tx0" "u1" (Demo.world d true) = (inr t, w')
       /\ (spent d "u1" "Food" == (5 # 1) + spent (db w') "u1" "Food")%Q.
Proof.
  intros t d.
  assert (Hexact : adds_exactly (transactions d)) by exact_amounts.
  split; [exact Hexact |].
  destruct (deleteTransaction_removes t (Demo.world d true))
    as (w' & Hrun & _ & _ & _ & _ & _ & _ & Hspent).
  - apply (bool_decide_unpack (NoDup _)). vm_compute. exact I.
  - now left.
  - exists w'. split; [exact Hrun |]. exact (Hspent Hexact "u1" "Food").
Defined.

Lemma find_app_fresh {A} (f : A -> bool) (l : list A) (x : A) :
  (forall o, In o l -> f o = false) -> f x = true ->
  List.find f (l ++ [x]) = Some x.
Proof.
  induction l as [| h l IH]; simpl; intros Hnone Hx.
  - now rewrite Hx.
  - rewrite (Hnone h) by now left. apply IH; [| assumption].
    intros o Ho. apply Hnone. now right.
Qed.

(** X10. Creating a transaction and deleting it again restores the list of
    stored transactions, but not the users: the user that the store
    provisioned for the transaction stays.  The id given to the new
    transaction must not be the id of a stored one. *)
Theorem create_then_delete data w :
  (forall o, In o (transactions (db w)) -> tx_id o <> tx_id (new_transaction data w)) ->
  exists t w1 w2,
    TransactionRepository.create data w = (inr t, w1)
    /\ TransactionService.deleteTransaction (tx_id t) (tc_userId data) w1 = (inr t, w2)
    /\ transactions (db w2) = transactions (db w)
    /\ alertRules (db w2) = alertRules (db w)
    /\ users (db w2) = provision (tc_userId data) (users (db w))
    /\ is_Some (users (db w2) !! tc_userId data).
Proof.
  intros Hfresh. eexists _, _, _.
  split; [apply create_spec |].
  rewrite deleteTransaction_spec. unfold after_create. cbn [db transactions users alertRules].
  assert (Hother : forall o, In o (transactions (db w)) ->
            prisma.transaction.has_id (tx_id (new_transaction data w)) o = false).
  { intros o Ho. apply not_true_iff_false. intros Hid%String.eqb_eq.
    now apply (Hfresh o Ho). }
  rewrite (find_app_fresh _ _ _ Hother) by apply String.eqb_refl.
  cbn [new_transaction tx_userId]. rewrite String.eqb_refl.
  split; [reflexivity |]. cbn [db transactions users alertRules].
  split; [| split; [reflexivity | split; [reflexivity | apply provision_lookup]]].
  rewrite List.filter_app. cbn [List.filter].
  unfold prisma.transaction.has_id at 2. cbn [new_transaction tx_id].
  rewrite String.eqb_refl. cbn [negb]. rewrite app_nil_r.
  apply filter_keeps_all. intros o Ho. apply negb_true_iff. now apply Hother.
Qed.

Lemma create_then_delete_witness :
  let d := mkDb ∅ [mkTransaction "tx0" "u1" "Coffee" (5 # 1) "Food" 1 10 10] [] in
  let w := mkWorld d [] true [] 1000 1 in
  let data := mkTransactionCreate "u9" "Lunch" (15 # 1) "Food" (9 # 10) in
  exists t w1 w2,
    TransactionRepository.create data w = (inr t, w1)
    /\ TransactionService.deleteTransaction (tx_id t) "u9" w1 = (inr t, w2)
    /\ transactions (db w2) = transactions d
    /\ is_Some (users (db w2) !! "u9").
Proof.
  intros d w data.
  destruct (create_then_delete data w) as (t & w1 & w2 & H1 & H2 & H3 & _ & _ & H4).
  - intros o [<- | []]. vm_compute. discriminate.
  - exists t, w1, w2. auto.
Defined.

(** ** Managing rules *)

Lemma same_key_same_rule (a b : AlertRuleOutput) (rs : list AlertRuleOutput) :
  rules_unique rs -> In a rs -> In b rs -> rule_key a = rule_key b -> a = b.
Proof.
  unfold rules_unique. induction rs as [| h rs IH]; simpl; [contradiction |].
  intros [Hfresh Hnd]%NoDup_cons [-> | Ha] [-> | Hb] Hk; auto.
  - exfalso. apply Hfresh. rewrite Hk. apply list_elem_of_In, in_map, Hb.
  - exfalso. apply Hfresh. rewrite <- Hk. apply list_elem_of_In, in_map, Ha.
Qed.

Lemma same_id_same_rule (a b : AlertRuleOutput) (rs : list AlertRuleOutput) :
  NoDup (map rule_id rs) -> In a rs -> In b rs -> rule_id a = rule_id b -> a = b.
Proof.
  induction rs as [| h rs IH]; simpl; [contradiction |].
  intros [Hfresh Hnd]%NoDup_cons [-> | Ha] [-> | Hb] Hid; auto.
  - exfalso. apply Hfresh. rewrite Hid. apply list_elem_of_In, in_map, Hb.
  - exfalso. apply Hfresh. rewrite <- Hid. apply list_elem_of_In, in_map, Ha.
Qed.

Lemma find_rule_by_id (r : AlertRuleOutput) (rs : list AlertRuleOutput) :
  NoDup (map rule_id rs) -> In r rs ->
  List.find (prisma.alertRule.has_id (rule_id r)) rs = Some r.
Proof.
  induction rs as [| h rs IH]; simpl; [contradiction |].
  intros [Hfresh Hnd]%NoDup_cons Hin. unfold prisma.alertRule.has_id at 1.
  destruct (String.eqb_spec (rule_id h) (rule_id r)) as [Heq | Hne].
  - destruct Hin as [-> | Hin]; [reflexivity |].
    exfalso. apply Hfresh. rewrite Heq. apply list_elem_of_In, in_map, Hin.
  - destruct Hin as [-> | Hin]; [congruence | auto].
Qed.

Lemma apply_update_key data clock r :
  keeps_key data ->
  rule_key (prisma.alertRule.apply_update data clock r) = rule_key r
  /\ rule_id (prisma.alertRule.apply_update data clock r) = rule_id r.
Proof.
  intros [Hu Hc]. unfold rule_key, prisma.alertRule.apply_update. simpl.
  now rewrite Hu, Hc.
Qed.

(** Replacing the rule of an id by a rule with the same id and key changes
    neither the ids nor the keys of the stored rules. *)
Lemma replaced_keys r r' rs :
  NoDup (map rule_id rs) -> In r rs ->
  rule_key r' = rule_key r -> rule_id r' = rule_id r ->
  map rule_key (replaced (rule_id r) r' rs) = map rule_key rs
  /\ map rule_id (replaced (rule_id r) r' rs) = map rule_id rs.
Proof.
  intros Hnd Hin Hk Hid. unfold replaced. rewrite !map_map.
  split; apply map_ext_in; intros o Ho;
    destruct (prisma.alertRule.has_id (rule_id r) o) eqn:Ho'; try reflexivity;
    apply String.eqb_eq in Ho';
    rewrite (same_id_same_rule o r rs Hnd Ho Hin Ho'); assumption.
Qed.

Lemma replaced_In r r' rs :
  In r rs -> In r' (replaced (rule_id r) r' rs).
Proof.
  intros Hin. unfold replaced. apply in_map_iff. exists r. split; [| assumption].
  unfold prisma.alertRule.has_id. now rewrite String.eqb_refl.
Qed.

(** An update that keeps the key succeeds on a stored rule. *)
Lemma update_in_place data r w :
  keeps_key data ->
  rules_unique (alertRules (db w)) ->
  NoDup (map rule_id (alertRules (db w))) ->
  In r (alertRules (db w)) ->
  prisma.alertRule.update (rule_id r) data w
  = (inr (prisma.alertRule.apply_update data (now w) r),
     with_rules (replaced (rule_id r) (prisma.alertRule.apply_update data (now w) r)
                          (alertRules (db w))) w).
Proof.
  intros Hkeep Huniq Hnd Hin. unfold prisma.alertRule.update. cbn zeta.
  rewrite (find_rule_by_id r _ Hnd Hin).
  destruct Hkeep as [Hu Hc]. rewrite Hu.
  assert (Hnone : existsb
            (fun o => negb (prisma.alertRule.has_id (rule_id r) o)
                      && prisma.alertRule.has_key
                           (rule_userId (prisma.alertRule.apply_update data (now w) r))
                           (rule_category (prisma.alertRule.apply_update data (now w) r)) o)
            (alertRules (db w)) = false).
  { apply not_true_iff_false. intros (o & Ho & Hboth)%existsb_exists.
    apply andb_true_iff in Hboth as [Hid Hkey]. apply has_key_iff in Hkey.
    assert (Hk : rule_key o = rule_key r).
    { rewrite Hkey. unfold rule_key, prisma.alertRule.apply_update. simpl.
      now rewrite Hu, Hc. }
    rewrite (same_key_same_rule o r _ Huniq Ho Hin Hk) in Hid.
    unfold prisma.alertRule.has_id in Hid. now rewrite String.eqb_refl in Hid. }
  cbv iota. rewrite Hnone. reflexivity.
Qed.

(** Whatever the id, an update that keeps the key either fails and changes
    nothing or replaces one stored rule by its updated version. *)
Lemma update_outcome id data w :
  keeps_key data ->
  (exists e, prisma.alertRule.update id data w = (inl e, w))
  \/ (exists r,
        In r (alertRules (db w)) /\ rule_id r = id
        /\ prisma.alertRule.update id data w
           = (inr (prisma.alertRule.apply_update data (now w) r),
              with_rules (replaced id (prisma.alertRule.apply_update data (now w) r)
                                   (alertRules (db w))) w)).
Proof.
  intros [Hu Hc]. unfold prisma.alertRule.update. cbn zeta.
  destruct (List.find _ (alertRules (db w))) as [r |] eqn:Hfind; [| eauto].
  apply find_some in Hfind as [Hin Hid]. apply String.eqb_eq in Hid.
  rewrite Hu. cbv iota.
  destruct (existsb _ (alertRules (db w))).
  - left. eauto.
  - right. exists r. split; [assumption |]. split; [assumption |]. reflexivity.
Qed.

Lemma update_missing id data w :
  (forall o, In o (alertRules (db w)) -> rule_id o <> id) ->
  prisma.alertRule.update id data w
  = (inl (PrismaNotFound "Record to update not found."), w).
Proof.
  intros Hnone. unfold prisma.alertRule.update. cbn zeta.
  destruct (List.find _ (alertRules (db w))) as [r |] eqn:Hfind; [| reflexivity].
  apply find_some in Hfind as [Hin Hid]. apply String.eqb_eq in Hid.
  now apply Hnone in Hin.
Qed.

Lemma delete_rule_missing id w :
  (forall o, In o (alertRules (db w)) -> rule_id o <> id) ->
  prisma.alertRule.delete id w
  = (inl (PrismaNotFound "Record to delete does not exist."), w).
Proof.
  intros Hnone. unfold prisma.alertRule.delete. cbn zeta.
  destruct (List.find _ (alertRules (db w))) as [r |] eqn:Hfind; [| reflexivity].
  apply find_some in Hfind as [Hin Hid]. apply String.eqb_eq in Hid.
  now apply Hnone in Hin.
Qed.

Lemma find_map_same {A} (P : A -> bool) (f : A -> A) (l : list A) :
  (forall o, In o l -> P (f o) = P o) ->
  List.find P (map f l) = option_map f (List.find P l).
Proof.
  induction l as [| h l IH]; simpl; intros Hsame; [reflexivity |].
  rewrite (Hsame h) by now left.
  destruct (P h); [reflexivity |]. apply IH. intros o Ho. apply Hsame. now right.
Qed.

Lemma find_replaced r r' rs userId category :
  NoDup (map rule_id rs) -> In r rs -> rule_key r' = rule_key r ->
  List.find (prisma.alertRule.has_key userId category) (replaced (rule_id r) r' rs)
  = option_map (fun o => if prisma.alertRule.has_id (rule_id r) o then r' else o)
      (List.find (prisma.alertRule.has_key userId category) rs).
Proof.
  intros Hnd Hin Hk. unfold replaced. apply find_map_same. intros o Ho.
  destruct (prisma.alertRule.has_id (rule_id r) o) eqn:Hid; [| reflexivity].
  apply String.eqb_eq in Hid.
  rewrite (same_id_same_rule o r rs Hnd Ho Hin Hid).
  unfold prisma.alertRule.has_key. unfold rule_key in Hk.
  now injection Hk as -> ->.
Qed.

(** The evaluation sees a rule through its key, threshold and active flag
    only. *)
Lemma decision_replaced host us ts rs r r' clock userId category :
  NoDup (map rule_id rs) -> In r rs ->
  rule_key r' = rule_key r ->
  rule_threshold r' = rule_threshold r -> rule_isActive r' = rule_isActive r ->
  decision host (mkDb us ts (replaced (rule_id r) r' rs)) clock userId category
  = decision host (mkDb us ts rs) clock userId category.
Proof.
  intros Hnd Hin Hk Hth Hact. unfold decision. cbn [alertRules transactions].
  rewrite (find_replaced r r' rs userId category Hnd Hin Hk).
  destruct (List.find _ rs) as [o |] eqn:Hfind; [| reflexivity].
  cbn [option_map]. apply find_some in Hfind as [Ho _].
  destruct (prisma.alertRule.has_id (rule_id r) o) eqn:Hid; [| reflexivity].
  apply String.eqb_eq in Hid.
  rewrite (same_id_same_rule o r rs Hnd Ho Hin Hid).
  now rewrite Hth, Hact.
Qed.

Lemma try_catch_rethrow {A} (m : M A) (w : World) :
  try_catch m (fun error => throw error) w = m w.
Proof.
  unfold try_catch, throw. destruct (m w) as [[e | a] w']; reflexivity.
Qed.

Lemma updateAlertRule_is_update id data w :
  AlertService.updateAlertRule id data w = prisma.alertRule.update id data w.
Proof.
  unfold AlertService.updateAlertRule, AlertRuleRepository.update.
  now rewrite !try_catch_rethrow.
Qed.

Lemma toggleAlertRule_is_update id b w :
  AlertService.toggleAlertRule id b w
  = prisma.alertRule.update id (prisma.alertRule.mkUpdateData None None None (Some b)) w.
Proof.
  unfold AlertService.toggleAlertRule, AlertRuleRepository.update.
  now rewrite !try_catch_rethrow.
Qed.

Lemma deleteAlertRule_is_delete id w :
  AlertService.deleteAlertRule id w = prisma.alertRule.delete id w.
Proof.
  unfold AlertService.deleteAlertRule, AlertRuleRepository.delete.
  now rewrite !try_catch_rethrow.
Qed.

Lemma replaced_others r r' rs o :
  NoDup (map rule_id rs) -> In r rs -> In o rs -> o <> r ->
  In o (replaced (rule_id r) r' rs).
Proof.
  intros Hnd Hin Ho Hne. unfold replaced. apply in_map_iff. exists o.
  split; [| assumption].
  destruct (prisma.alertRule.has_id (rule_id r) o) eqn:Hid; [| reflexivity].
  apply String.eqb_eq in Hid. exfalso. apply Hne.
  now apply (same_id_same_rule o r rs).
Qed.

Lemma replaced_replaced id r1 r2 rs :
  rule_id r1 = id -> replaced id r2 (replaced id r1 rs) = replaced id r2 rs.
Proof.
  intros Hid. unfold replaced. rewrite map_map. apply map_ext. intros o.
  destruct (prisma.alertRule.has_id id o) eqn:Ho; [| now rewrite Ho].
  unfold prisma.alertRule.has_id. now rewrite Hid, String.eqb_refl.
Qed.

(** X11. Switching a rule off silences it.  On a stored rule
    [toggleAlertRule id false] succeeds and returns the rule with
    [isActive] false and everything else but [updatedAt] as it was; from
    then on the evaluation of the rule's user and category yields no
    alert, however much was spent.  The other rules and the transactions
    are untouched, and the keys and ids of the rules stay distinct. *)
Theorem toggle_off_silences host r w :
  rules_unique (alertRules (db w)) ->
  NoDup (map rule_id (alertRules (db w))) ->
  In r (alertRules (db w)) ->
  exists w',
    AlertService.toggleAlertRule (rule_id r) false w
    = (inr (mkAlertRule (rule_id r) (rule_userId r) (rule_category r) (rule_threshold r)
              false (rule_createdAt r) (now w)), w')
    /\ AlertService.checkAndTriggerAlert host (rule_userId r) (rule_category r) w'
       = (inr None, w')
    /\ (forall o, In o (alertRules (db w)) -> o <> r -> In o (alertRules (db w')))
    /\ rules_unique (alertRules (db w'))
    /\ NoDup (map rule_id (alertRules (db w')))
    /\ transactions (db w') = transactions (db w).
Proof.
  intros Huniq Hnd Hin.
  set (data := prisma.alertRule.mkUpdateData None None None (Some false)).
  assert (Hkeep : keeps_key data) by (split; reflexivity).
  rewrite toggleAlertRule_is_update. fold data.
  rewrite (update_in_place data r w Hkeep Huniq Hnd Hin).
  set (r' := prisma.alertRule.apply_update data (now w) r).
  destruct (apply_update_key data (now w) r Hkeep) as [Hk Hid]. fold r' in Hk, Hid.
  destruct (replaced_keys r r' _ Hnd Hin Hk Hid) as [Hkeys Hids].
  eexists. split; [reflexivity |].
  split; [| split; [| split; [| split; [| reflexivity]]]].
  - rewrite checkAndTriggerAlert_spec. f_equal.
    unfold decision, with_rules. cbn [db alertRules transactions now].
    assert (Hkey : prisma.alertRule.has_key (rule_userId r) (rule_category r) r = true)
      by now apply has_key_iff.
    rewrite (find_replaced r r' _ _ _ Hnd Hin Hk).
    rewrite (find_unique _ _ _ _ Huniq Hin Hkey). cbn [option_map].
    unfold prisma.alertRule.has_id. rewrite String.eqb_refl. reflexivity.
  - intros o Ho Hne. now apply replaced_others.
  - unfold rules_unique, with_rules. cbn [db alertRules]. now rewrite Hkeys.
  - unfold with_rules. cbn [db alertRules]. now rewrite Hids.
Qed.

Lemma toggle_off_silences_witness :
  let r := mkAlertRule "rule0" "u1" "Food" (100 # 1) true 5 5 in
  let d := mkDb ∅ [mkTransaction "tx0" "u1" "Dinner" (120 # 1) "Food" 1 10 10] [r] in
  let w := Demo.world d true in
  exists ev w',
    AlertService.checkAndTriggerAlert Demo.host "u1" "Food" w = (inr (Some ev), w)
    /\ fst (AlertService.toggleAlertRule "rule0" false w)
       = inr (mkAlertRule "rule0" "u1" "Food" (100 # 1) false 5 1000)
    /\ w' = snd (AlertService.toggleAlertRule "rule0" false w)
    /\ AlertService.checkAndTriggerAlert Demo.host "u1" "Food" w' = (inr None, w').
Proof.
  intros r d w.
  destruct (toggle_off_silences Demo.host r w) as (w' & Hrun & Hquiet & _).
  - apply NoDup_singleton.
  - apply NoDup_singleton.
  - now left.
  - eexists _, w'. split; [reflexivity |].
    change (rule_id r) with "rule0" in Hrun. rewrite Hrun.
    split; [reflexivity |]. split; [reflexivity | exact Hquiet].
Defined.

(** X12. Switching a rule off and on again restores every alert decision:
    for an active stored rule, after [toggleAlertRule id false] followed
    by [toggleAlertRule id true] the evaluation of every user and category
    returns exactly what it returned before; only the rule's [updatedAt]
    has changed. *)
Theorem toggle_off_on_restores host r w :
  rules_unique (alertRules (db w)) ->
  NoDup (map rule_id (alertRules (db w))) ->
  In r (alertRules (db w)) ->
  rule_isActive r = true ->
  exists r1 w1 w2,
    AlertService.toggleAlertRule (rule_id r) false w = (inr r1, w1)
    /\ AlertService.toggleAlertRule (rule_id r) true w1
       = (inr (mkAlertRule (rule_id r) (rule_userId r) (rule_category r) (rule_threshold r)
                 true (rule_createdAt r) (now w)), w2)
    /\ forall userId category,
         fst (AlertService.checkAndTriggerAlert host userId category w2)
         = fst (AlertService.checkAndTriggerAlert host userId category w).
Proof.
  intros Huniq Hnd Hin Hactive.
  set (off := prisma.alertRule.mkUpdateData None None None (Some false)).
  set (on := prisma.alertRule.mkUpdateData None None None (Some true)).
  assert (Hoff : keeps_key off) by (split; reflexivity).
  assert (Hon : keeps_key on) by (split; reflexivity).
  set (r1 := prisma.alertRule.apply_update off (now w) r).
  destruct (apply_update_key off (now w) r Hoff) as [Hk1 Hid1]. fold r1 in Hk1, Hid1.
  destruct (replaced_keys r r1 _ Hnd Hin Hk1 Hid1) as [Hkeys1 Hids1].
  set (w1 := with_rules (replaced (rule_id r) r1 (alertRules (db w))) w).
  assert (Huniq1 : rules_unique (alertRules (db w1)))
    by (unfold rules_unique, w1, with_rules; cbn [db alertRules]; now rewrite Hkeys1).
  assert (Hnd1 : NoDup (map rule_id (alertRules (db w1))))
    by (unfold w1, with_rules; cbn [db alertRules]; now rewrite Hids1).
  assert (Hin1 : In r1 (alertRules (db w1)))
    by (unfold w1, with_rules; cbn [db alertRules]; now apply replaced_In).
  exists r1, w1. eexists.
  split; [rewrite toggleAlertRule_is_update; apply (update_in_place off r w Hoff Huniq Hnd Hin) |].
  split.
  - rewrite toggleAlertRule_is_update.
    pose proof (update_in_place on r1 w1 Hon Huniq1 Hnd1 Hin1) as H2.
    rewrite Hid1 in H2. exact H2.
  - intros userId category. rewrite !checkAndTriggerAlert_spec. cbn [fst]. f_equal.
    unfold w1 at 1 2 3, with_rules. cbn [db alertRules transactions users now].
    rewrite replaced_replaced by exact Hid1.
    destruct (db w) as [us ts rs] eqn:Hdb. cbn [users transactions alertRules] in *.
    apply decision_replaced; try assumption; try reflexivity.
    cbn. now rewrite Hactive.
Qed.

Lemma toggle_off_on_restores_witness :
  let r := mkAlertRule "rule0" "u1" "Food" (100 # 1) true 5 5 in
  let d := mkDb ∅ [mkTransaction "tx0" "u1" "Dinner" (120 # 1) "Food" 1 10 10] [r] in
  let w := Demo.world d true in
  exists r1 w1 w2,
    AlertService.toggleAlertRule "rule0" false w = (inr r1, w1)
    /\ fst (AlertService.toggleAlertRule "rule0" true w1)
       = inr (mkAlertRule "rule0" "u1" "Food" (100 # 1) true 5 1000)
    /\ w2 = snd (AlertService.toggleAlertRule "rule0" true w1)
    /\ fst (AlertService.checkAndTriggerAlert Demo.host "u1" "Food" w2)
       = fst (AlertService.checkAndTriggerAlert Demo.host "u1" "Food" w).
Proof.
  intros r d w.
  destruct (toggle_off_on_restores Demo.host r w) as (r1 & w1 & w2 & H1 & H2 & H3).
  - apply NoDup_singleton.
  - apply NoDup_singleton.
  - now left.
  - reflexivity.
  - exists r1, w1, w2. change (rule_id r) with "rule0" in H1, H2.
    split; [exact H1 |]. rewrite H2.
    split; [reflexivity |]. split; [reflexivity | apply H3].
Defined.

Lemma update_error_unchanged id data w e w' :
  prisma.alertRule.update id data w = (inl e, w') -> w' = w.
Proof.
  unfold prisma.alertRule.update. cbn zeta. intros H.
  repeat case_match; simplify_eq; reflexivity.
Qed.

Lemma delete_rule_error_unchanged id w e w' :
  prisma.alertRule.delete id w = (inl e, w') -> w' = w.
Proof.
  unfold prisma.alertRule.delete. cbn zeta. intros H.
  repeat case_match; simplify_eq; reflexivity.
Qed.

Ltac answers_error :=
  left; eexists _, _; (split; [| reflexivity]); auto.

(** What a PATCH can do: answer with an error and change nothing, or
    apply to the store one update that keeps the key and whose threshold,
    when it has one, is positive. *)
Lemma PATCH_outcome host request id w :
  (exists msg code,
     (code = 400 \/ code = 500)%nat
     /\ AlertRuleRoute.PATCH host request id w = (inr (Api.errorResponse msg code), w))
  \/ (exists data r' w',
        keeps_key data
        /\ (forall q, prisma.alertRule.up_threshold data = Some q -> (0 < q)%Q)
        /\ prisma.alertRule.update id data w = (inr r', w')
        /\ AlertRuleRoute.PATCH host request id w
           = (inr (Api.successResponse r' 200 "Alert rule updated successfully"), w')).
Proof.
  unfold AlertRuleRoute.PATCH; run.
  destruct (JSON_parse host (Route.req_body request)) as [e | body]; simpl;
    [answers_error |].
  destruct body as [| b | n | s | xs | fields]; simpl; try answers_error.
  destruct (own_property "threshold" fields) as [[| tb | q | ts | txs | tfs] |];
    destruct (own_property "isActive" fields) as [[| b | aq | astr | axs | afs] |];
    simpl; try answers_error.
  all: try (destruct (Qle_bool q 0) eqn:Hq; simpl; [answers_error |]).
  all: unfold AlertRuleRoute.updateAlertRule_erased; try answers_error.
  all: rewrite updateAlertRule_is_update.
  all: match goal with
       | |- context [prisma.alertRule.update ?i ?d ?v] =>
           destruct (prisma.alertRule.update i d v) as [[e | r'] w'] eqn:Hup
       end; simpl.
  all: try (apply update_error_unchanged in Hup; subst w'; answers_error).
  all: right;
    refine (ex_intro _ _ (ex_intro _ r' (ex_intro _ w'
              (conj _ (conj _ (conj Hup eq_refl)))))).
  all: try (split; reflexivity).
  all: simpl; intros q' Hq'; try discriminate.
  all: injection Hq' as <-; apply Qltb_lt; unfold Qltb; now rewrite Hq.
Qed.

(** X13. An id that no stored rule has is an error everywhere and changes
    nothing: [updateAlertRule], [toggleAlertRule] and [deleteAlertRule]
    raise the client's not-found error; the DELETE handler turns it into
    status 500, and the PATCH handler answers 400 or 500, never 200,
    whatever the body. *)
Theorem unknown_rule_id host id w :
  (forall o, In o (alertRules (db w)) -> rule_id o <> id) ->
  (forall data, exists msg,
     AlertService.updateAlertRule id data w = (inl (PrismaNotFound msg), w))
  /\ (forall b, exists msg,
        AlertService.toggleAlertRule id b w = (inl (PrismaNotFound msg), w))
  /\ (exists msg, AlertService.deleteAlertRule id w = (inl (PrismaNotFound msg), w))
  /\ (exists msg, AlertRuleRoute.DELETE id w = (inr (Api.errorResponse msg 500), w))
  /\ (forall request, exists msg code,
        (code = 400 \/ code = 500)%nat
        /\ AlertRuleRoute.PATCH host request id w = (inr (Api.errorResponse msg code), w)).
Proof.
  intros Hnone. split; [| split; [| split; [| split]]].
  - intros data. rewrite updateAlertRule_is_update, update_missing by assumption. eauto.
  - intros b. rewrite toggleAlertRule_is_update, update_missing by assumption. eauto.
  - rewrite deleteAlertRule_is_delete, delete_rule_missing by assumption. eauto.
  - unfold AlertRuleRoute.DELETE, try_catch, bind.
    rewrite deleteAlertRule_is_delete, delete_rule_missing by assumption.
    unfold ret. eauto.
  - intros request.
    destruct (PATCH_outcome host request id w)
      as [Herr | (data & r' & w' & _ & _ & Hup & _)]; [exact Herr |].
    rewrite update_missing in Hup by assumption. discriminate.
Qed.

Lemma unknown_rule_id_witness :
  let d := mkDb ∅ [] [mkAlertRule "rule0" "u1" "Food" (100 # 1) true 5 5] in
  exists msg,
    AlertRuleRoute.DELETE "rule7" (Demo.world d true)
    = (inr (Api.errorResponse msg 500), Demo.world d true).
Proof.
  intros d.
  apply (unknown_rule_id Demo.host "rule7" (Demo.world d true)).
  intros o [<- | []]. discriminate.
Defined.

Lemma find_none_all {A} (P : A -> bool) (l : list A) :
  (forall o, In o l -> P o = false) -> List.find P l = None.
Proof.
  induction l as [| h l IH]; simpl; intros Hnone; [reflexivity |].
  rewrite (Hnone h) by now left. apply IH. intros o Ho. apply Hnone. now right.
Qed.

Lemma NoDup_map_filter {A B} (f : A -> B) (P : A -> bool) (l : list A) :
  NoDup (map f l) -> NoDup (map f (List.filter P l)).
Proof.
  induction l as [| h l IH]; simpl; [auto |].
  intros [Hfresh Hnd]%NoDup_cons. destruct (P h); simpl; [| auto].
  apply NoDup_cons. split; [| auto].
  intros Hin. apply Hfresh.
  apply list_elem_of_In, in_map_iff in Hin as (o & Ho & [Hin _]%filter_In).
  rewrite <- Ho. apply list_elem_of_In, in_map, Hin.
Qed.

(** X14. Deleting a stored rule returns it, removes it and nothing else,
    and ends its alerts: the evaluation of the rule's user and category
    yields no alert afterwards.  The transactions are untouched, and the
    keys and ids of the remaining rules stay distinct. *)
Theorem deleteAlertRule_removes host r w :
  rules_unique (alertRules (db w)) ->
  NoDup (map rule_id (alertRules (db w))) ->
  In r (alertRules (db w)) ->
  exists w',
    AlertService.deleteAlertRule (rule_id r) w = (inr r, w')
    /\ (forall o, In o (alertRules (db w')) <-> In o (alertRules (db w)) /\ o <> r)
    /\ AlertService.checkAndTriggerAlert host (rule_userId r) (rule_category r) w'
       = (inr None, w')
    /\ rules_unique (alertRules (db w'))
    /\ NoDup (map rule_id (alertRules (db w')))
    /\ transactions (db w') = transactions (db w).
Proof.
  intros Huniq Hnd Hin. rewrite deleteAlertRule_is_delete.
  unfold prisma.alertRule.delete. cbn zeta. rewrite (find_rule_by_id r _ Hnd Hin).
  eexists. split; [reflexivity |]. cbn [db alertRules transactions].
  assert (Hmem : forall o,
            In o (List.filter (fun o => negb (prisma.alertRule.has_id (rule_id r) o))
                    (alertRules (db w)))
            <-> In o (alertRules (db w)) /\ o <> r).
  { intros o. rewrite filter_In. split.
    - intros [Ho Hid]. split; [assumption |]. intros ->.
      unfold prisma.alertRule.has_id in Hid. now rewrite String.eqb_refl in Hid.
    - intros [Ho Hne]. split; [assumption |].
      apply negb_true_iff, not_true_iff_false. intros Hid%String.eqb_eq.
      apply Hne. now apply (same_id_same_rule o r (alertRules (db w))). }
  split; [exact Hmem |]. split; [| split; [| split; [| reflexivity]]].
  - rewrite checkAndTriggerAlert_spec. f_equal. unfold decision.
    cbn [db alertRules transactions].
    rewrite find_none_all; [reflexivity |].
    intros o [Ho Hne]%Hmem. apply not_true_iff_false. intros Hkey%has_key_iff.
    apply Hne. now apply (same_key_same_rule o r (alertRules (db w))).
  - now apply NoDup_map_filter.
  - now apply NoDup_map_filter.
Qed.

Lemma deleteAlertRule_removes_witness :
  let r := mkAlertRule "rule0" "u1" "Food" (100 # 1) true 5 5 in
  let d := mkDb ∅ [mkTransaction "tx0" "u1" "Dinner" (120 # 1) "Food" 1 10 10] [r] in
  let w := Demo.world d true in
  exists ev w',
    AlertService.checkAndTriggerAlert Demo.host "u1" "Food" w = (inr (Some ev), w)
    /\ AlertService.deleteAlertRule "rule0" w = (inr r, w')
    /\ AlertService.checkAndTriggerAlert Demo.host "u1" "Food" w' = (inr None, w').
Proof.
  intros r d w.
  destruct (deleteAlertRule_removes Demo.host r w) as (w' & Hrun & _ & Hquiet & _).
  - apply NoDup_singleton.
  - apply NoDup_singleton.
  - now left.
  - eexists _, w'. split; [reflexivity |]. split; [exact Hrun | exact Hquiet].
Defined.



Lemma apply_update_wellformed data clock r :
  keeps_key data ->
  (forall q, prisma.alertRule.up_threshold data = Some q -> (0 < q)%Q) ->
  rule_wellformed r ->
  rule_wellformed (prisma.alertRule.apply_update data clock r).
Proof.
  intros [_ Hc] Hpos [Hcat Hth]. unfold rule_wellformed, prisma.alertRule.apply_update.
  simpl. rewrite Hc. simpl. split; [assumption |].
  destruct (prisma.alertRule.up_threshold data) as [q |]; simpl; auto.
Qed.

(** X16. A PATCH never moves a rule: whatever the request and its outcome,
    the stored rules have the same ids and the same (userId, category)
    keys, in the same order, as before, so the uniqueness of the keys is
    kept; the transactions, the users and the queue are untouched; and if
    every stored rule had an allowed category and a positive threshold, so
    it has afterwards. *)
Theorem PATCH_keeps_rules host request id w :
  NoDup (map rule_id (alertRules (db w))) ->
  let w' := snd (AlertRuleRoute.PATCH host request id w) in
  map rule_key (alertRules (db w')) = map rule_key (alertRules (db w))
  /\ map rule_id (alertRules (db w')) = map rule_id (alertRules (db w))
  /\ (rules_unique (alertRules (db w)) -> rules_unique (alertRules (db w')))
  /\ transactions (db w') = transactions (db w)
  /\ users (db w') = users (db w)
  /\ jobs w' = jobs w
  /\ (Forall rule_wellformed (alertRules (db w)) ->
      Forall rule_wellformed (alertRules (db w'))).
Proof.
  intros Hnd w'. subst w'.
  destruct (PATCH_outcome host request id w)
    as [(msg & code & _ & ->) | (data & r' & w' & Hkeep & Hpos & Hup & ->)];
    cbn [snd]; [repeat split; auto |].
  destruct (update_outcome id data w Hkeep) as [[e He] | (r & Hin & <- & Hrun)];
    [congruence |].
  rewrite Hrun in Hup. injection Hup as <- <-.
  destruct (apply_update_key data (now w) r Hkeep) as [Hk Hid].
  destruct (replaced_keys r _ _ Hnd Hin Hk Hid) as [Hkeys Hids].
  unfold with_rules. cbn [db alertRules transactions users jobs].
  split; [exact Hkeys |]. split; [exact Hids |].
  split; [unfold rules_unique; now rewrite Hkeys |].
  repeat (split; [reflexivity |]).
  intros Hwf. apply Forall_forall. intros o Ho. rewrite Forall_forall in Hwf.
  unfold replaced in Ho. apply list_elem_of_In, in_map_iff in Ho as (o' & Ho' & Hin').
  destruct (prisma.alertRule.has_id (rule_id r) o'); subst o.
  - apply apply_update_wellformed; try assumption. apply Hwf. now apply list_elem_of_In.
  - apply Hwf. now apply list_elem_of_In.
Qed.

(** Two updates that go through: the threshold of the first rule is
    raised to 250, the second rule is switched off.  The rules keep their
    ids, their keys and their places. *)
Lemma PATCH_keeps_rules_witness :
  let r0 := mkAlertRule "rule0" "u1" "Food" (100 # 1) true 5 5 in
  let r1 := mkAlertRule "rule1" "u1" "Transport" (40 # 1) true 6 6 in
  let w := Demo.world (mkDb ∅ [] [r0; r1]) true in
  let raised := snd (AlertRuleRoute.PATCH Demo.request_host
                       (Route.mkRequest Demo.raise_text) "rule0" w) in
  let off := snd (AlertRuleRoute.PATCH Demo.request_host
                    (Route.mkRequest Demo.switch_off_text) "rule1" w) in
  NoDup (map rule_id (alertRules (db w)))
  /\ map rule_threshold (alertRules (db raised)) = [(250 # 1)%Q; (40 # 1)%Q]
  /\ map rule_key (alertRules (db raised)) = [("u1", "Food"); ("u1", "Transport")]
  /\ map rule_id (alertRules (db raised)) = ["rule0"; "rule1"]
  /\ map rule_isActive (alertRules (db off)) = [true; false]
  /\ map rule_key (alertRules (db off)) = [("u1", "Food"); ("u1", "Transport")]
  /\ map rule_id (alertRules (db off)) = ["rule0"; "rule1"].
Proof.
  intros r0 r1 w raised off.
  assert (Hnd : NoDup (map rule_id (alertRules (db w))))
    by (apply (bool_decide_unpack (NoDup _)); vm_compute; exact I).
  split; [exact Hnd |].
  destruct (PATCH_keeps_rules Demo.request_host (Route.mkRequest Demo.raise_text)
              "rule0" w Hnd) as (Hkeys & Hids & _).
  destruct (PATCH_keeps_rules Demo.request_host (Route.mkRequest Demo.switch_off_text)
              "rule1" w Hnd) as (Hkeys' & Hids' & _).
  split; [vm_compute; reflexivity |].
  split; [exact Hkeys |]. split; [exact Hids |].
  split; [vm_compute; reflexivity |].
  split; [exact Hkeys' | exact Hids'].
Defined.

(** ** Creating rules *)

Lemma createAlertRule_outcome data w :
  (exists e, AlertService.createAlertRule data w = (inl e, w))
  \/ (exists r w',
        AlertService.createAlertRule data w = (inr r, w')
        /\ r = mkAlertRule (fresh_id "rule" (idSeed w)) (ri_userId data) (ri_category data)
                 (ri_threshold data) true (now w) (now w)
        /\ (forall o, In o (alertRules (db w)) ->
                      rule_key o <> (ri_userId data, ri_category data))
        /\ alertRules (db w') = (alertRules (db w) ++ [r])%list
        /\ transactions (db w') = transactions (db w)
        /\ users (db w') = users (db w)
        /\ jobs w' = jobs w).
Proof.
  unfold AlertService.createAlertRule, AlertRuleRepository.create.
  rewrite !try_catch_rethrow. unfold prisma.alertRule.create. cbn zeta.
  destruct (users (db w) !! ri_userId data); [| left; eauto].
  destruct (existsb _ (alertRules (db w))) eqn:Hex; [left; eauto |].
  right. eexists _, _. split; [reflexivity |]. split; [reflexivity |].
  split; [| repeat split].
  intros o Ho Hkey. apply not_true_iff_false in Hex. apply Hex.
  apply existsb_exists. exists o. split; [assumption | now apply has_key_iff].
Qed.

(** What a POST of a rule can do: answer with an error and change
    nothing, or create one rule with an allowed category and a positive
    threshold. *)
Lemma POST_rule_outcome host request w :
  (exists msg code,
     (code = 400 \/ code = 500)%nat
     /\ AlertRulesRoute.POST host request w = (inr (Api.errorResponse msg code), w))
  \/ (exists data r w',
        In (ri_category data) AIService.ALLOWED_CATEGORIES
        /\ (0 < ri_threshold data)%Q
        /\ AlertService.createAlertRule data w = (inr r, w')
        /\ AlertRulesRoute.POST host request w
           = (inr (Api.successResponse r 201 "Alert rule created successfully"), w')).
Proof.
  unfold AlertRulesRoute.POST; run.
  destruct (JSON_parse host (Route.req_body request)) as [e | body]; simpl;
    [answers_error |].
  destruct body as [| b | n | s | xs | fields]; simpl; try answers_error.
  destruct (truthy (own_property "userId" fields)) eqn:Hu; simpl; [| answers_error].
  destruct (truthy (own_property "category" fields)) eqn:Hc; simpl; [| answers_error].
  destruct (own_property "threshold" fields) as [threshold |]; simpl; [| answers_error].
  destruct (AIService.includes AIService.ALLOWED_CATEGORIES (own_property "category" fields))
    eqn:Hin; [| answers_error].
  destruct (own_property "category" fields) as [[| cb | cq | c | cxs | cfs] |];
    try discriminate.
  apply includes_In in Hin.
  destruct threshold as [| tb | q | ts | txs | tfs]; simpl; try answers_error.
  destruct (Qle_bool q 0) eqn:Hq; simpl; [answers_error |].
  unfold AlertRulesRoute.createAlertRule_erased.
  destruct (own_property "userId" fields) as [[| ub | uq | u | uxs | ufs] |];
    try answers_error.
  destruct (createAlertRule_outcome (mkAlertRuleInput u c q) w)
    as [[e He] | (r & w' & Hrun & _)]; rewrite ?He, ?Hrun; simpl; [answers_error |].
  right. exists (mkAlertRuleInput u c q), r, w'.
  split; [exact Hin |]. split; [| split; [exact Hrun | reflexivity]].
  apply Qltb_lt. unfold Qltb. simpl. now rewrite Hq.
Qed.

(** X17. The checks of the POST handler for rules, for a body that is a
    JSON value other than null.  A missing or empty userId or category or
    a missing threshold is answered with 400; so is a category outside the
    allowed set, with a message that lists the five categories; so is a
    threshold that is not a number greater than zero.  Nothing changes in
    any of these cases. *)
Theorem POST_rule_checks host request w body :
  JSON_parse host (Route.req_body request) = inr body ->
  body <> JNull ->
  (missing_or_empty (field body "userId") \/ missing_or_empty (field body "category")
   \/ field body "threshold" = None ->
   AlertRulesRoute.POST host request w
   = (inr (Api.errorResponse "Missing required fields: userId, category, threshold" 400), w))
  /\ (truthy (field body "userId") = true -> is_Some (field body "threshold") ->
      truthy (field body "category") = true ->
      AIService.includes AIService.ALLOWED_CATEGORIES (field body "category") = false ->
      AlertRulesRoute.POST host request w
      = (inr (Api.errorResponse
                "Invalid category. Allowed categories: Food, Transport, Utilities, Entertainment, Shopping"
                400), w))
  /\ (truthy (field body "userId") = true ->
      AIService.includes AIService.ALLOWED_CATEGORIES (field body "category") = true ->
      is_Some (field body "threshold") -> ~ positive_number (field body "threshold") ->
      AlertRulesRoute.POST host request w
      = (inr (Api.errorResponse "Threshold must be a positive number" 400), w)).
Proof.
  intros Hparse Hnull. unfold AlertRulesRoute.POST; run. rewrite Hparse. simpl.
  rewrite !(destructure_field body _ Hnull). simpl.
  unfold missing_or_empty. split; [| split].
  - intros [-> | [-> | ->]]; simpl; rewrite ?orb_true_r; reflexivity.
  - intros -> [v ->] -> ->. reflexivity.
  - intros -> Hin [v Hv] Hbad. rewrite Hv in *.
    assert (Hc : truthy (field body "category") = true).
    { destruct (field body "category") as [[| cb | cq | c | cxs | cfs] |];
        try discriminate.
      pose proof (includes_In _ _ Hin) as Hmem.
      destruct Hmem as [<- | [<- | [<- | [<- | [<- | []]]]]]; reflexivity. }
    rewrite Hc, Hin. simpl.
    destruct v as [| b | q | s | xs | fs]; try reflexivity. simpl.
    destruct (Qle_bool q 0) eqn:Hq; [reflexivity |].
    exfalso. apply Hbad. exists q. split; [reflexivity |].
    apply Qltb_lt. unfold Qltb. now rewrite Hq.
Qed.

Lemma POST_rule_checks_witness :
  AlertRulesRoute.POST Demo.host (Route.mkRequest "{}") (Demo.world Demo.empty_db true)
  = (inr (Api.errorResponse "Missing required fields: userId, category, threshold" 400),
     Demo.world Demo.empty_db true).
Proof.
  apply (proj1 (POST_rule_checks Demo.host (Route.mkRequest "{}")
                  (Demo.world Demo.empty_db true) (JObj []) eq_refl ltac:(discriminate))).
  left. reflexivity.
Defined.

(** X18. The POST handler for rules keeps the rule store in order.  When
    it answers 201 it has appended exactly one rule, which is active, has
    an allowed category and a positive threshold, and whose key no stored
    rule had; otherwise it has changed nothing.  So, whatever the request,
    distinct keys stay distinct, allowed categories and positive
    thresholds stay so, and the transactions are untouched. *)
Theorem POST_rule_keeps_rules host request w :
  let w' := snd (AlertRulesRoute.POST host request w) in
  (forall resp,
     fst (AlertRulesRoute.POST host request w) = inr resp ->
     Api.statusCode resp = 201%nat ->
     exists r,
       Api.data resp = Some r
       /\ alertRules (db w') = (alertRules (db w) ++ [r])%list
       /\ rule_isActive r = true /\ rule_wellformed r
       /\ (forall o, In o (alertRules (db w)) -> rule_key o <> rule_key r))
  /\ (forall resp,
        fst (AlertRulesRoute.POST host request w) = inr resp ->
        Api.statusCode resp <> 201%nat -> w' = w)
  /\ (rules_unique (alertRules (db w)) -> rules_unique (alertRules (db w')))
  /\ (Forall rule_wellformed (alertRules (db w)) ->
      Forall rule_wellformed (alertRules (db w')))
  /\ transactions (db w') = transactions (db w).
Proof.
  intros w'. subst w'.
  destruct (POST_rule_outcome host request w)
    as [(msg & code & Hcode & ->) | (data & r & w' & Hcat & Hth & Hrun & ->)];
    cbn [fst snd].
  - split; [| repeat split; auto].
    intros resp [= <-] Hs. simpl in Hs. destruct Hcode; subst code; discriminate.
  - destruct (createAlertRule_outcome data w)
      as [[e He] | (r0 & w0 & Hrun0 & Hr & Hfresh & Hrules & Hts & _)]; [congruence |].
    rewrite Hrun0 in Hrun. injection Hrun as <- <-.
    assert (Hwf : rule_wellformed r0) by (subst r0; split; assumption).
    assert (Hkey : rule_key r0 = (ri_userId data, ri_category data))
      by (subst r0; reflexivity).
    split; [| split; [| split; [| split]]].
    + intros resp [= <-] _. exists r0. split; [reflexivity |].
      split; [exact Hrules |]. split; [now subst r0 |]. split; [exact Hwf |].
      intros o Ho. rewrite Hkey. now apply Hfresh.
    + intros resp [= <-] Hs. now simpl in Hs.
    + unfold rules_unique. rewrite Hrules, map_app. intros Huniq.
      apply NoDup_app. split; [assumption |]. split; [| apply NoDup_singleton].
      intros k Hk [= ->]%list_elem_of_singleton.
      apply list_elem_of_In, in_map_iff in Hk as (o & Hko & Ho).
      apply (Hfresh o Ho). now rewrite Hko.
    + rewrite Hrules. intros Hall. apply Forall_app. split; [assumption |].
      now apply Forall_singleton.
    + exact Hts.
Qed.

Lemma POST_rule_keeps_rules_witness :
  let d := mkDb {["u1" := mkUser "u1" "u1@sentinel.local"]} [] [] in
  let w := Demo.world d true in
  exists r w',
    AlertRulesRoute.POST Demo.request_host (Route.mkRequest Demo.rule_text) w
    = (inr (Api.successResponse r 201 "Alert rule created successfully"), w')
    /\ alertRules (db w') = [r]
    /\ rule_isActive r = true /\ rule_wellformed r.
Proof.
  intros d w.
  destruct (AlertRulesRoute.POST Demo.request_host (Route.mkRequest Demo.rule_text) w)
    as [[e | resp] w'] eqn:Hrun; [vm_compute in Hrun; discriminate |].
  pose proof (proj1 (POST_rule_keeps_rules Demo.request_host
                       (Route.mkRequest Demo.rule_text) w)) as Hok.
  rewrite Hrun in Hok. cbn [fst snd] in Hok.
  assert (Hresp : resp = Api.successResponse
                           (mkAlertRule "rule0" "u1" "Food" (100 # 1) true 1000 1000)
                           201 "Alert rule created successfully")
    by (vm_compute in Hrun; now injection Hrun as <- _).
  destruct (Hok resp eq_refl) as (r & Hdata & Hrules & Hactive & Hwf & _);
    [now rewrite Hresp |].
  rewrite Hresp in Hdata. injection Hdata as <-.
  eexists _, w'. rewrite Hresp. split; [reflexivity |]. auto.
Defined.

(** ** The GET handlers *)

Lemma getUserTransactions_value userId w :
  TransactionService.getUserTransactions userId w
  = (inr (merge_sort prisma.transaction.newest_first (owned_by userId (db w))), w).
Proof. reflexivity. Qed.

Lemma getTransactionsByCategory_value userId category w :
  TransactionService.getTransactionsByCategory userId category w
  = if AIService.isValidCategory category then
      (inr (merge_sort prisma.transaction.newest_first
              (filter (fun t => prisma.transaction.matches userId category t = true)
                      (transactions (db w)))), w)
    else (inl (PlainError ("Invalid category: " +:+ category)), w).
Proof.
  unfold TransactionService.getTransactionsByCategory.
  destruct (AIService.isValidCategory category); reflexivity.
Qed.

(** X19. The three GET handlers never fail and never change anything,
    whatever the query; and each answers a query without a userId, or with
    an empty one, with status 400 and the message "Missing required query
    parameter: userId". *)
Theorem GET_handlers_read_only query w :
  (exists resp, Route.GET query w = (inr resp, w))
  /\ (exists resp, SpendingRoute.GET query w = (inr resp, w))
  /\ (exists resp, AlertRulesRoute.GET query w = (inr resp, w))
  /\ (Api.absent (Api.q_userId query) = true ->
      Route.GET query w
      = (inr (Api.errorResponse "Missing required query parameter: userId" 400), w)
      /\ SpendingRoute.GET query w
         = (inr (Api.errorResponse "Missing required query parameter: userId" 400), w)
      /\ AlertRulesRoute.GET query w
         = (inr (Api.errorResponse "Missing required query parameter: userId" 400), w)).
Proof.
  split; [| split; [| split]].
  - unfold Route.GET, try_catch, bind.
    destruct (Api.absent (Api.q_userId query)); [unfold ret; eauto |].
    destruct (negb (Api.absent (Api.q_category query))).
    + rewrite getTransactionsByCategory_value.
      destruct (AIService.isValidCategory _); unfold ret; eauto.
    + rewrite getUserTransactions_value. unfold ret. eauto.
  - unfold SpendingRoute.GET, try_catch, bind.
    destruct (Api.absent (Api.q_userId query)); [unfold ret; eauto |].
    unfold TransactionService.getSpendingSummary, try_catch.
    rewrite summarise_spec. unfold ret. eauto.
  - unfold AlertRulesRoute.GET, try_catch, bind.
    destruct (Api.absent (Api.q_userId query)); unfold ret; eauto.
  - intros Habsent.
    unfold Route.GET, SpendingRoute.GET, AlertRulesRoute.GET, try_catch.
    rewrite Habsent. repeat split.
Qed.

Lemma GET_handlers_read_only_witness :
  SpendingRoute.GET (Api.mkQuery (Some "") None) (Demo.world Demo.empty_db true)
  = (inr (Api.errorResponse "Missing required query parameter: userId" 400),
     Demo.world Demo.empty_db true).
Proof.
  exact (proj1 (proj2 (proj2 (proj2 (proj2 (GET_handlers_read_only
           (Api.mkQuery (Some "") None) (Demo.world Demo.empty_db true)))) eq_refl))).
Defined.

(** X20. GET /api/transactions and the category parameter, for a query
    with a userId.  A category outside the allowed set is answered with
    status 500 and the error "Invalid category: <category>", without
    data.  An absent or empty category is answered with status 200 and
    all transactions of the user, newest first; an allowed category with
    status 200 and the user's transactions of that category.  The message
    of a 200 answer counts the transactions returned. *)
Theorem GET_transactions_category userId category w :
  userId <> "" ->
  (category <> "" -> AIService.isValidCategory category = false ->
   Route.GET (Api.mkQuery (Some userId) (Some category)) w
   = (inr (Api.errorResponse ("Invalid category: " +:+ category) 500), w))
  /\ (exists l,
        TransactionService.getUserTransactions userId w = (inr l, w)
        /\ Route.GET (Api.mkQuery (Some userId) None) w
           = (inr (Api.successResponse l 200
                     ("Retrieved " +:+ pretty (length l) +:+ " transaction(s)")), w)
        /\ Route.GET (Api.mkQuery (Some userId) (Some "")) w
           = Route.GET (Api.mkQuery (Some userId) None) w)
  /\ (AIService.isValidCategory category = true ->
      exists l,
        TransactionService.getTransactionsByCategory userId category w = (inr l, w)
        /\ Route.GET (Api.mkQuery (Some userId) (Some category)) w
           = (inr (Api.successResponse l 200
                     ("Retrieved " +:+ pretty (length l) +:+ " transaction(s)")), w)).
Proof.
  intros Huser.
  assert (Hu : Api.absent (Some userId) = false)
    by (simpl; now apply String.eqb_neq).
  unfold Route.GET, try_catch, bind. cbn [Api.q_userId Api.q_category]. rewrite Hu.
  split; [| split].
  - intros Hcat Hinvalid.
    assert (Hc : Api.absent (Some category) = false)
      by (simpl; now apply String.eqb_neq).
    rewrite Hc. cbn [negb from_option id]. rewrite getTransactionsByCategory_value, Hinvalid.
    reflexivity.
  - eexists. split; [apply getUserTransactions_value |]. split; reflexivity.
  - intros Hvalid.
    assert (Hc : Api.absent (Some category) = false).
    { simpl. apply String.eqb_neq. intros ->. discriminate. }
    rewrite Hc. cbn [negb from_option id]. rewrite getTransactionsByCategory_value, Hvalid.
    eexists. split; reflexivity.
Qed.

Lemma GET_transactions_category_witness :
  let d := mkDb ∅ [mkTransaction "tx0" "u1" "Flight" (300 # 1) "Travel" 1 10 10] [] in
  Route.GET (Api.mkQuery (Some "u1") (Some "Travel")) (Demo.world d true)
  = (inr (Api.errorResponse "Invalid category: Travel" 500), Demo.world d true).
Proof.
  intros d.
  apply (proj1 (GET_transactions_category "u1" "Travel" (Demo.world d true)
                  ltac:(discriminate)));
    [discriminate | reflexivity].
Defined.

(** ** The ingestion entrypoint on a valid request *)

(** X21. POST /api/transactions on a well-typed valid body: non-empty
    userId and description, and an amount that is a finite number greater
    than zero.  When [alertQueue.add] resolves, the answer is 201 with the
    stored transaction, which has the user, description and amount of the
    body and an allowed category, and is the one row added to the store.
    When [alertQueue.add] rejects, the answer is 500, no job is enqueued,
    and that transaction is stored all the same: an error answer does not
    mean that nothing was written. *)
Theorem POST_transaction_outcomes host request w body u d a :
  JSON_parse host (Route.req_body request) = inr body ->
  field body "userId" = Some (JStr u) -> u <> "" ->
  field body "description" = Some (JStr d) -> d <> "" ->
  field body "amount" = Some (JNum a) -> (0 < a)%Q ->
  exists t w1,
    In t (transactions (db w1))
    /\ transactions (db w1) = (transactions (db w) ++ [t])%list
    /\ tx_userId t = u /\ tx_description t = d /\ tx_amount t = a
    /\ In (tx_category t) AIService.ALLOWED_CATEGORIES
    /\ (queueAccepts w = true ->
        Route.POST host request w
        = (inr (Route.successResponse t 201 "Transaction created successfully"),
           with_job (job_for u t) w1))
    /\ (queueAccepts w = false ->
        (exists msg,
           Route.POST host request w = (inr (Route.errorResponse msg 500), w1))
        /\ jobs w1 = jobs w).
Proof.
  intros Hparse Hu Hune Hd Hdne Ha Hpos.
  assert (Hnull : body <> JNull) by (intros ->; discriminate).
  destruct (classifyTransaction_spec host d w) as (c & (Hallowed & _) & Hc).
  assert (Hw1 : exists w0, db w0 = db w /\ jobs w0 = jobs w
            /\ queueAccepts w0 = queueAccepts w
            /\ AIService.classifyTransaction host d w = (inr c, w0))
    by (destruct Hc as [Hc | Hc]; [exists w | exists (with_call d w)];
        repeat split; assumption).
  destruct Hw1 as (w0 & Hdb & Hjobs & Hqueue & Hc0).
  set (data := mkTransactionInput u d a).
  exists (new_transaction (classified data c) w0), (after_create (classified data c) w0).
  split; [simpl; apply in_or_app; right; now left |].
  split; [simpl; now rewrite Hdb |].
  do 3 (split; [reflexivity |]). split; [exact Hallowed |].
  assert (Hrun : Route.POST host request w
            = match TransactionService.createTransaction host data w with
              | (inr t, w') =>
                  (inr (Route.successResponse t 201 "Transaction created successfully"), w')
              | (inl e, w') => (inr (Route.errorResponse (error_message e) 500), w')
              end).
  { unfold Route.POST; run. rewrite Hparse. simpl.
    rewrite !(destructure_field body _ Hnull), Hu, Hd, Ha. simpl.
    apply String.eqb_neq in Hune, Hdne. rewrite Hune, Hdne. simpl.
    assert (Hq : Qle_bool a 0 = false)
      by (apply Qltb_lt in Hpos; unfold Qltb in Hpos; now apply negb_true_iff in Hpos).
    rewrite Hq. simpl. fold data.
    destruct (TransactionService.createTransaction host data w) as [[e | t] w'];
      reflexivity. }
  rewrite Hrun, (createTransaction_steps host data w c w0 Hc0). cbn zeta.
  change (queueAccepts (after_create (classified data c) w0)) with (queueAccepts w0).
  rewrite Hqueue.
  split; intros ->; [reflexivity |]. split; [eexists; reflexivity | exact Hjobs].
Qed.

Lemma POST_transaction_outcomes_witness :
  let w := Demo.world Demo.empty_db false in
  exists t w1 msg,
    Route.POST Demo.request_host (Route.mkRequest Demo.transaction_text) w
    = (inr (Route.errorResponse msg 500), w1)
    /\ transactions (db w1) = [t]
    /\ tx_userId t = "u1" /\ tx_amount t = (55 # 10)%Q.
Proof.
  intros w.
  destruct (POST_transaction_outcomes Demo.request_host
              (Route.mkRequest Demo.transaction_text) w
              (JObj [("userId", JStr "u1"); ("description", JStr "Coffee at Starbucks");
                     ("amount", JNum (55 # 10))])
              "u1" "Coffee at Starbucks" (55 # 10))
    as (t & w1 & _ & Hts & Hu & _ & Ha & _ & _ & Hdown);
    try reflexivity; try discriminate.
  destruct (Hdown eq_refl) as [[msg Hrun] _].
  exists t, w1, msg. split; [exact Hrun |]. auto.
Defined.

(** ** The gateway and the classifier *)

Lemma trimEnd_nonempty (c : ascii) (s : string) :
  is_white_space c = false -> trimEnd (String c s) <> EmptyString.
Proof.
  intros Hc. simpl. destruct (trimEnd s); [now rewrite Hc | discriminate].
Qed.

Lemma trim_empty_white_space_only (s : string) :
  trim s = EmptyString -> white_space_only s = true.
Proof.
  unfold trim. induction s as [| c s IH]; simpl; [reflexivity |].
  destruct (is_white_space c) eqn:Hc; [exact IH |].
  intros Hempty. exfalso. revert Hempty.
  change (trimEnd (String c s) <> EmptyString). now apply trimEnd_nonempty.
Qed.

Lemma guard_blank (description : string) :
  String.eqb description "" || (String.length (trim description) =? 0)%nat = true ->
  white_space_only description = true.
Proof.
  intros [Hempty%String.eqb_eq | Hlen%Nat.eqb_eq]%orb_true_iff.
  - now subst description.
  - apply trim_empty_white_space_only.
    destruct (trim description); [reflexivity | discriminate].
Qed.

Lemma classify_body_contacts host description w r w1 :
  white_space_only description = false ->
  AIService.classify_body host description w = (r, w1) ->
  w1 = with_call description w.
Proof.
  intros Hfull.
  unfold AIService.classify_body, AIService.chat_completions_create, with_call.
  destruct (_ || _) eqn:Hguard; [apply guard_blank in Hguard; congruence |].
  run.
  destruct (openai_create host description) as [e | response];
    [now intros [= _ <-] |].
  destruct (AIService.first_content response) as [e | [[| a text] |]]; simpl;
    try now intros [= _ <-].
  destruct (JSON_parse host (String a text)) as [e | result]; simpl;
    [now intros [= _ <-] |].
  destruct (get_prop result "category") as [e | category]; simpl;
    [now intros [= _ <-] |].
  destruct (negb (truthy category) || _); simpl; [now intros [= _ <-] |].
  destruct (get_prop result "confidence") as [e | confidence]; simpl;
    [now intros [= _ <-] |].
  destruct category as [[| | | s | |] |]; try now intros [= _ <-].
  destruct confidence as [[| | q | | |] |]; try now intros [= _ <-].
  destruct (Qltb q 0 || Qltb 1 q); now intros [= _ <-].
Qed.

(** X22. The gateway has no retry loop of its own and makes no needless
    call.  In one classification it calls the client's
    [chat.completions.create] at most once: never for an empty or
    white-space-only description, and exactly once, with the description,
    for an ASCII description that is not blank, whether the call resolves
    with a good answer, resolves with a bad one, or rejects.  It never
    touches the database or the queue. *)
Theorem classifier_contacted_once host description w :
  let w' := snd (AIService.classifyTransaction host description w) in
  (white_space_only description = true -> w' = w)
  /\ (ascii_only description = true -> white_space_only description = false ->
      aiCalls w' = (aiCalls w ++ [description])%list)
  /\ (exists calls,
        aiCalls w' = (aiCalls w ++ calls)%list /\ (length calls <= 1)%nat)
  /\ db w' = db w /\ jobs w' = jobs w.
Proof.
  intros w'. subst w'. split; [| split; [| split]].
  - intros Hblank. now rewrite classify_blank.
  - intros _ Hfull.
    unfold AIService.classifyTransaction, try_catch.
    destruct (AIService.classify_body host description w) as [[e | c] w1] eqn:Hbody;
      rewrite (classify_body_contacts _ _ _ _ _ Hfull Hbody); reflexivity.
  - destruct (classifyTransaction_spec host description w) as (c & _ & [-> | ->]).
    + exists []. split; [now rewrite app_nil_r | simpl; lia].
    + exists [description]. split; [reflexivity | simpl; lia].
  - destruct (classifyTransaction_spec host description w) as (c & _ & [-> | ->]);
      split; reflexivity.
Qed.

Lemma classifier_contacted_once_witness :
  ascii_only "Lottery" = true
  /\ white_space_only "Lottery" = false
  /\ aiCalls (snd (AIService.classifyTransaction Demo.host "Lottery"
                     (Demo.world Demo.empty_db true))) = ["Lottery"].
Proof.
  split; [reflexivity |]. split; [reflexivity |].
  exact (proj1 (proj2 (classifier_contacted_once Demo.host "Lottery"
                         (Demo.world Demo.empty_db true))) eq_refl eq_refl).
Defined.

(** ** Listing rules *)

(** X23. [getUserAlertRules] lists exactly the stored rules of the user,
    and [findActiveByUserId] exactly the active ones among them, both
    from the newest to the oldest, without failing or changing anything.
    Every alert that the evaluation raises for the user comes from a rule
    that [findActiveByUserId] lists: the rule of the alert's category,
    with the alert's threshold. *)
Theorem active_rules_listing userId w :
  exists every active,
    AlertService.getUserAlertRules userId w = (inr every, w)
    /\ AlertRuleRepository.findActiveByUserId userId w = (inr active, w)
    /\ (forall r, In r every <-> In r (alertRules (db w)) /\ rule_userId r = userId)
    /\ (forall r, In r active <-> In r every /\ rule_isActive r = true)
    /\ StronglySorted prisma.alertRule.newest_first every
    /\ StronglySorted prisma.alertRule.newest_first active
    /\ forall host category ev,
         AlertService.checkAndTriggerAlert host userId category w = (inr (Some ev), w) ->
         exists r,
           In r active /\ rule_category r = category
           /\ rule_threshold r = ev_threshold ev.
Proof.
  unfold AlertService.getUserAlertRules, AlertRuleRepository.findByUserId,
    AlertRuleRepository.findActiveByUserId, prisma.alertRule.findMany; run.
  eexists _, _. split; [reflexivity |]. split; [reflexivity |].
  assert (Hevery : forall r,
            In r (merge_sort prisma.alertRule.newest_first
                    (filter (fun r => String.eqb (rule_userId r) userId = true)
                            (alertRules (db w))))
            <-> In r (alertRules (db w)) /\ rule_userId r = userId).
  { intros r. rewrite <- !list_elem_of_In. rewrite merge_sort_Permutation.
    rewrite list_elem_of_filter, String.eqb_eq. tauto. }
  assert (Hactive : forall r,
            In r (merge_sort prisma.alertRule.newest_first
                    (filter (fun r => String.eqb (rule_userId r) userId && rule_isActive r
                                      = true)
                            (alertRules (db w))))
            <-> In r (alertRules (db w)) /\ rule_userId r = userId
                /\ rule_isActive r = true).
  { intros r. rewrite <- !list_elem_of_In. rewrite merge_sort_Permutation.
    rewrite list_elem_of_filter, andb_true_iff, String.eqb_eq. tauto. }
  split; [exact Hevery |].
  split; [intros r; rewrite Hactive, Hevery; tauto |].
  assert (Htrans : Transitive prisma.alertRule.newest_first)
    by (intros a b c; unfold prisma.alertRule.newest_first; lia).
  split; [apply StronglySorted_merge_sort; [exact Htrans | apply rules_newest_first_total] |].
  split; [apply StronglySorted_merge_sort; [exact Htrans | apply rules_newest_first_total] |].
  intros host category ev Hev. rewrite checkAndTriggerAlert_spec in Hev.
  injection Hev as Hev. unfold decision in Hev.
  destruct (List.find _ (alertRules (db w))) as [rule |] eqn:Hfind; [| discriminate].
  apply find_some in Hfind as [Hin [= Hu Hc]%has_key_iff].
  destruct (rule_isActive rule) eqn:Hact; [| discriminate].
  destruct (Qltb (rule_threshold rule) _); [| discriminate].
  injection Hev as <-. exists rule. rewrite Hactive. auto.
Qed.
